(** * Deteksi-Material-Bak-Cuci: the tracking and timing engine

    A shallow embedding of [src/Deteksi_Material.py]: the [DailyTimer], the
    three trackers ([IndependentAreaTracker], [FreetimeTracker],
    [GloveTracker]) with the shift calendar they share, the conversion of the
    detector's boxes into per-zone flags ([update_all_trackers]) and the
    overflow handling of the frame queue in [Receive].

    Conventions.
    - A Python [datetime] is the number of microseconds since 00:00:00 of day
      0 of an unbounded day count; its [date()] is the day number.  A
      [timedelta] is a number of microseconds.
    - [total_seconds()] yields a float in Python.  The model keeps the exact
      value, scaled by 10^6: a quantity of x seconds is the integer x * 10^6.
      Thresholds such as [1.0] are therefore written [1000000].  Rounding of
      floats is not modelled.
    - Every method takes the object it mutates as its last argument and
      returns the new object, together with the rows it inserted into the
      table [iot_lacquerings] when it can reach the database.
    - What a method reads from the outside world during a call, the wall clock
      ([datetime.now()]) and whether [mysql.connector.connect] yields a live
      connection, comes in an [Env].
    - Logging has no effect on any state and is left out. *)

From Stdlib Require Import ZArith List String Bool Lia Lqa QArith Qround DecimalString.
Import ListNotations.
Open Scope Z_scope.

(** ** Time *)

Definition datetime := Z.
Definition date := Z.
Definition timedelta := Z.

Definition usec_per_second : Z := 1000000.
Definition usec_per_minute : Z := 60 * usec_per_second.
Definition usec_per_hour : Z := 3600 * usec_per_second.
Definition usec_per_day : Z := 86400 * usec_per_second.

(** [dt.date()] *)
Definition date_of (dt : datetime) : date := dt / usec_per_day.
(** microseconds since midnight *)
Definition time_of_day (dt : datetime) : Z := dt mod usec_per_day.
(** [dt.hour], [dt.minute], [dt.second] *)
Definition hour (dt : datetime) : Z := time_of_day dt / usec_per_hour.
Definition minute (dt : datetime) : Z := (time_of_day dt mod usec_per_hour) / usec_per_minute.
Definition second (dt : datetime) : Z := (time_of_day dt mod usec_per_minute) / usec_per_second.

(** [datetime(day, h, m, s, us)] *)
Definition mk_datetime (day h m s us : Z) : datetime :=
  day * usec_per_day + h * usec_per_hour + m * usec_per_minute + s * usec_per_second + us.

(** [d - timedelta(days=1)] *)
Definition previous_day (d : date) : date := d - 1.

(** [(a - b).total_seconds()], scaled by 10^6 *)
Definition total_seconds (a b : datetime) : Z := a - b.

(** [int(x)] of a float number of seconds: truncation towards zero *)
Definition int_of_seconds (x : Z) : Z := Z.quot x usec_per_second.

(** [dt.strftime('%Y-%m-%d %H:%M:%S')]: the text shows the timestamp up to the
    whole second and nothing below it, so it is kept as that timestamp. *)
Definition strftime_seconds (dt : datetime) : datetime := dt - dt mod usec_per_second.

(** [dt.strftime("%H:%M:%S")] *)
Definition strftime_hms (dt : datetime) : Z * Z * Z := (hour dt, minute dt, second dt).

(** The outside world as one call sees it. *)
Record Env := mkEnv {
  now : datetime;          (* datetime.now() *)
  db_connected : bool      (* mysql.connector.connect(...) succeeds and is_connected() *)
}.

(** ** Formatting of durations *)

(** [f"{n:02d}"] *)
Definition pad2 (n : Z) : string :=
  let s := NilZero.string_of_int (Z.to_int n) in
  if (0 <=? n) && (n <? 10) then String.append "0" s else s.

(** The three fields [hours], [minutes], [seconds] computed from a duration
    with [//] and [%] (both floor-based in Python). *)
Definition hms_of_duration (seconds : Z) : Z * Z * Z :=
  (seconds / usec_per_hour,
   (seconds mod usec_per_hour) / usec_per_minute,
   (seconds mod usec_per_minute) / usec_per_second).

Definition format_hms (x : Z * Z * Z) : string :=
  let '(h, m, s) := x in
  String.append (pad2 h) (String.append ":" (String.append (pad2 m) (String.append ":" (pad2 s)))).

Arguments pad2 : simpl never.
Arguments hms_of_duration : simpl never.
Arguments format_hms : simpl never.

(** ** Shifts *)

Inductive Shift := Shift_1 | Shift_2 | Shift_3.

Definition shift_label (s : Shift) : string :=
  match s with Shift_1 => "Shift_1" | Shift_2 => "Shift_2" | Shift_3 => "Shift_3" end.

Definition Shift_eqb (a b : Shift) : bool :=
  match a, b with
  | Shift_1, Shift_1 | Shift_2, Shift_2 | Shift_3, Shift_3 => true
  | _, _ => false
  end.

(** [get_current_shift] and [get_log_date_for_shift] are written out three
    times in the source, word for word the same, as methods of the three
    trackers; none of them reads the tracker.  They are embedded once. *)
Definition get_current_shift (e : Env) (dt : option datetime) : Shift :=
  let dt := match dt with None => now e | Some d => d end in
  let hour := hour dt in
  let minute := minute dt in
  if ((hour =? 7) && (10 <=? minute)) || ((7 <? hour) && (hour <? 16)) then Shift_1
  else if ((16 <=? hour) && (hour <? 24)) || ((hour =? 0) && (minute <=? 15)) then Shift_2
  else Shift_3.

Definition get_log_date_for_shift (e : Env) (dt : option datetime) : date :=
  let dt := match dt with None => now e | Some d => d end in
  let shift := get_current_shift e (Some dt) in
  let hour := hour dt in
  let minute := minute dt in
  if Shift_eqb shift Shift_3 then previous_day (date_of dt)
  else if Shift_eqb shift Shift_2 && (hour =? 0) && (minute <=? 15) then previous_day (date_of dt)
  else date_of dt.

(** ** Rows of the table [iot_lacquerings] *)

Record Row := mkRow {
  area : string;
  time : string;           (* HH:MM:SS *)
  time_int : Z;            (* whole seconds *)
  time_in : datetime;      (* '%Y-%m-%d %H:%M:%S' *)
  shift : Shift;
  remark : string;
  no_area : Z;
  log_date : date;
  created_at : datetime    (* '%Y-%m-%d %H:%M:%S' *)
}.

(** The body the three [save_*_data] methods share: they differ in the value
    of [no_area] only.  Nothing is inserted when the connection fails; the
    exception is caught and logged. *)
Definition save_row (e : Env) (area_name_db : string) (number : Z)
    (time_format : string) (time_in created_at : datetime) (remark : string) : list Row :=
  if db_connected e then
    let shift_info := get_current_shift e (Some time_in) in
    let time_in_str := strftime_seconds time_in in
    let created_at_str := strftime_seconds created_at in
    let log_date := get_log_date_for_shift e (Some time_in) in
    let session_duration := total_seconds created_at time_in in
    [ mkRow area_name_db time_format (int_of_seconds session_duration) time_in_str
            shift_info remark number log_date created_at_str ]
  else [].

(** ** DailyTimer *)

Module DailyTimer.

Record t := mk {
  area_name : string;
  daily_total_seconds : Z;
  last_reset_date : date;
  current_session_start : option datetime;
  is_active : bool
}.

Definition init (e : Env) (area_name : string) : t :=
  mk area_name 0 (date_of (now e)) None false.

Definition check_daily_reset (e : Env) (self : t) : t :=
  let current_date := date_of (now e) in
  if last_reset_date self <? current_date then
    mk (area_name self) 0 current_date (current_session_start self) (is_active self)
  else self.

Definition start_session (e : Env) (start_time : datetime) (self : t) : t :=
  if negb (is_active self) then
    check_daily_reset e
      (mk (area_name self) (daily_total_seconds self) (last_reset_date self)
          (Some start_time) true)
  else self.

(** Returns the timer and the duration of the session it closed. *)
Definition end_session (end_time : datetime) (self : t) : t * Z :=
  match is_active self, current_session_start self with
  | true, Some start =>
      let session_duration := total_seconds end_time start in
      (mk (area_name self) (daily_total_seconds self + session_duration)
          (last_reset_date self) None false,
       session_duration)
  | _, _ => (self, 0)
  end.

Definition get_current_session_duration (e : Env) (self : t) : Z :=
  match is_active self, current_session_start self with
  | true, Some start => total_seconds (now e) start
  | _, _ => 0
  end.

Definition get_daily_total (e : Env) (self : t) : Z :=
  let total := daily_total_seconds self in
  if is_active self then total + get_current_session_duration e self else total.

Definition force_daily_reset (e : Env) (self : t) : t :=
  mk (area_name self) 0 (date_of (now e)) (current_session_start self) (is_active self).

Definition format_duration (seconds : Z) : string :=
  format_hms (hms_of_duration seconds).

End DailyTimer.

(** ** Boxes of the detector *)

(** [box.xyxy[0]], [int(box.cls[0])], [float(box.conf[0])].  Coordinates and
    confidences are finite floats, hence rationals; comparisons of floats are
    exact, so they are comparisons in [Q].  The centre of a box is computed
    exactly: the rounding of the float sum is not modelled. *)
Record Box := mkBox {
  xyxy : Q * Q * Q * Q;
  cls : Z;
  conf : Q
}.

Definition center_x (b : Q * Q * Q * Q) : Q :=
  let '(x0, _, x2, _) := b in ((x0 + x2) / 2)%Q.
Definition center_y (b : Q * Q * Q * Q) : Q :=
  let '(_, y1, _, y3) := b in ((y1 + y3) / 2)%Q.

(** [int(x)] of a float: truncation towards zero *)
Definition int_of_float (x : Q) : Z :=
  if Qle_bool 0 x then Qfloor x else Qceiling x.

(** The literal [0.6] is the double nearest to 6/10. *)
Definition conf_threshold : Q := 5404319552844595 # 9007199254740992.

(** [a > b] on floats *)
Definition Qgt_bool (a b : Q) : bool := negb (Qle_bool a b).

(** ** IndependentAreaTracker *)

Module IndependentAreaTracker.

Record t := mk {
  area_name : string;
  area_bbox : Z * Z * Z * Z;
  area_name_db : string;
  area_number : Z;
  is_material_present : bool;
  material_start_time : option datetime;
  last_detection_time : option datetime;
  material_entry_time : option (Z * Z * Z);
  daily_timer : DailyTimer.t;
  material_lost_threshold : Z
}.

(** [area_number] is what [int(area_name.split()[1])] reads off the name
    "Area X"; the constructor receives it. *)
Definition init (e : Env) (area_name : string) (area_number : Z)
    (area_bbox : Z * Z * Z * Z) (area_name_db : string) : t :=
  mk area_name area_bbox area_name_db area_number
     false None None None (DailyTimer.init e area_name) 1000000.

Definition is_inside_area (self : t) (obj_bbox : Q * Q * Q * Q) : bool :=
  let obj_center_x := center_x obj_bbox in
  let obj_center_y := center_y obj_bbox in
  let '(a0, a1, a2, a3) := area_bbox self in
  Qle_bool (inject_Z a0) obj_center_x && Qle_bool obj_center_x (inject_Z a2)
  && Qle_bool (inject_Z a1) obj_center_y && Qle_bool obj_center_y (inject_Z a3).

Definition save_area_data (e : Env) (self : t)
    (time_format : string) (time_in created_at : datetime) (remark : string) : list Row :=
  save_row e (area_name_db self) (area_number self) time_format time_in created_at remark.

Definition handle_material_exit (e : Env) (exit_time : datetime) (self : t) : t * list Row :=
  match is_material_present self, material_start_time self with
  | true, Some start =>
      let '(timer, session_duration) := DailyTimer.end_session exit_time (daily_timer self) in
      let time_format := format_hms (hms_of_duration session_duration) in
      let rows := save_area_data e self time_format start exit_time "in_use" in
      (mk (area_name self) (area_bbox self) (area_name_db self) (area_number self)
          false None None None timer (material_lost_threshold self),
       rows)
  | _, _ => (self, [])
  end.

Definition update_detection (e : Env) (current_time : datetime) (material_detected : bool)
    (self : t) : t * list Row :=
  if material_detected then
    if negb (is_material_present self) then
      (mk (area_name self) (area_bbox self) (area_name_db self) (area_number self)
          true (Some current_time) (Some current_time)
          (Some (strftime_hms current_time))
          (DailyTimer.start_session e current_time (daily_timer self))
          (material_lost_threshold self),
       [])
    else
      (mk (area_name self) (area_bbox self) (area_name_db self) (area_number self)
          (is_material_present self) (material_start_time self) (Some current_time)
          (material_entry_time self) (daily_timer self) (material_lost_threshold self),
       [])
  else
    match is_material_present self, last_detection_time self with
    | true, Some last =>
        let time_since_last := total_seconds current_time last in
        if material_lost_threshold self <=? time_since_last
        then handle_material_exit e current_time self
        else (self, [])
    | _, _ => (self, [])
    end.

Definition get_status (self : t) : string :=
  if is_material_present self then "Material" else "Kosong".

Definition get_current_duration (e : Env) (self : t) : Z :=
  DailyTimer.get_current_session_duration e (daily_timer self).

Definition get_daily_total_duration (e : Env) (self : t) : Z :=
  DailyTimer.get_daily_total e (daily_timer self).

Definition reset_daily_timer (e : Env) (self : t) : t :=
  mk (area_name self) (area_bbox self) (area_name_db self) (area_number self)
     (is_material_present self) (material_start_time self) (last_detection_time self)
     (material_entry_time self) (DailyTimer.force_daily_reset e (daily_timer self))
     (material_lost_threshold self).

(** One frame as the tracker receives it. *)
Record Frame := mkFrame {
  f_env : Env;
  f_time : datetime;
  f_detected : bool
}.

(** The tracker fed a sequence of frames; the rows come out in order. *)
Fixpoint run (fs : list Frame) (self : t) : t * list Row :=
  match fs with
  | [] => (self, [])
  | f :: fs' =>
      let '(s1, r1) := update_detection (f_env f) (f_time f) (f_detected f) self in
      let '(s2, r2) := run fs' s1 in
      (s2, r1 ++ r2)
  end.

End IndependentAreaTracker.

(** ** FreetimeTracker *)

Module FreetimeTracker.

Record t := mk {
  area_name_db : string;
  is_freetime_active : bool;
  freetime_start_time : option datetime;
  freetime_threshold : Z;
  all_empty_start : option datetime;
  daily_timer : DailyTimer.t
}.

Definition init (e : Env) (area_name_db : string) : t :=
  mk area_name_db false None 2000000 None (DailyTimer.init e "Freetime").

Definition save_freetime_data (e : Env) (self : t)
    (time_format : string) (time_in created_at : datetime) (remark : string) : list Row :=
  save_row e (area_name_db self) 0 time_format time_in created_at remark.

Definition end_freetime (e : Env) (end_time : datetime) (reason : string) (self : t)
    : t * list Row :=
  match is_freetime_active self, freetime_start_time self with
  | true, Some start =>
      let '(timer, session_duration) := DailyTimer.end_session end_time (daily_timer self) in
      let time_format := format_hms (hms_of_duration session_duration) in
      let rows := save_freetime_data e self time_format start end_time "freetime" in
      (mk (area_name_db self) false None (freetime_threshold self)
          (all_empty_start self) timer,
       rows)
  | _, _ => (self, [])
  end.

Definition update_freetime_status (e : Env) (all_areas_empty : bool)
    (current_time : datetime) (self : t) : t * list Row :=
  if all_areas_empty then
    match all_empty_start self with
    | None =>
        (mk (area_name_db self) (is_freetime_active self) (freetime_start_time self)
            (freetime_threshold self) (Some current_time) (daily_timer self),
         [])
    | Some since =>
        let empty_duration := total_seconds current_time since in
        if (freetime_threshold self <=? empty_duration) && negb (is_freetime_active self) then
          (mk (area_name_db self) true (Some current_time) (freetime_threshold self)
              (all_empty_start self)
              (DailyTimer.start_session e current_time (daily_timer self)),
           [])
        else (self, [])
    end
  else
    let '(s1, rows) :=
      if is_freetime_active self
      then end_freetime e current_time "material_detected" self
      else (self, []) in
    (mk (area_name_db s1) (is_freetime_active s1) (freetime_start_time s1)
        (freetime_threshold s1) None (daily_timer s1),
     rows).

Definition get_current_duration (e : Env) (self : t) : Z :=
  DailyTimer.get_current_session_duration e (daily_timer self).

Definition get_daily_total_duration (e : Env) (self : t) : Z :=
  DailyTimer.get_daily_total e (daily_timer self).

Definition reset_daily_timer (e : Env) (self : t) : t :=
  mk (area_name_db self) (is_freetime_active self) (freetime_start_time self)
     (freetime_threshold self) (all_empty_start self)
     (DailyTimer.force_daily_reset e (daily_timer self)).

Record Frame := mkFrame {
  f_env : Env;
  f_time : datetime;
  f_all_empty : bool
}.

Fixpoint run (fs : list Frame) (self : t) : t * list Row :=
  match fs with
  | [] => (self, [])
  | f :: fs' =>
      let '(s1, r1) := update_freetime_status (f_env f) (f_all_empty f) (f_time f) self in
      let '(s2, r2) := run fs' s1 in
      (s2, r1 ++ r2)
  end.

End FreetimeTracker.

(** ** GloveTracker *)

Module GloveTracker.

Record t := mk {
  area_polygon : list (Z * Z);
  area_name_db : string;
  is_glove_detected : bool;
  glove_start_time : option datetime;
  last_glove_detection : option datetime;
  glove_lost_threshold : Z;
  was_freetime_before_glove : bool;
  daily_timer : DailyTimer.t
}.

Definition init (e : Env) (area_polygon : list (Z * Z)) (area_name_db : string) : t :=
  mk area_polygon area_name_db false None None 1000000 false (DailyTimer.init e "Glove").

(** [cv2.pointPolygonTest(polygon, point, False)] belongs to OpenCV, not to
    this program: it is a parameter.  Its result is positive inside the
    polygon, zero on an edge and negative outside. *)
Definition is_inside_area (pointPolygonTest : list (Z * Z) -> Z * Z -> Q)
    (self : t) (obj_bbox : Q * Q * Q * Q) : bool :=
  let obj_center_x := center_x obj_bbox in
  let obj_center_y := center_y obj_bbox in
  let point := (int_of_float obj_center_x, int_of_float obj_center_y) in
  let result := pointPolygonTest (area_polygon self) point in
  Qle_bool 0 result.

Definition save_glove_data (e : Env) (self : t)
    (time_format : string) (time_in created_at : datetime) (remark : string) : list Row :=
  save_row e (area_name_db self) 5 time_format time_in created_at remark.

Definition handle_glove_exit (e : Env) (exit_time : datetime) (self : t) : t * list Row :=
  match is_glove_detected self, glove_start_time self with
  | true, Some start =>
      let '(timer, rows) :=
        if was_freetime_before_glove self then
          let '(timer, session_duration) :=
            DailyTimer.end_session exit_time (daily_timer self) in
          let time_format := format_hms (hms_of_duration session_duration) in
          (timer, save_glove_data e self time_format start exit_time "in_use")
        else (daily_timer self, []) in
      (mk (area_polygon self) (area_name_db self) false None None
          (glove_lost_threshold self) false timer,
       rows)
  | _, _ => (self, [])
  end.

(** The freetime tracker is passed by reference and may be changed by the
    call: it is returned next to the glove tracker. *)
Definition update_glove_detection (e : Env) (current_time : datetime) (glove_detected : bool)
    (freetime_tracker : FreetimeTracker.t) (self : t)
    : t * FreetimeTracker.t * list Row :=
  if glove_detected then
    if negb (is_glove_detected self) then
      if FreetimeTracker.is_freetime_active freetime_tracker then
        let '(ft, rows) :=
          FreetimeTracker.end_freetime e current_time "glove_detected" freetime_tracker in
        (mk (area_polygon self) (area_name_db self) true (Some current_time)
            (Some current_time) (glove_lost_threshold self) true
            (DailyTimer.start_session e current_time (daily_timer self)),
         ft, rows)
      else
        (mk (area_polygon self) (area_name_db self) true (Some current_time)
            (Some current_time) (glove_lost_threshold self) false (daily_timer self),
         freetime_tracker, [])
    else
      (mk (area_polygon self) (area_name_db self) (is_glove_detected self)
          (glove_start_time self) (Some current_time) (glove_lost_threshold self)
          (was_freetime_before_glove self) (daily_timer self),
       freetime_tracker, [])
  else
    match is_glove_detected self, last_glove_detection self with
    | true, Some last =>
        let time_since_last := total_seconds current_time last in
        if glove_lost_threshold self <=? time_since_last
        then let '(s1, rows) := handle_glove_exit e current_time self in
             (s1, freetime_tracker, rows)
        else (self, freetime_tracker, [])
    | _, _ => (self, freetime_tracker, [])
    end.

Definition get_status (self : t) : string :=
  if is_glove_detected self then "Sarung_Tangan" else "Kosong".

Definition get_daily_total_duration (e : Env) (self : t) : Z :=
  DailyTimer.get_daily_total e (daily_timer self).

Definition reset_daily_timer (e : Env) (self : t) : t :=
  mk (area_polygon self) (area_name_db self) (is_glove_detected self)
     (glove_start_time self) (last_glove_detection self) (glove_lost_threshold self)
     (was_freetime_before_glove self) (DailyTimer.force_daily_reset e (daily_timer self)).

(** One frame as the glove tracker receives it: the freetime tracker it is
    handed belongs to the caller and has its own life between frames. *)
Record Frame := mkFrame {
  f_env : Env;
  f_time : datetime;
  f_detected : bool;
  f_freetime : FreetimeTracker.t
}.

Fixpoint run (fs : list Frame) (self : t) : t * list Row :=
  match fs with
  | [] => (self, [])
  | f :: fs' =>
      let '(s1, _, r1) :=
        update_glove_detection (f_env f) (f_time f) (f_detected f) (f_freetime f) self in
      let '(s2, r2) := run fs' s1 in
      (s2, r1 ++ r2)
  end.

End GloveTracker.

(** ** EnhancedMaterialDippingDetection: the per-frame entry point *)

Module EnhancedMaterialDippingDetection.

(** [area_trackers] is a dict; it is iterated in insertion order, which the
    association list keeps.  Its keys are pairwise different. *)
Record t := mk {
  area_trackers : list (string * IndependentAreaTracker.t);
  freetime_tracker : FreetimeTracker.t;
  glove_tracker : GloveTracker.t
}.

Definition material_areas : list (string * Z * (Z * Z * Z * Z)) :=
  [ ("Area 1"%string, 1, (552, 292, 674, 422));
    ("Area 2"%string, 2, (709, 393, 835, 526));
    ("Area 3"%string, 3, (870, 529, 1052, 700));
    ("Area 4"%string, 4, (1101, 690, 1291, 874)) ].

Definition glove_area : list (Z * Z) :=
  [ (396, 482); (761, 180); (1609, 614); (1283, 1080); (970, 1080) ].

Definition init (e : Env) (area_name_db : string) : t :=
  mk (map (fun '(name, number, bbox) =>
             (name, IndependentAreaTracker.init e name number bbox area_name_db))
          material_areas)
     (FreetimeTracker.init e area_name_db)
     (GloveTracker.init e glove_area area_name_db).

(** [material_detections[area_name] = True] *)
Definition set_true (area_name : string) (md : list (string * bool)) : list (string * bool) :=
  map (fun '(n, b) => if String.eqb n area_name then (n, true) else (n, b)) md.

(** [material_detections[area_name]] *)
Fixpoint get_flag (area_name : string) (md : list (string * bool)) : bool :=
  match md with
  | [] => false
  | (n, b) :: md' => if String.eqb n area_name then b else get_flag area_name md'
  end.

(** The inner [for ... if tracker.is_inside_area(bbox): ...; break]: the
    first area that holds the centre of the box. *)
Fixpoint first_area_inside (trackers : list (string * IndependentAreaTracker.t))
    (bbox : Q * Q * Q * Q) : option string :=
  match trackers with
  | [] => None
  | (n, tr) :: rest =>
      if IndependentAreaTracker.is_inside_area tr bbox then Some n
      else first_area_inside rest bbox
  end.

(** The body of [for box in results[0].boxes]. *)
Definition process_box (pointPolygonTest : list (Z * Z) -> Z * Z -> Q) (self : t)
    (flags : list (string * bool) * bool) (box : Box) : list (string * bool) * bool :=
  let '(material_detections, glove_detected) := flags in
  let bbox := xyxy box in
  if (cls box =? 0) && Qgt_bool (conf box) conf_threshold then
    match first_area_inside (area_trackers self) bbox with
    | Some n => (set_true n material_detections, glove_detected)
    | None => flags
    end
  else if (cls box =? 2) && Qgt_bool (conf box) conf_threshold then
    if GloveTracker.is_inside_area pointPolygonTest (glove_tracker self) bbox
    then (material_detections, true)
    else flags
  else flags.

(** The first half of [update_all_trackers]: from the boxes of one frame
    ([None] when [results[0].boxes is None]) to [material_detections] and
    [glove_detected]. *)
Definition detection_flags (pointPolygonTest : list (Z * Z) -> Z * Z -> Q) (self : t)
    (boxes : option (list Box)) : list (string * bool) * bool :=
  let flags0 := (map (fun '(n, _) => (n, false)) (area_trackers self), false) in
  match boxes with
  | None => flags0
  | Some bs => fold_left (process_box pointPolygonTest self) bs flags0
  end.

Fixpoint update_area_trackers (e : Env) (current_time : datetime)
    (material_detections : list (string * bool))
    (trackers : list (string * IndependentAreaTracker.t))
    : list (string * IndependentAreaTracker.t) * list Row :=
  match trackers with
  | [] => ([], [])
  | (n, tr) :: rest =>
      let '(tr', r1) :=
        IndependentAreaTracker.update_detection e current_time
          (get_flag n material_detections) tr in
      let '(rest', r2) := update_area_trackers e current_time material_detections rest in
      ((n, tr') :: rest', r1 ++ r2)
  end.

Definition update_all_trackers (pointPolygonTest : list (Z * Z) -> Z * Z -> Q)
    (e : Env) (boxes : option (list Box)) (current_time : datetime) (self : t)
    : t * list Row :=
  let '(material_detections, glove_detected) :=
    detection_flags pointPolygonTest self boxes in
  let '(trackers, r1) :=
    update_area_trackers e current_time material_detections (area_trackers self) in
  let all_areas_empty := negb (existsb snd material_detections) in
  let '(ft, r2) :=
    FreetimeTracker.update_freetime_status e all_areas_empty current_time
      (freetime_tracker self) in
  let '(gt, ft', r3) :=
    GloveTracker.update_glove_detection e current_time glove_detected ft
      (glove_tracker self) in
  (mk trackers ft' gt, r1 ++ r2 ++ r3).

Definition get_bak_status (self : t) : bool :=
  let any_material :=
    existsb (fun p => IndependentAreaTracker.is_material_present (snd p)) (area_trackers self) in
  let gloves_detected := GloveTracker.is_glove_detected (glove_tracker self) in
  any_material || gloves_detected.

(** The first loop of [cleanup]: every zone that holds material is made to
    exit. *)
Fixpoint exit_areas (e : Env) (current_time : datetime)
    (trackers : list (string * IndependentAreaTracker.t))
    : list (string * IndependentAreaTracker.t) * list Row :=
  match trackers with
  | [] => ([], [])
  | (n, tr) :: rest =>
      let '(tr', r1) :=
        if IndependentAreaTracker.is_material_present tr
        then IndependentAreaTracker.handle_material_exit e current_time tr
        else (tr, []) in
      let '(rest', r2) := exit_areas e current_time rest in
      ((n, tr') :: rest', r1 ++ r2)
  end.

(** [cleanup]: the sessions that are open at shutdown are closed and saved.
    Closing the program's own database connection, which no tracker uses, is
    left out. *)
Definition cleanup (e : Env) (self : t) : t * list Row :=
  let current_time := now e in
  let '(trackers, r1) := exit_areas e current_time (area_trackers self) in
  let '(ft, r2) :=
    if FreetimeTracker.is_freetime_active (freetime_tracker self)
    then FreetimeTracker.end_freetime e current_time "system_shutdown" (freetime_tracker self)
    else (freetime_tracker self, []) in
  let '(gt, r3) :=
    if GloveTracker.is_glove_detected (glove_tracker self)
    then GloveTracker.handle_glove_exit e current_time (glove_tracker self)
    else (glove_tracker self, []) in
  (mk trackers ft gt, r1 ++ r2 ++ r3).

Definition reset_all_daily_timers (e : Env) (self : t) : t :=
  mk (map (fun p => (fst p, IndependentAreaTracker.reset_daily_timer e (snd p)))
          (area_trackers self))
     (FreetimeTracker.reset_daily_timer e (freetime_tracker self))
     (GloveTracker.reset_daily_timer e (glove_tracker self)).

End EnhancedMaterialDippingDetection.

(** ** The frame queue and its overflow handling in [Receive] *)

Module FrameQueue.

(** [queue.Queue(maxsize)]: first in, first out; [maxsize <= 0] means no
    bound. *)
Record t (A : Type) := mk {
  maxsize : Z;
  items : list A
}.
Arguments mk {A} _ _.
Arguments maxsize {A} _.
Arguments items {A} _.

Definition qsize {A} (q : t A) : Z := Z.of_nat (List.length (items q)).

(** [q.put(x, block=False)]; [None] when it raises [queue.Full]. *)
Definition put_nowait {A} (x : A) (q : t A) : option (t A) :=
  if (0 <? maxsize q) && (maxsize q <=? qsize q) then None
  else Some (mk (maxsize q) (items q ++ [x])).

(** [q.get_nowait()]; [None] when it raises [queue.Empty]. *)
Definition get_nowait {A} (q : t A) : option (A * t A) :=
  match items q with
  | [] => None
  | x :: rest => Some (x, mk (maxsize q) rest)
  end.

(** [for _ in range(n): q.get_nowait()].  [inr q'] when the loop ran to its
    end; [inl q'] when a [get_nowait] raised [queue.Empty], the queue being
    left as the earlier iterations made it. *)
Fixpoint get_many {A} (n : nat) (q : t A) : t A + t A :=
  match n with
  | O => inr q
  | S n' =>
      match get_nowait q with
      | None => inl q
      | Some (_, q') => get_many n' q'
      end
  end.

Definition max_queue_size : Z := 100.

(** [frame_queue = queue.Queue(maxsize=max_queue_size)] *)
Definition frame_queue {A} : t A := mk max_queue_size [].

(** How the statement ends: the frame is in the queue, or [queue.Full]
    leaves the statement (no handler around it catches it but the
    [except Exception] of the capture loop). *)
Inductive outcome (A : Type) :=
| Enqueued (q : t A)
| RaisedFull (q : t A).
Arguments Enqueued {A} _.
Arguments RaisedFull {A} _.

(** The [try: frame_queue.put(frame, block=False) except queue.Full: ...]
    of [Receive], with no consumer running in between. *)
Definition enqueue_frame {A} (frame : A) (q : t A) : outcome A :=
  match put_nowait frame q with
  | Some q' => Enqueued q'
  | None =>
      (* except queue.Full *)
      match get_many (Z.to_nat (qsize q / 2)) q with
      | inr q1 =>
          match put_nowait frame q1 with
          | Some q2 => Enqueued q2
          | None => RaisedFull q1
          end
      | inl q1 =>
          (* except queue.Empty *)
          match put_nowait frame q1 with
          | Some q2 => Enqueued q2
          | None => RaisedFull q1
          end
      end
  end.

(** The queue once the statement is over, however it ended. *)
Definition queue_after {A} (o : outcome A) : t A :=
  match o with
  | Enqueued q => q
  | RaisedFull q => q
  end.

(** "after the overflow handling ... the queue length is at most the original
    capacity and the most recently enqueued frame is present in the queue" *)
Definition newest_frame_kept_as_stated {A} (frame : A) (q : t A) : Prop :=
  qsize (queue_after (enqueue_frame frame q)) <= maxsize q
  /\ In frame (items (queue_after (enqueue_frame frame q))).

End FrameQueue.

(** ** The shift calendar as the specification words it *)

Module ShiftCalendarSpec.

(** The time of day in whole seconds since midnight: what HH:MM:SS shows. *)
Definition clock (dt : datetime) : Z := time_of_day dt / usec_per_second.

(** HH:MM:SS as seconds since midnight *)
Definition hms (h m s : Z) : Z := h * 3600 + m * 60 + s.

Definition within (lo hi : Z) (dt : datetime) : Prop := lo <= clock dt <= hi.

(** "Shift_1 = 07:10:00-15:59:59; Shift_2 = 16:00:00-23:59:59 or
    00:00:00-00:15:00; Shift_3 = 00:16:00-07:09:59", each read as "exactly
    when". *)
Definition shift_ranges_as_stated (e : Env) (dt : datetime) : Prop :=
  (get_current_shift e (Some dt) = Shift_1 <-> within (hms 7 10 0) (hms 15 59 59) dt)
  /\ (get_current_shift e (Some dt) = Shift_2 <->
        within (hms 16 0 0) (hms 23 59 59) dt \/ within (hms 0 0 0) (hms 0 15 0) dt)
  /\ (get_current_shift e (Some dt) = Shift_3 <-> within (hms 0 16 0) (hms 7 9 59) dt).

(** "if shift is Shift_3, or (shift is Shift_2 and time-of-day <= 00:15:00),
    log-date = calendar date - 1 day; otherwise log-date = calendar date" *)
Definition log_date_as_stated (e : Env) (dt : datetime) : date :=
  match get_current_shift e (Some dt) with
  | Shift_3 => previous_day (date_of dt)
  | Shift_2 => if clock dt <=? hms 0 15 0 then previous_day (date_of dt) else date_of dt
  | Shift_1 => date_of dt
  end.

(** The same with the bounds the code has: the last minute of Shift_2 runs to
    00:15:59. *)
Definition shift_ranges (e : Env) (dt : datetime) : Prop :=
  (get_current_shift e (Some dt) = Shift_1 <-> within (hms 7 10 0) (hms 15 59 59) dt)
  /\ (get_current_shift e (Some dt) = Shift_2 <->
        within (hms 16 0 0) (hms 23 59 59) dt \/ within (hms 0 0 0) (hms 0 15 59) dt)
  /\ (get_current_shift e (Some dt) = Shift_3 <-> within (hms 0 16 0) (hms 7 9 59) dt).

Definition log_date (e : Env) (dt : datetime) : date :=
  match get_current_shift e (Some dt) with
  | Shift_3 => previous_day (date_of dt)
  | Shift_2 => if clock dt <=? hms 0 15 59 then previous_day (date_of dt) else date_of dt
  | Shift_1 => date_of dt
  end.

End ShiftCalendarSpec.

(** ** Consistency of the states

    What holds of every state the program can reach; the lemmas below show
    that each method keeps it. *)

(** A timer has a session start exactly while it is active. *)
Definition timer_ok (tm : DailyTimer.t) : Prop :=
  DailyTimer.is_active tm = true <-> DailyTimer.current_session_start tm <> None.

(** A zone tracker that holds material knows since when and when it was last
    seen; its timer is consistent. *)
Definition area_ok (tr : IndependentAreaTracker.t) : Prop :=
  timer_ok (IndependentAreaTracker.daily_timer tr)
  /\ (IndependentAreaTracker.is_material_present tr = true ->
      IndependentAreaTracker.material_start_time tr <> None
      /\ IndependentAreaTracker.last_detection_time tr <> None).

(** An active freetime has a start time; the timer is consistent. *)
Definition freetime_ok (ft : FreetimeTracker.t) : Prop :=
  timer_ok (FreetimeTracker.daily_timer ft)
  /\ (FreetimeTracker.is_freetime_active ft = true ->
      FreetimeTracker.freetime_start_time ft <> None).

(** A glove tracker that sees a glove knows since when and when it was last
    seen; its timer runs only during a glove session that followed freetime. *)
Definition glove_ok (g : GloveTracker.t) : Prop :=
  timer_ok (GloveTracker.daily_timer g)
  /\ (GloveTracker.is_glove_detected g = true ->
      GloveTracker.glove_start_time g <> None
      /\ GloveTracker.last_glove_detection g <> None)
  /\ (DailyTimer.is_active (GloveTracker.daily_timer g) = true ->
      GloveTracker.is_glove_detected g = true
      /\ GloveTracker.was_freetime_before_glove g = true).

(** ** Presence signals

    What a debounced tracker sees of a frame: its time and whether the thing
    it watches was detected. *)

Module Presence.

Definition signal := (datetime * bool)%type.

(** No frame without detection comes [thr] or more after the latest
    detection before it; [last] is the latest detection before the
    sequence. *)
Fixpoint within_grace (thr : Z) (last : datetime) (fs : list signal) : Prop :=
  match fs with
  | [] => True
  | (t, true) :: fs' => within_grace thr t fs'
  | (t, false) :: fs' => t - last < thr /\ within_grace thr last fs'
  end.

(** The time of the latest detection after the sequence. *)
Fixpoint last_seen (last : datetime) (fs : list signal) : datetime :=
  match fs with
  | [] => last
  | (t, true) :: fs' => last_seen t fs'
  | (_, false) :: fs' => last_seen last fs'
  end.

(** The frames come in the order of their times, none before [from]. *)
Fixpoint chronological (from : datetime) (fs : list signal) : Prop :=
  match fs with
  | [] => True
  | (t, _) :: fs' => from <= t /\ chronological t fs'
  end.

(** The times of the detections, in order. *)
Definition detection_times (fs : list signal) : list datetime :=
  map fst (filter snd fs).

(** Every gap between consecutive detections is shorter than [thr], the gap
    from the detection at [last] to the first one of the list included. *)
Fixpoint gaps_shorter (thr : Z) (last : datetime) (ts : list datetime) : Prop :=
  match ts with
  | [] => True
  | t :: ts' => t - last < thr /\ gaps_shorter thr t ts'
  end.

(** The sequence does not end on a frame without detection. *)
Definition ends_detected (fs : list signal) : Prop :=
  snd (last fs (0, true)) = true.

(** The time of the first frame that comes [thr] or more after [last]. *)
Fixpoint first_loss (thr : Z) (last : datetime) (ts : list datetime) : option datetime :=
  match ts with
  | [] => None
  | t :: ts' => if thr <=? t - last then Some t else first_loss thr last ts'
  end.

End Presence.

Definition area_signals (fs : list IndependentAreaTracker.Frame) : list Presence.signal :=
  map (fun f => (IndependentAreaTracker.f_time f, IndependentAreaTracker.f_detected f)) fs.

Definition glove_signals (fs : list GloveTracker.Frame) : list Presence.signal :=
  map (fun f => (GloveTracker.f_time f, GloveTracker.f_detected f)) fs.

(** The zone tracker with another time of last detection. *)
Definition seen_at (t : datetime) (tr : IndependentAreaTracker.t) : IndependentAreaTracker.t :=
  IndependentAreaTracker.mk
    (IndependentAreaTracker.area_name tr) (IndependentAreaTracker.area_bbox tr)
    (IndependentAreaTracker.area_name_db tr) (IndependentAreaTracker.area_number tr)
    (IndependentAreaTracker.is_material_present tr)
    (IndependentAreaTracker.material_start_time tr) (Some t)
    (IndependentAreaTracker.material_entry_time tr)
    (IndependentAreaTracker.daily_timer tr)
    (IndependentAreaTracker.material_lost_threshold tr).

(** The glove tracker with another time of last detection. *)
Definition glove_seen_at (t : datetime) (g : GloveTracker.t) : GloveTracker.t :=
  GloveTracker.mk
    (GloveTracker.area_polygon g) (GloveTracker.area_name_db g)
    (GloveTracker.is_glove_detected g) (GloveTracker.glove_start_time g) (Some t)
    (GloveTracker.glove_lost_threshold g) (GloveTracker.was_freetime_before_glove g)
    (GloveTracker.daily_timer g).

(** The freetime tracker as the frame that starts freetime leaves it. *)
Definition activated (e : Env) (t : datetime) (ft : FreetimeTracker.t) : FreetimeTracker.t :=
  FreetimeTracker.mk (FreetimeTracker.area_name_db ft) true (Some t)
    (FreetimeTracker.freetime_threshold ft) (FreetimeTracker.all_empty_start ft)
    (DailyTimer.start_session e t (FreetimeTracker.daily_timer ft)).

(** The rows a glove session leaves: those with remark "in_use". *)
Definition in_use_rows (rows : list Row) : list Row :=
  filter (fun r => String.eqb (remark r) "in_use") rows.

(** ** The two scenarios of the specification *)

Module ZoneScenario.

Definition t_first (day : Z) : datetime := mk_datetime day 10 0 0 0.
Definition t_last (day : Z) : datetime := mk_datetime day 10 0 5 0.

(** "material is continuously detected from 10:00:00 to 10:00:05 and never
    detected afterwards": [seen] are the frames up to 10:00:05, the first at
    10:00:00 and the last at 10:00:05, all with material; [after] are the
    later frames, all without, the database being reachable at each. *)
Definition frames_ok (day : Z) (seen after : list IndependentAreaTracker.Frame) : Prop :=
  (exists f rest, seen = f :: rest /\ IndependentAreaTracker.f_time f = t_first day)
  /\ (exists rest f, seen = rest ++ [f] /\ IndependentAreaTracker.f_time f = t_last day)
  /\ Forall (fun f => IndependentAreaTracker.f_detected f = true
                      /\ t_first day <= IndependentAreaTracker.f_time f <= t_last day) seen
  /\ Forall (fun f => IndependentAreaTracker.f_detected f = false
                      /\ t_last day < IndependentAreaTracker.f_time f
                      /\ db_connected (IndependentAreaTracker.f_env f) = true) after.

(** "exactly one SessionRecord is produced, with duration_seconds = 5,
    time_in = 10:00:00, shift = Shift_1, and remark = in_use" *)
Definition outcome_as_stated (day : Z) (rows : list Row) : Prop :=
  exists r, rows = [r] /\ time_int r = 5 /\ time_in r = t_first day
            /\ shift r = Shift_1 /\ remark r = "in_use"%string.

(** Material seen at every full second from 10:00:00 to 10:00:05 of day 0,
    then frames without material at 10:00:05.5, 10:00:06 and 10:00:07. *)
Definition frame_at (s us : Z) (detected : bool) : IndependentAreaTracker.Frame :=
  IndependentAreaTracker.mkFrame (mkEnv (mk_datetime 0 10 0 s us) true)
    (mk_datetime 0 10 0 s us) detected.

Definition example_seen : list IndependentAreaTracker.Frame :=
  map (fun s => frame_at s 0 true) [0; 1; 2; 3; 4; 5].

Definition example_after : list IndependentAreaTracker.Frame :=
  [frame_at 5 500000 false; frame_at 6 0 false; frame_at 7 0 false].

Definition example_tracker : IndependentAreaTracker.t :=
  IndependentAreaTracker.init (mkEnv (mk_datetime 0 8 0 0 0) true)
    "Area 1" 1 (552, 292, 674, 422) "bak_alkali".

End ZoneScenario.

Module FreetimeScenario.

Definition t_first (day : Z) : datetime := mk_datetime day 9 0 0 0.
Definition t_material (day : Z) : datetime := mk_datetime day 9 0 3 500000.

(** "all zones are empty from 09:00:00 until material appears at 09:00:03.5
    (the 2-second freetime threshold being exceeded)": [first] is the frame
    at 09:00:00 and [empty] the frames that follow it before 09:00:03.5, all
    with every zone empty, one of them at 09:00:02 or later; [material] is
    the frame at 09:00:03.5. *)
Definition frames_ok (day : Z) (first : FreetimeTracker.Frame)
    (empty : list FreetimeTracker.Frame) (material : FreetimeTracker.Frame) : Prop :=
  FreetimeTracker.f_time first = t_first day
  /\ FreetimeTracker.f_all_empty first = true
  /\ Forall (fun f => FreetimeTracker.f_all_empty f = true
                      /\ t_first day <= FreetimeTracker.f_time f < t_material day) empty
  /\ Exists (fun f => t_first day + 2000000 <= FreetimeTracker.f_time f) empty
  /\ FreetimeTracker.f_time material = t_material day
  /\ FreetimeTracker.f_all_empty material = false
  /\ db_connected (FreetimeTracker.f_env material) = true.

(** "approximately 3": within one second of 3 *)
Definition about_3 (d : Z) : Prop := 2 <= d <= 4.

(** "exactly one freetime SessionRecord is produced, with duration_seconds
    approximately 3 and remark = freetime" *)
Definition outcome_as_stated (rows : list Row) : Prop :=
  exists r, rows = [r] /\ about_3 (time_int r) /\ remark r = "freetime"%string.

(** Frames every half second of day 0: all zones empty from 09:00:00 to
    09:00:03, material at 09:00:03.5. *)
Definition frame_at (s us : Z) (all_empty : bool) : FreetimeTracker.Frame :=
  FreetimeTracker.mkFrame (mkEnv (mk_datetime 0 9 0 s us) true)
    (mk_datetime 0 9 0 s us) all_empty.

Definition example_first : FreetimeTracker.Frame := frame_at 0 0 true.

Definition example_empty : list FreetimeTracker.Frame :=
  [frame_at 0 500000 true; frame_at 1 0 true; frame_at 1 500000 true;
   frame_at 2 0 true; frame_at 2 500000 true; frame_at 3 0 true].

Definition example_material : FreetimeTracker.Frame := frame_at 3 500000 false.

Definition example_tracker : FreetimeTracker.t :=
  FreetimeTracker.init (mkEnv (mk_datetime 0 8 0 0 0) true) "bak_alkali".

End FreetimeScenario.

(** ** Two glove sessions, for illustration *)

Module GloveScenario.

Definition at_time (s us : Z) : datetime := mk_datetime 0 9 0 s us.

(** A freetime tracker in which freetime is active since 09:00:02. *)
Definition freetime_active : FreetimeTracker.t :=
  fst (FreetimeTracker.run
         [ FreetimeScenario.frame_at 0 0 true; FreetimeScenario.frame_at 2 0 true ]
         FreetimeScenario.example_tracker).

(** A freetime tracker in which freetime is not active. *)
Definition freetime_idle : FreetimeTracker.t := FreetimeScenario.example_tracker.

Definition example_tracker : GloveTracker.t :=
  GloveTracker.init (mkEnv (mk_datetime 0 8 0 0 0) true)
    EnhancedMaterialDippingDetection.glove_area "bak_alkali".

Definition frame_at (s us : Z) (detected : bool) (ft : FreetimeTracker.t) : GloveTracker.Frame :=
  GloveTracker.mkFrame (mkEnv (at_time s us) true) (at_time s us) detected ft.

(** The glove is first seen at 09:00:05, seen again at 09:00:05.5 and
    09:00:07, and given up at 09:00:08. *)
Definition example_mid (ft : FreetimeTracker.t) : list GloveTracker.Frame :=
  [ frame_at 5 500000 true ft; frame_at 6 0 false ft; frame_at 7 0 true ft;
    frame_at 7 500000 false ft ].

Definition example_exit (ft : FreetimeTracker.t) : GloveTracker.Frame :=
  frame_at 8 0 false ft.

(** The rows of the whole session, the glove first seen with [ft0] at hand. *)
Definition session_rows (ft0 : FreetimeTracker.t) : list Row :=
  let entry :=
    GloveTracker.update_glove_detection (mkEnv (at_time 5 0) true) (at_time 5 0) true ft0
      example_tracker in
  let between := GloveTracker.run (example_mid (snd (fst entry))) (fst (fst entry)) in
  let exit :=
    GloveTracker.update_glove_detection (GloveTracker.f_env (example_exit (snd (fst entry))))
      (GloveTracker.f_time (example_exit (snd (fst entry)))) false
      (GloveTracker.f_freetime (example_exit (snd (fst entry)))) (fst between) in
  snd entry ++ snd between ++ snd exit.

End GloveScenario.

(** ** Three boxes, for illustration *)

Module DetectionExample.

(** A polygon test that finds every point inside. *)
Definition all_inside (polygon : list (Z * Z)) (point : Z * Z) : Q := 1%Q.

Definition detector : EnhancedMaterialDippingDetection.t :=
  EnhancedMaterialDippingDetection.init (mkEnv (mk_datetime 0 8 0 0 0) true) "bak_alkali".

(** A box whose centre (613, 357) lies in Area 1. *)
Definition in_area_1 : Q * Q * Q * Q := (600 # 1, 340 # 1, 626 # 1, 374 # 1)%Q.

Definition material_at_threshold : Box := mkBox in_area_1 0 conf_threshold.
Definition glove_at_threshold : Box := mkBox in_area_1 2 conf_threshold.
Definition other_class : Box := mkBox in_area_1 1 (99 # 100).
Definition material_above : Box := mkBox in_area_1 0 (61 # 100).

End DetectionExample.

(** ** More of the program *)

(** *** The capture loop of [Receive] *)

Module Capture.

(** The frames the capture loop puts into the queue, one after the other,
    with no consumer taking any; [None] when a [queue.Full] leaves the
    statement (the capture loop then reconnects). *)
Fixpoint enqueue_all {A} (frames : list A) (q : FrameQueue.t A) : option (FrameQueue.t A) :=
  match frames with
  | [] => Some q
  | f :: rest =>
      match FrameQueue.enqueue_frame f q with
      | FrameQueue.Enqueued q' => enqueue_all rest q'
      | FrameQueue.RaisedFull _ => None
      end
  end.

Definition reconnect_delay : Q := 5.
Definition max_reconnect_attempts : Z := 10.
Definition backoff_factor : Q := 3 # 2.

(** [min(a, b)] on floats: [b] when it is the smaller one. *)
Definition min (a b : Q) : Q := if Qgt_bool a b then b else a.

(** The wait before the next connection, [reconnect_attempts] having been
    incremented already.  The powers of 1.5 that occur (up to the ninth) and
    their products with 5 are exact as floats. *)
Definition delay (reconnect_attempts : Z) : Q :=
  if reconnect_attempts <=? max_reconnect_attempts then
    min 30 (reconnect_delay * Qpower backoff_factor (reconnect_attempts - 1))
  else 30.

End Capture.

(** *** SystemWatchdog *)

Module SystemWatchdog.

(** Times are [time.time()]: seconds as floats, hence rationals. *)
Record t := mk {
  last_activity : Q;
  freeze_threshold : Q;
  memory_threshold : Q;
  is_monitoring : bool
}.

Definition init (clock : Q) : t := mk clock 15 90 true.

Definition update_activity (clock : Q) (self : t) : t :=
  mk clock (freeze_threshold self) (memory_threshold self) (is_monitoring self).

(** [while not frame_queue.empty(): frame_queue.get_nowait()], nobody else
    touching the queue: one frame goes per turn. *)
Fixpoint drain {A} (items : list A) : list A :=
  match items with
  | [] => []
  | _ :: rest => drain rest
  end.

(** [clock] is what [time.time()] returns once the queue is drained. *)
Definition emergency_recovery {A} (clock : Q) (self : t) (q : FrameQueue.t A)
    : t * FrameQueue.t A :=
  (mk clock (freeze_threshold self) (memory_threshold self) (is_monitoring self),
   FrameQueue.mk (FrameQueue.maxsize q) (drain (FrameQueue.items q))).

(** [current_time] is the reading at the start of the check, [clock] the one
    of the recovery, should there be one.  The memory figure of [psutil] only
    leads to a log line and a [gc.collect()]: it changes neither state. *)
Definition check_system_health {A} (current_time clock : Q) (memory_percent : Q)
    (self : t) (q : FrameQueue.t A) : t * FrameQueue.t A :=
  if Qgt_bool (current_time - last_activity self) (freeze_threshold self)
  then emergency_recovery clock self q
  else (self, q).

End SystemWatchdog.

(** *** connect_database *)

Module ConnectDatabase.

(** What one call of [mysql.connector.connect] does. *)
Inductive outcome :=
| Connected        (* a connection for which is_connected() holds *)
| NotConnected     (* a connection for which it does not *)
| Failed.          (* mysql.connector.Error is raised *)

Definition max_retries : nat := 3.

(** The loop [for attempt in range(max_retries)] from iteration [attempt] on,
    [world] telling what each call of [connect] does.  The result says whether
    the method returned with a live connection, how many calls it made and
    the seconds it slept, in order. *)
Fixpoint attempts_from (fuel : nat) (attempt : nat) (retry_delay : Z)
    (world : nat -> outcome) : bool * nat * list Z :=
  match fuel with
  | O => (false, attempt, [])
  | S fuel' =>
      match world attempt with
      | Connected => (true, S attempt, [])
      | NotConnected => attempts_from fuel' (S attempt) retry_delay world
      | Failed =>
          if (attempt <? max_retries - 1)%nat then
            let '(ok, n, slept) := attempts_from fuel' (S attempt) (retry_delay * 2) world in
            (ok, n, retry_delay :: slept)
          else attempts_from fuel' (S attempt) retry_delay world
      end
  end.

Definition connect_database (world : nat -> outcome) : bool * nat * list Z :=
  attempts_from max_retries 0 2 world.

End ConnectDatabase.

(** *** The engine, frame after frame *)

Module Engine.

(** One frame as [process_frame] hands it to [update_all_trackers]. *)
Record Frame := mkFrame {
  f_env : Env;
  f_boxes : option (list Box);
  f_time : datetime
}.

Fixpoint run (pointPolygonTest : list (Z * Z) -> Z * Z -> Q) (fs : list Frame)
    (self : EnhancedMaterialDippingDetection.t)
    : EnhancedMaterialDippingDetection.t * list Row :=
  match fs with
  | [] => (self, [])
  | f :: fs' =>
      let '(s1, r1) :=
        EnhancedMaterialDippingDetection.update_all_trackers pointPolygonTest
          (f_env f) (f_boxes f) (f_time f) self in
      let '(s2, r2) := run pointPolygonTest fs' s1 in
      (s2, r1 ++ r2)
  end.

(** The frames come in the order of their times, none before [from]. *)
Fixpoint chronological (from : datetime) (fs : list Frame) : Prop :=
  match fs with
  | [] => True
  | f :: fs' => from <= f_time f /\ chronological (f_time f) fs'
  end.

(** What the engine keeps from frame to frame, [seen] being the time of the
    latest frame: the trackers are consistent; no zone waits longer for its
    material than freetime waits to begin; a zone that holds material saw it
    last no later than [seen], and no later than the moment since which all
    zones count as empty; freetime is active only while no zone holds
    material. *)
Definition ok (seen : datetime) (self : EnhancedMaterialDippingDetection.t) : Prop :=
  let ft := EnhancedMaterialDippingDetection.freetime_tracker self in
  freetime_ok ft
  /\ Forall (fun p =>
       area_ok (snd p)
       /\ IndependentAreaTracker.material_lost_threshold (snd p)
          <= FreetimeTracker.freetime_threshold ft
       /\ (IndependentAreaTracker.is_material_present (snd p) = true ->
           exists last,
             IndependentAreaTracker.last_detection_time (snd p) = Some last
             /\ last <= seen
             /\ (forall since, FreetimeTracker.all_empty_start ft = Some since ->
                               last <= since)))
       (EnhancedMaterialDippingDetection.area_trackers self)
  /\ (forall since, FreetimeTracker.all_empty_start ft = Some since -> since <= seen)
  /\ (FreetimeTracker.is_freetime_active ft = true ->
      FreetimeTracker.all_empty_start ft <> None
      /\ Forall (fun p => IndependentAreaTracker.is_material_present (snd p) = false)
           (EnhancedMaterialDippingDetection.area_trackers self)).

End Engine.

(** *** Zone trackers in time *)

(** A zone that holds material has seen it first no later than last, and
    last no later than [seen]; its timer runs exactly while it holds
    material, since the material came. *)
Definition area_in_time (seen : datetime) (tr : IndependentAreaTracker.t) : Prop :=
  (IndependentAreaTracker.is_material_present tr = true ->
     exists start last,
       IndependentAreaTracker.material_start_time tr = Some start
       /\ IndependentAreaTracker.last_detection_time tr = Some last
       /\ start <= last /\ last <= seen
       /\ DailyTimer.is_active (IndependentAreaTracker.daily_timer tr) = true
       /\ DailyTimer.current_session_start (IndependentAreaTracker.daily_timer tr)
          = Some start)
  /\ (IndependentAreaTracker.is_material_present tr = false ->
      DailyTimer.is_active (IndependentAreaTracker.daily_timer tr) = false).

(** The row of a session of the zone that began at [start] and that the
    frame [g] closed, the database being reachable at [g]. *)
Definition zone_row_of (tr : IndependentAreaTracker.t) (start : datetime)
    (g : IndependentAreaTracker.Frame) (r : Row) : Prop :=
  db_connected (IndependentAreaTracker.f_env g) = true
  /\ remark r = "in_use"%string
  /\ area r = IndependentAreaTracker.area_name_db tr
  /\ no_area r = IndependentAreaTracker.area_number tr
  /\ time_in r = strftime_seconds start
  /\ created_at r = strftime_seconds (IndependentAreaTracker.f_time g)
  /\ time_int r = int_of_seconds (IndependentAreaTracker.f_time g - start)
  /\ time r = format_hms (hms_of_duration (IndependentAreaTracker.f_time g - start))
  /\ shift r = get_current_shift (IndependentAreaTracker.f_env g) (Some start)
  /\ log_date r = get_log_date_for_shift (IndependentAreaTracker.f_env g) (Some start).

(** Where a session comes from.  Either it was open when the frames began:
    no frame comes before it, and [start] and [last] are the tracker's own
    times of first and last detection.  Or a frame [f0] of the sequence opened
    it: [f0] shows material, the zone held none after the frames before [f0],
    and [start] and [last] are the time of [f0]. *)
Definition session_opened (tr : IndependentAreaTracker.t)
    (pre : list IndependentAreaTracker.Frame) (start last : datetime) : Prop :=
  (pre = []
   /\ IndependentAreaTracker.is_material_present tr = true
   /\ IndependentAreaTracker.material_start_time tr = Some start
   /\ IndependentAreaTracker.last_detection_time tr = Some last)
  \/ (exists pre' f0,
        pre = pre' ++ [f0]
        /\ IndependentAreaTracker.f_detected f0 = true
        /\ IndependentAreaTracker.is_material_present
             (fst (IndependentAreaTracker.run pre' tr)) = false
        /\ IndependentAreaTracker.f_time f0 = start
        /\ last = start).

(** What every row [r] that a zone tracker [tr] inserts while it is fed the
    frames [fs] says.  The frames are [pre ++ mid ++ g :: post]: the session
    was open after [pre], first seen at [start]; during [mid] no frame
    without material comes a threshold or more after the latest detection;
    [g] is a frame without material that does, and [r] is the row of the
    session from [start] to [g]. *)
Definition zone_row_ok (tr : IndependentAreaTracker.t)
    (fs : list IndependentAreaTracker.Frame) (r : Row) : Prop :=
  exists pre mid g post start last,
    fs = pre ++ mid ++ g :: post
    /\ session_opened tr pre start last
    /\ Presence.within_grace (IndependentAreaTracker.material_lost_threshold tr) last
         (area_signals mid)
    /\ IndependentAreaTracker.f_detected g = false
    /\ start <= Presence.last_seen last (area_signals mid)
    /\ IndependentAreaTracker.material_lost_threshold tr
       <= IndependentAreaTracker.f_time g - Presence.last_seen last (area_signals mid)
    /\ zone_row_of tr start g r.

(** Four frames of the engine, for illustration: nothing at 09:00:00 and
    09:00:02.5, material in Area 1 at 09:00:03, nothing at 09:00:03.5. *)
Definition engine_example : list Engine.Frame :=
  [ Engine.mkFrame (mkEnv (GloveScenario.at_time 0 0) true) None (GloveScenario.at_time 0 0);
    Engine.mkFrame (mkEnv (GloveScenario.at_time 2 500000) true) (Some [])
      (GloveScenario.at_time 2 500000);
    Engine.mkFrame (mkEnv (GloveScenario.at_time 3 0) true)
      (Some [DetectionExample.material_above]) (GloveScenario.at_time 3 0);
    Engine.mkFrame (mkEnv (GloveScenario.at_time 3 500000) true) None
      (GloveScenario.at_time 3 500000) ].

(** *** States without their daily totals *)

(** A timer with its accumulated total and its reset date blanked: what is
    left is the session. *)
Definition forget_totals (tm : DailyTimer.t) : DailyTimer.t :=
  DailyTimer.mk (DailyTimer.area_name tm) 0 0
    (DailyTimer.current_session_start tm) (DailyTimer.is_active tm).

Definition forget_area (tr : IndependentAreaTracker.t) : IndependentAreaTracker.t :=
  IndependentAreaTracker.mk
    (IndependentAreaTracker.area_name tr) (IndependentAreaTracker.area_bbox tr)
    (IndependentAreaTracker.area_name_db tr) (IndependentAreaTracker.area_number tr)
    (IndependentAreaTracker.is_material_present tr)
    (IndependentAreaTracker.material_start_time tr)
    (IndependentAreaTracker.last_detection_time tr)
    (IndependentAreaTracker.material_entry_time tr)
    (forget_totals (IndependentAreaTracker.daily_timer tr))
    (IndependentAreaTracker.material_lost_threshold tr).

Definition forget_freetime (ft : FreetimeTracker.t) : FreetimeTracker.t :=
  FreetimeTracker.mk (FreetimeTracker.area_name_db ft)
    (FreetimeTracker.is_freetime_active ft) (FreetimeTracker.freetime_start_time ft)
    (FreetimeTracker.freetime_threshold ft) (FreetimeTracker.all_empty_start ft)
    (forget_totals (FreetimeTracker.daily_timer ft)).

Definition forget_glove (g : GloveTracker.t) : GloveTracker.t :=
  GloveTracker.mk (GloveTracker.area_polygon g) (GloveTracker.area_name_db g)
    (GloveTracker.is_glove_detected g) (GloveTracker.glove_start_time g)
    (GloveTracker.last_glove_detection g) (GloveTracker.glove_lost_threshold g)
    (GloveTracker.was_freetime_before_glove g)
    (forget_totals (GloveTracker.daily_timer g)).

Definition forget_entry (p : string * IndependentAreaTracker.t)
    : string * IndependentAreaTracker.t :=
  (fst p, forget_area (snd p)).

Definition forget_engine (self : EnhancedMaterialDippingDetection.t)
    : EnhancedMaterialDippingDetection.t :=
  EnhancedMaterialDippingDetection.mk
    (map forget_entry (EnhancedMaterialDippingDetection.area_trackers self))
    (forget_freetime (EnhancedMaterialDippingDetection.freetime_tracker self))
    (forget_glove (EnhancedMaterialDippingDetection.glove_tracker self)).

(** * Properties *)

(** ** Arithmetic of timestamps *)

Ltac unfold_time :=
  cbv [hour minute second time_of_day date_of previous_day total_seconds mk_datetime
       ShiftCalendarSpec.clock ShiftCalendarSpec.hms ShiftCalendarSpec.within
       usec_per_day usec_per_hour usec_per_minute usec_per_second] in *.

Ltac time_arith := unfold_time; Z.div_mod_to_equations; lia.

Lemma hour_range (dt : datetime) : 0 <= hour dt < 24.
Proof. time_arith. Qed.

Lemma minute_range (dt : datetime) : 0 <= minute dt < 60.
Proof. time_arith. Qed.

Lemma clock_hour_minute (dt : datetime) :
  hour dt * 3600 + minute dt * 60 <= ShiftCalendarSpec.clock dt
    < hour dt * 3600 + minute dt * 60 + 60.
Proof. time_arith. Qed.

(** ** DailyTimer *)

Section DailyTimerFacts.
Import DailyTimer.

Lemma timer_ok_init e n : timer_ok (init e n).
Proof. unfold timer_ok; simpl; split; [discriminate | congruence]. Qed.

Lemma timer_ok_start e s tm : timer_ok tm -> timer_ok (start_session e s tm).
Proof.
  unfold timer_ok, start_session, check_daily_reset.
  destruct (is_active tm) eqn:A; simpl; [now rewrite A|].
  intros _. destruct (_ <? _); simpl; split; congruence.
Qed.

Lemma timer_ok_end t tm : timer_ok tm -> timer_ok (fst (end_session t tm)).
Proof.
  unfold timer_ok, end_session.
  destruct (is_active tm) eqn:A; destruct (current_session_start tm) eqn:S; simpl;
    rewrite ?A, ?S; try tauto.
  intros _; split; congruence.
Qed.

Lemma timer_ok_force e tm : timer_ok tm -> timer_ok (force_daily_reset e tm).
Proof. unfold timer_ok, force_daily_reset; simpl; tauto. Qed.

Lemma end_session_inactive t tm :
  is_active tm = false \/ current_session_start tm = None -> end_session t tm = (tm, 0).
Proof.
  unfold end_session. intros [H | H]; rewrite H; [reflexivity|].
  now destruct (is_active tm).
Qed.

Lemma end_session_active t tm s :
  is_active tm = true -> current_session_start tm = Some s ->
  end_session t tm =
    (mk (area_name tm) (daily_total_seconds tm + (t - s)) (last_reset_date tm) None false,
     t - s).
Proof. unfold end_session, total_seconds. now intros -> ->. Qed.

End DailyTimerFacts.

(** C5. For every DailyTimer: [end_session] changes nothing and returns 0 when
    no session is active; when a session that started at [s] is active it
    returns [end_time - s], adds exactly that to the accumulated total and
    clears the session, leaving the name and the reset date alone; and
    [get_daily_total] is the accumulated total plus the live [now - s] of an
    open session, and the accumulated total alone when none is open. *)
Theorem end_session_and_daily_total :
  (forall end_time tm,
      DailyTimer.is_active tm = false \/ DailyTimer.current_session_start tm = None ->
      DailyTimer.end_session end_time tm = (tm, 0))
  /\ (forall end_time tm s,
        DailyTimer.is_active tm = true -> DailyTimer.current_session_start tm = Some s ->
        let tm' := fst (DailyTimer.end_session end_time tm) in
        snd (DailyTimer.end_session end_time tm) = end_time - s
        /\ DailyTimer.daily_total_seconds tm' = DailyTimer.daily_total_seconds tm + (end_time - s)
        /\ DailyTimer.is_active tm' = false
        /\ DailyTimer.current_session_start tm' = None
        /\ DailyTimer.area_name tm' = DailyTimer.area_name tm
        /\ DailyTimer.last_reset_date tm' = DailyTimer.last_reset_date tm)
  /\ (forall e tm s,
        DailyTimer.is_active tm = true -> DailyTimer.current_session_start tm = Some s ->
        DailyTimer.get_daily_total e tm = DailyTimer.daily_total_seconds tm + (now e - s))
  /\ (forall e tm,
        DailyTimer.is_active tm = false ->
        DailyTimer.get_daily_total e tm = DailyTimer.daily_total_seconds tm).
Proof.
  split; [|split; [|split]].
  - intros; now apply end_session_inactive.
  - intros end_time tm s A S; cbv zeta.
    rewrite (end_session_active end_time tm s A S); simpl. tauto.
  - intros e tm s A S.
    unfold DailyTimer.get_daily_total, DailyTimer.get_current_session_duration.
    now rewrite A, S.
  - intros e tm A. unfold DailyTimer.get_daily_total. now rewrite A.
Qed.

(** A session of 5 s closed on a timer that already holds 2 s. *)
Lemma end_session_and_daily_total_witness :
  snd (DailyTimer.end_session 36005000000
         (DailyTimer.mk "Area 1" 2000000 0 (Some 36000000000) true)) = 5000000
  /\ DailyTimer.daily_total_seconds
       (fst (DailyTimer.end_session 36005000000
               (DailyTimer.mk "Area 1" 2000000 0 (Some 36000000000) true))) = 7000000
  /\ DailyTimer.get_daily_total (mkEnv 36003000000 true)
       (DailyTimer.mk "Area 1" 2000000 0 (Some 36000000000) true) = 5000000.
Proof.
  destruct end_session_and_daily_total as [_ [Hend [Htot _]]].
  destruct (Hend 36005000000 (DailyTimer.mk "Area 1" 2000000 0 (Some 36000000000) true)
              36000000000 eq_refl eq_refl) as [H1 [H2 _]].
  split; [exact H1 | split; [exact H2 |]].
  exact (Htot (mkEnv 36003000000 true)
           (DailyTimer.mk "Area 1" 2000000 0 (Some 36000000000) true)
           36000000000 eq_refl eq_refl).
Defined.

(** C9. [force_daily_reset] sets the accumulated total to zero and the reset
    date to today's, and leaves [is_active] and [current_session_start] as
    they are.  So a session open at the forced reset stays open, and when it
    ends, all of it, the part before the reset too, is what the new day's
    total holds. *)
Theorem force_daily_reset_keeps_open_session :
  forall e tm,
    DailyTimer.daily_total_seconds (DailyTimer.force_daily_reset e tm) = 0
    /\ DailyTimer.last_reset_date (DailyTimer.force_daily_reset e tm) = date_of (now e)
    /\ DailyTimer.is_active (DailyTimer.force_daily_reset e tm) = DailyTimer.is_active tm
    /\ DailyTimer.current_session_start (DailyTimer.force_daily_reset e tm)
       = DailyTimer.current_session_start tm
    /\ DailyTimer.area_name (DailyTimer.force_daily_reset e tm) = DailyTimer.area_name tm
    /\ (forall s end_time,
          DailyTimer.is_active tm = true ->
          DailyTimer.current_session_start tm = Some s ->
          snd (DailyTimer.end_session end_time (DailyTimer.force_daily_reset e tm))
            = end_time - s
          /\ DailyTimer.daily_total_seconds
               (fst (DailyTimer.end_session end_time (DailyTimer.force_daily_reset e tm)))
             = end_time - s).
Proof.
  intros e tm. repeat (split; [reflexivity|]).
  intros s end_time A S.
  rewrite (end_session_active end_time (DailyTimer.force_daily_reset e tm) s); simpl; auto.
Qed.

(** A session opened at 23:59:50 of day 0, a reset at 00:00:00 of day 1 and
    the end of the session at 00:00:10: the new day's total is 20 s. *)
Lemma force_daily_reset_keeps_open_session_witness :
  DailyTimer.daily_total_seconds
    (fst (DailyTimer.end_session (mk_datetime 1 0 0 10 0)
            (DailyTimer.force_daily_reset (mkEnv (mk_datetime 1 0 0 0 0) true)
               (DailyTimer.mk "Glove" 7000000 0 (Some (mk_datetime 0 23 59 50 0)) true))))
  = 20000000.
Proof.
  destruct (force_daily_reset_keeps_open_session
              (mkEnv (mk_datetime 1 0 0 0 0) true)
              (DailyTimer.mk "Glove" 7000000 0 (Some (mk_datetime 0 23 59 50 0)) true))
    as [_ [_ [_ [_ [_ H]]]]].
  destruct (H (mk_datetime 0 23 59 50 0) (mk_datetime 1 0 0 10 0) eq_refl eq_refl) as [_ H2].
  exact H2.
Defined.

(** ** Exit handling *)

Lemma end_freetime_inactive e t r ft :
  FreetimeTracker.is_freetime_active ft = false ->
  FreetimeTracker.end_freetime e t r ft = (ft, []).
Proof. unfold FreetimeTracker.end_freetime. now intros ->. Qed.

Lemma end_freetime_deactivates e t r ft :
  FreetimeTracker.is_freetime_active ft = true ->
  FreetimeTracker.freetime_start_time ft <> None ->
  FreetimeTracker.is_freetime_active (fst (FreetimeTracker.end_freetime e t r ft)) = false.
Proof.
  unfold FreetimeTracker.end_freetime. intros -> S.
  destruct (FreetimeTracker.freetime_start_time ft); [|congruence].
  now destruct (DailyTimer.end_session t (FreetimeTracker.daily_timer ft)).
Qed.

Lemma end_freetime_twice e1 t1 r1 e2 t2 r2 ft :
  FreetimeTracker.end_freetime e2 t2 r2 (fst (FreetimeTracker.end_freetime e1 t1 r1 ft))
  = (fst (FreetimeTracker.end_freetime e1 t1 r1 ft), []).
Proof.
  unfold FreetimeTracker.end_freetime at 2 3.
  destruct (FreetimeTracker.is_freetime_active ft) eqn:A;
    destruct (FreetimeTracker.freetime_start_time ft) eqn:S; simpl;
    try (unfold FreetimeTracker.end_freetime; rewrite ?A, ?S; reflexivity).
  now destruct (DailyTimer.end_session t1 (FreetimeTracker.daily_timer ft)).
Qed.

Lemma handle_material_exit_absent e t tr :
  IndependentAreaTracker.is_material_present tr = false ->
  IndependentAreaTracker.handle_material_exit e t tr = (tr, []).
Proof. unfold IndependentAreaTracker.handle_material_exit. now intros ->. Qed.

Lemma handle_material_exit_twice e1 t1 e2 t2 tr :
  IndependentAreaTracker.handle_material_exit e2 t2
    (fst (IndependentAreaTracker.handle_material_exit e1 t1 tr))
  = (fst (IndependentAreaTracker.handle_material_exit e1 t1 tr), []).
Proof.
  unfold IndependentAreaTracker.handle_material_exit at 2 3.
  destruct (IndependentAreaTracker.is_material_present tr) eqn:A;
    destruct (IndependentAreaTracker.material_start_time tr) eqn:S; simpl;
    try (unfold IndependentAreaTracker.handle_material_exit; rewrite ?A, ?S; reflexivity).
  now destruct (DailyTimer.end_session t1 (IndependentAreaTracker.daily_timer tr)).
Qed.

(** C7. Exit handling is idempotent.  [end_freetime] on a tracker with no
    active freetime, and [handle_material_exit] on a tracker with no material
    present, return the tracker as it was (its DailyTimer included) and insert
    no row; and whatever the state, a second call right after a first is such
    a call: it changes nothing and inserts nothing. *)
Theorem exit_handling_idempotent :
  (forall e t reason ft,
      FreetimeTracker.is_freetime_active ft = false ->
      FreetimeTracker.end_freetime e t reason ft = (ft, []))
  /\ (forall e t tr,
        IndependentAreaTracker.is_material_present tr = false ->
        IndependentAreaTracker.handle_material_exit e t tr = (tr, []))
  /\ (forall e1 t1 r1 e2 t2 r2 ft,
        FreetimeTracker.end_freetime e2 t2 r2 (fst (FreetimeTracker.end_freetime e1 t1 r1 ft))
        = (fst (FreetimeTracker.end_freetime e1 t1 r1 ft), []))
  /\ (forall e1 t1 e2 t2 tr,
        IndependentAreaTracker.handle_material_exit e2 t2
          (fst (IndependentAreaTracker.handle_material_exit e1 t1 tr))
        = (fst (IndependentAreaTracker.handle_material_exit e1 t1 tr), [])).
Proof.
  split; [|split; [|split]].
  - intros; now apply end_freetime_inactive.
  - intros; now apply handle_material_exit_absent.
  - intros; apply end_freetime_twice.
  - intros; apply handle_material_exit_twice.
Qed.

(** A fresh freetime tracker and a fresh zone tracker, each asked to exit. *)
Lemma exit_handling_idempotent_witness :
  FreetimeTracker.end_freetime (mkEnv 0 true) 5000000 "system_shutdown"
    (FreetimeTracker.init (mkEnv 0 true) "bak_alkali")
  = (FreetimeTracker.init (mkEnv 0 true) "bak_alkali", [])
  /\ IndependentAreaTracker.handle_material_exit (mkEnv 0 true) 5000000
       (IndependentAreaTracker.init (mkEnv 0 true) "Area 1" 1 (552, 292, 674, 422) "bak_alkali")
     = (IndependentAreaTracker.init (mkEnv 0 true) "Area 1" 1 (552, 292, 674, 422) "bak_alkali",
        []).
Proof.
  destruct exit_handling_idempotent as [Hf [Hm _]].
  split; [apply Hf | apply Hm]; reflexivity.
Defined.

(** *** Shutdown *)

Lemma handle_glove_exit_twice e1 t1 e2 t2 g :
  GloveTracker.handle_glove_exit e2 t2 (fst (GloveTracker.handle_glove_exit e1 t1 g))
  = (fst (GloveTracker.handle_glove_exit e1 t1 g), []).
Proof.
  unfold GloveTracker.handle_glove_exit at 2 3.
  destruct (GloveTracker.is_glove_detected g) eqn:A;
    destruct (GloveTracker.glove_start_time g) eqn:S; simpl;
    try (unfold GloveTracker.handle_glove_exit; rewrite ?A, ?S; reflexivity).
  destruct (GloveTracker.was_freetime_before_glove g); [|reflexivity].
  now destruct (DailyTimer.end_session t1 (GloveTracker.daily_timer g)).
Qed.

Lemma exit_areas_twice e1 t1 e2 t2 trackers :
  EnhancedMaterialDippingDetection.exit_areas e2 t2
    (fst (EnhancedMaterialDippingDetection.exit_areas e1 t1 trackers))
  = (fst (EnhancedMaterialDippingDetection.exit_areas e1 t1 trackers), []).
Proof.
  induction trackers as [|[n tr] rest IH]; [reflexivity|].
  cbn [EnhancedMaterialDippingDetection.exit_areas].
  assert (H : forall tr',
             tr' = fst (if IndependentAreaTracker.is_material_present tr
                        then IndependentAreaTracker.handle_material_exit e1 t1 tr
                        else (tr, [])) ->
             (if IndependentAreaTracker.is_material_present tr'
              then IndependentAreaTracker.handle_material_exit e2 t2 tr'
              else (tr', [])) = (tr', [])).
  { intros tr' ->. destruct (IndependentAreaTracker.is_material_present tr) eqn:P.
    - rewrite handle_material_exit_twice. match goal with |- (if ?b then _ else _) = _ => destruct b end; reflexivity.
    - simpl. now rewrite P. }
  destruct (if IndependentAreaTracker.is_material_present tr
            then IndependentAreaTracker.handle_material_exit e1 t1 tr
            else (tr, [])) as [tr' r1].
  specialize (H tr' eq_refl).
  destruct (EnhancedMaterialDippingDetection.exit_areas e1 t1 rest) as [rest' r2].
  cbn [fst EnhancedMaterialDippingDetection.exit_areas] in *.
  now rewrite H, IH.
Qed.

(** [cleanup] run a second time finds nothing to close: it leaves the
    trackers as they are and inserts no row. *)
Lemma cleanup_twice e1 e2 self :
  EnhancedMaterialDippingDetection.cleanup e2
    (fst (EnhancedMaterialDippingDetection.cleanup e1 self))
  = (fst (EnhancedMaterialDippingDetection.cleanup e1 self), []).
Proof.
  unfold EnhancedMaterialDippingDetection.cleanup at 2 3.
  pose proof (exit_areas_twice e1 (now e1) e2 (now e2)
                (EnhancedMaterialDippingDetection.area_trackers self)) as Ha.
  destruct (EnhancedMaterialDippingDetection.exit_areas e1 (now e1) _) as [trs r1].
  assert (Hf : forall ft,
             ft = fst (if FreetimeTracker.is_freetime_active
                            (EnhancedMaterialDippingDetection.freetime_tracker self)
                       then FreetimeTracker.end_freetime e1 (now e1) "system_shutdown"
                              (EnhancedMaterialDippingDetection.freetime_tracker self)
                       else (EnhancedMaterialDippingDetection.freetime_tracker self, [])) ->
             (if FreetimeTracker.is_freetime_active ft
              then FreetimeTracker.end_freetime e2 (now e2) "system_shutdown" ft
              else (ft, [])) = (ft, [])).
  { intros ft ->.
    destruct (FreetimeTracker.is_freetime_active
                (EnhancedMaterialDippingDetection.freetime_tracker self)) eqn:A.
    - rewrite end_freetime_twice. match goal with |- (if ?b then _ else _) = _ => destruct b end; reflexivity.
    - simpl. now rewrite A. }
  assert (Hg : forall g,
             g = fst (if GloveTracker.is_glove_detected
                           (EnhancedMaterialDippingDetection.glove_tracker self)
                      then GloveTracker.handle_glove_exit e1 (now e1)
                             (EnhancedMaterialDippingDetection.glove_tracker self)
                      else (EnhancedMaterialDippingDetection.glove_tracker self, [])) ->
             (if GloveTracker.is_glove_detected g
              then GloveTracker.handle_glove_exit e2 (now e2) g
              else (g, [])) = (g, [])).
  { intros g ->.
    destruct (GloveTracker.is_glove_detected
                (EnhancedMaterialDippingDetection.glove_tracker self)) eqn:A.
    - rewrite handle_glove_exit_twice. match goal with |- (if ?b then _ else _) = _ => destruct b end; reflexivity.
    - simpl. now rewrite A. }
  destruct (if FreetimeTracker.is_freetime_active _ then _ else _) as [ft r2].
  destruct (if GloveTracker.is_glove_detected _ then _ else _) as [g r3].
  specialize (Hf ft eq_refl). specialize (Hg g eq_refl).
  unfold EnhancedMaterialDippingDetection.cleanup.
  cbn [fst EnhancedMaterialDippingDetection.area_trackers
       EnhancedMaterialDippingDetection.freetime_tracker
       EnhancedMaterialDippingDetection.glove_tracker] in *.
  now rewrite Ha, Hf, Hg.
Qed.

(** ** The shift calendar *)

Lemma get_current_shift_cases e dt :
  (get_current_shift e (Some dt) = Shift_1
     /\ (hour dt = 7 /\ 10 <= minute dt \/ 7 < hour dt < 16))
  \/ (get_current_shift e (Some dt) = Shift_2
     /\ (16 <= hour dt < 24 \/ hour dt = 0 /\ minute dt <= 15))
  \/ (get_current_shift e (Some dt) = Shift_3
     /\ (hour dt = 0 /\ 16 <= minute dt \/ 0 < hour dt < 7 \/ hour dt = 7 /\ minute dt < 10)).
Proof.
  pose proof (hour_range dt) as Hh. pose proof (minute_range dt) as Hm.
  unfold get_current_shift.
  destruct (hour dt =? 7) eqn:E7; destruct (10 <=? minute dt) eqn:E10;
    destruct (7 <? hour dt) eqn:L7; destruct (hour dt <? 16) eqn:L16;
    destruct (16 <=? hour dt) eqn:G16; destruct (hour dt <? 24) eqn:L24;
    destruct (hour dt =? 0) eqn:E0; destruct (minute dt <=? 15) eqn:M15; simpl;
    first [ lia
          | left; split; [reflexivity | lia]
          | right; left; split; [reflexivity | lia]
          | right; right; split; [reflexivity | lia] ].
Qed.

Lemma shift_ranges_hold e dt : ShiftCalendarSpec.shift_ranges e dt.
Proof.
  pose proof (clock_hour_minute dt) as Hc.
  pose proof (hour_range dt) as Hh. pose proof (minute_range dt) as Hm.
  unfold ShiftCalendarSpec.shift_ranges, ShiftCalendarSpec.within, ShiftCalendarSpec.hms.
  destruct (get_current_shift_cases e dt) as [[-> H] | [[-> H] | [-> H]]];
    repeat split; intros; try discriminate; try reflexivity; lia.
Qed.

Lemma log_date_holds e dt :
  get_log_date_for_shift e (Some dt) = ShiftCalendarSpec.log_date e dt.
Proof.
  pose proof (clock_hour_minute dt) as Hc.
  pose proof (hour_range dt) as Hh. pose proof (minute_range dt) as Hm.
  unfold get_log_date_for_shift, ShiftCalendarSpec.log_date, ShiftCalendarSpec.hms.
  cbv beta iota zeta.
  destruct (get_current_shift_cases e dt) as [[-> H] | [[-> H] | [-> H]]]; simpl; auto.
  destruct (hour dt =? 0) eqn:E0; destruct (minute dt <=? 15) eqn:M15; simpl;
    destruct (ShiftCalendarSpec.clock dt <=? 959) eqn:C; auto; lia.
Qed.

(** C2, as stated, fails at 00:15:30: the code answers Shift_2 and the
    previous day, while 00:15:30 lies in none of the stated ranges of Shift_2
    and is later than 00:15:00. *)
Lemma shift_as_stated_fails_at_001530 :
  get_current_shift (mkEnv 0 true) (Some (mk_datetime 1 0 15 30 0)) = Shift_2
  /\ ~ ShiftCalendarSpec.shift_ranges_as_stated (mkEnv 0 true) (mk_datetime 1 0 15 30 0)
  /\ get_log_date_for_shift (mkEnv 0 true) (Some (mk_datetime 1 0 15 30 0)) = 0
  /\ ShiftCalendarSpec.log_date_as_stated (mkEnv 0 true) (mk_datetime 1 0 15 30 0) = 1.
Proof.
  split; [reflexivity | split; [| split; reflexivity]].
  intros [_ [[H _] _]].
  assert (E : get_current_shift (mkEnv 0 true) (Some (mk_datetime 1 0 15 30 0)) = Shift_2)
    by reflexivity.
  specialize (H E). vm_compute in H.
  destruct H as [[H _] | [_ H]]; apply H; reflexivity.
Qed.

(** C2, amended.  For every timestamp, with the time of day read in whole
    seconds: the shift is Shift_1 exactly in 07:10:00-15:59:59, Shift_2
    exactly in 16:00:00-23:59:59 or 00:00:00-00:15:59, and Shift_3 exactly in
    00:16:00-07:09:59; the log date is the calendar date minus one day exactly
    when the shift is Shift_3, or Shift_2 with a time of day of at most
    00:15:59, and the calendar date otherwise.  At 00:15:00 the shift is
    Shift_2 and at 00:16:00 it is Shift_3, both with the previous day as log
    date; at 07:10:00 it is Shift_1 with the day itself. *)
Theorem shift_and_log_date :
  forall e dt,
    ShiftCalendarSpec.shift_ranges e dt
    /\ get_log_date_for_shift e (Some dt) = ShiftCalendarSpec.log_date e dt
    /\ (forall day,
          get_current_shift e (Some (mk_datetime day 0 15 0 0)) = Shift_2
          /\ get_log_date_for_shift e (Some (mk_datetime day 0 15 0 0)) = day - 1
          /\ get_current_shift e (Some (mk_datetime day 0 16 0 0)) = Shift_3
          /\ get_log_date_for_shift e (Some (mk_datetime day 0 16 0 0)) = day - 1
          /\ get_current_shift e (Some (mk_datetime day 7 10 0 0)) = Shift_1
          /\ get_log_date_for_shift e (Some (mk_datetime day 7 10 0 0)) = day).
Proof.
  intros e dt. split; [apply shift_ranges_hold | split; [apply log_date_holds|]].
  intros day.
  assert (H1 : hour (mk_datetime day 0 15 0 0) = 0) by time_arith.
  assert (H2 : minute (mk_datetime day 0 15 0 0) = 15) by time_arith.
  assert (H3 : hour (mk_datetime day 0 16 0 0) = 0) by time_arith.
  assert (H4 : minute (mk_datetime day 0 16 0 0) = 16) by time_arith.
  assert (H5 : hour (mk_datetime day 7 10 0 0) = 7) by time_arith.
  assert (H6 : minute (mk_datetime day 7 10 0 0) = 10) by time_arith.
  assert (D1 : date_of (mk_datetime day 0 15 0 0) = day) by time_arith.
  assert (D2 : date_of (mk_datetime day 0 16 0 0) = day) by time_arith.
  assert (D3 : date_of (mk_datetime day 7 10 0 0) = day) by time_arith.
  unfold get_log_date_for_shift, get_current_shift, previous_day.
  rewrite H1, H2, H3, H4, H5, H6, D1, D2, D3. simpl. repeat split; reflexivity.
Qed.

(** ** The frame queue *)

Section FrameQueueFacts.
Context {A : Type}.
Import FrameQueue.

Lemma get_many_skipn (n : nat) (q : t A) :
  (n <= List.length (items q))%nat ->
  get_many n q = inr (mk (maxsize q) (skipn n (items q))).
Proof.
  revert q. induction n as [|n IH]; intros [m l] H; simpl in *; [reflexivity|].
  destruct l as [|x l]; simpl in *; [lia|].
  unfold get_nowait; simpl. rewrite IH; simpl; [reflexivity | lia].
Qed.

(** Overflow on a full queue of capacity at least 2: the older half goes, the
    frame is appended. *)
Lemma enqueue_frame_full (frame : A) (q : t A) :
  2 <= maxsize q -> qsize q = maxsize q ->
  enqueue_frame frame q
  = Enqueued (mk (maxsize q) (skipn (Z.to_nat (qsize q / 2)) (items q) ++ [frame])).
Proof.
  intros Hm Hfull. unfold enqueue_frame, put_nowait.
  replace ((0 <? maxsize q) && (maxsize q <=? qsize q)) with true
    by (symmetry; apply andb_true_iff; split; [apply Z.ltb_lt | apply Z.leb_le]; lia).
  assert (Hhalf : 1 <= qsize q / 2 <= qsize q) by (Z.div_mod_to_equations; lia).
  rewrite get_many_skipn by (unfold qsize in *; lia).
  cbn [maxsize items].
  assert (Hlen : qsize (mk (maxsize q) (skipn (Z.to_nat (qsize q / 2)) (items q)))
                 < maxsize q).
  { unfold qsize in *. cbn [items]. rewrite length_skipn. lia. }
  replace ((0 <? maxsize q) && (maxsize q <=? _)) with false; [reflexivity|].
  symmetry; apply andb_false_iff; right; apply Z.leb_gt. exact Hlen.
Qed.

End FrameQueueFacts.

(** C8, as stated, fails for a queue of capacity 1: half of one queued frame
    is none, so the overflow handling takes nothing out, the second [put]
    raises [queue.Full] as the first did, and the new frame is not in the
    queue. *)
Lemma overflow_loses_frame_at_capacity_1 :
  FrameQueue.qsize (FrameQueue.mk 1 [3]) = FrameQueue.maxsize (FrameQueue.mk 1 [3])
  /\ FrameQueue.enqueue_frame 7 (FrameQueue.mk 1 [3])
     = FrameQueue.RaisedFull (FrameQueue.mk 1 [3])
  /\ ~ FrameQueue.newest_frame_kept_as_stated 7 (FrameQueue.mk 1 [3]).
Proof.
  split; [reflexivity | split; [reflexivity|]].
  intros [_ H]. vm_compute in H. destruct H as [H | []]. discriminate H.
Qed.

(** C8. A frame queue of capacity 2 or more at capacity, a new frame, no
    consumer: the overflow handling takes out the older half of the queued
    frames (as many as half the capacity, rounded down) and puts the frame
    in, so the frame is in the queue, as its last element, and the queue is
    no longer than its capacity.  The program's queue, of capacity
    [max_queue_size], is one of them. *)
Theorem overflow_keeps_newest_frame :
  forall (A : Type) (frame : A) (q : FrameQueue.t A),
    2 <= FrameQueue.maxsize q ->
    FrameQueue.qsize q = FrameQueue.maxsize q ->
    exists q',
      FrameQueue.enqueue_frame frame q = FrameQueue.Enqueued q'
      /\ FrameQueue.maxsize q' = FrameQueue.maxsize q
      /\ FrameQueue.items q'
         = skipn (Z.to_nat (FrameQueue.maxsize q / 2)) (FrameQueue.items q) ++ [frame]
      /\ FrameQueue.qsize q' = FrameQueue.maxsize q - FrameQueue.maxsize q / 2 + 1
      /\ FrameQueue.qsize q' <= FrameQueue.maxsize q
      /\ FrameQueue.newest_frame_kept_as_stated frame q
      /\ In frame (FrameQueue.items q')
      /\ (forall d, last (FrameQueue.items q') d = frame).
Proof.
  intros A frame q Hm Hfull.
  assert (Hhalf : 1 <= FrameQueue.maxsize q / 2 <= FrameQueue.maxsize q)
    by (Z.div_mod_to_equations; lia).
  assert (Hsize : FrameQueue.qsize
                    (FrameQueue.mk (FrameQueue.maxsize q)
                       (skipn (Z.to_nat (FrameQueue.maxsize q / 2)) (FrameQueue.items q)
                        ++ [frame]))
                  = FrameQueue.maxsize q - FrameQueue.maxsize q / 2 + 1).
  { unfold FrameQueue.qsize in *. cbn [FrameQueue.items].
    rewrite length_app, length_skipn. simpl. lia. }
  assert (Hin : In frame (skipn (Z.to_nat (FrameQueue.maxsize q / 2)) (FrameQueue.items q)
                          ++ [frame]))
    by (apply in_or_app; right; left; reflexivity).
  unfold FrameQueue.newest_frame_kept_as_stated.
  rewrite (enqueue_frame_full frame q Hm Hfull). rewrite Hfull.
  eexists; split; [reflexivity|].
  cbn [FrameQueue.maxsize FrameQueue.items FrameQueue.queue_after].
  rewrite Hsize.
  split; [reflexivity | split; [reflexivity | split; [reflexivity|]]].
  split; [lia | split; [split; [lia | exact Hin] | split; [exact Hin|]]].
  intros d. apply last_last.
Qed.

(** The program's queue: frames numbered 0 to 99 fill it; frame 100 arrives,
    frames 0 to 49 go. *)
Lemma overflow_keeps_newest_frame_witness :
  exists q',
    FrameQueue.enqueue_frame 100
      (FrameQueue.mk FrameQueue.max_queue_size (map Z.of_nat (seq 0 100)))
      = FrameQueue.Enqueued q'
    /\ FrameQueue.maxsize q' = FrameQueue.max_queue_size
    /\ FrameQueue.items q' = map Z.of_nat (seq 50 50) ++ [100]
    /\ FrameQueue.qsize q' = 51
    /\ In 100 (FrameQueue.items q')
    /\ last (FrameQueue.items q') 0 = 100.
Proof.
  destruct (overflow_keeps_newest_frame Z 100
              (FrameQueue.mk FrameQueue.max_queue_size (map Z.of_nat (seq 0 100))))
    as [q' [E [M [I [S [_ [_ [H L]]]]]]]].
  - vm_compute. discriminate.
  - reflexivity.
  - exists q'. split; [exact E|]. split; [exact M|]. split; [exact I|].
    split; [exact S|]. split; [exact H | apply L].
Defined.

(** ** From boxes to flags *)

Section DetectionFlags.
Import EnhancedMaterialDippingDetection.
Variable pointPolygonTest : list (Z * Z) -> Z * Z -> Q.
Variable self : EnhancedMaterialDippingDetection.t.

Lemma Qgt_bool_true a b : Qgt_bool a b = true <-> (b < a)%Q.
Proof.
  unfold Qgt_bool. rewrite negb_true_iff, <- not_true_iff_false, Qle_bool_iff.
  split; [apply Qnot_le_lt | apply Qlt_not_le].
Qed.

Lemma process_box_low_conf flags box :
  (conf box <= conf_threshold)%Q ->
  process_box pointPolygonTest self flags box = flags.
Proof.
  intros H. unfold process_box. destruct flags as [md gd].
  assert (E : Qgt_bool (conf box) conf_threshold = false).
  { apply not_true_iff_false. rewrite Qgt_bool_true. now apply Qle_not_lt. }
  rewrite E, !andb_false_r. reflexivity.
Qed.

Lemma process_box_other_class flags box :
  cls box <> 0 -> cls box <> 2 ->
  process_box pointPolygonTest self flags box = flags.
Proof.
  intros H0 H2. unfold process_box. destruct flags as [md gd].
  apply Z.eqb_neq in H0, H2. rewrite H0, H2. reflexivity.
Qed.

Lemma get_flag_set_true name n md :
  get_flag name (set_true n md) = true -> n = name \/ get_flag name md = true.
Proof.
  induction md as [|[k b] md IH]; simpl; [discriminate|].
  destruct (String.eqb k n) eqn:Ekn; simpl.
  - destruct (String.eqb k name) eqn:Ek; [|exact IH].
    apply String.eqb_eq in Ekn, Ek. left; congruence.
  - destruct (String.eqb k name); [now right | exact IH].
Qed.

Lemma get_flag_all_false name (trackers : list (string * IndependentAreaTracker.t)) :
  get_flag name (map (fun '(n, _) => (n, false)) trackers) = false.
Proof.
  induction trackers as [|[k tr] l IH]; simpl; [reflexivity|].
  now destruct (String.eqb k name).
Qed.

(** What one box can do to the flags. *)
Lemma process_box_sets flags box name :
  let flags' := process_box pointPolygonTest self flags box in
  (get_flag name (fst flags') = true ->
     get_flag name (fst flags) = true
     \/ (cls box = 0 /\ (conf_threshold < conf box)%Q
         /\ first_area_inside (area_trackers self) (xyxy box) = Some name))
  /\ (snd flags' = true ->
     snd flags = true
     \/ (cls box = 2 /\ (conf_threshold < conf box)%Q
         /\ GloveTracker.is_inside_area pointPolygonTest (glove_tracker self) (xyxy box) = true)).
Proof.
  cbv zeta. unfold process_box. destruct flags as [md gd].
  destruct (cls box =? 0) eqn:C0; destruct (Qgt_bool (conf box) conf_threshold) eqn:G;
    simpl andb; cbv iota.
  - apply Z.eqb_eq in C0. apply Qgt_bool_true in G.
    destruct (first_area_inside (area_trackers self) (xyxy box)) as [n|] eqn:F; simpl.
    + split; [|now left]. intros H. apply get_flag_set_true in H.
      destruct H as [-> | H]; [right | left]; auto.
    + split; now left.
  - destruct (cls box =? 2); simpl; split; now left.
  - destruct (cls box =? 2) eqn:C2; simpl; [|split; now left].
    apply Z.eqb_eq in C2. apply Qgt_bool_true in G.
    destruct (GloveTracker.is_inside_area pointPolygonTest (glove_tracker self) (xyxy box))
      eqn:I; simpl; split; auto.
  - destruct (cls box =? 2); simpl; split; now left.
Qed.

Lemma fold_process_box_sets bs : forall flags name,
  let flags' := fold_left (process_box pointPolygonTest self) bs flags in
  (get_flag name (fst flags') = true ->
     get_flag name (fst flags) = true
     \/ exists box, In box bs /\ cls box = 0 /\ (conf_threshold < conf box)%Q
          /\ first_area_inside (area_trackers self) (xyxy box) = Some name)
  /\ (snd flags' = true ->
     snd flags = true
     \/ exists box, In box bs /\ cls box = 2 /\ (conf_threshold < conf box)%Q
          /\ GloveTracker.is_inside_area pointPolygonTest (glove_tracker self) (xyxy box)
             = true).
Proof.
  induction bs as [|b bs IH]; intros flags name; cbv zeta; simpl; [tauto|].
  destruct (IH (process_box pointPolygonTest self flags b) name) as [IH1 IH2].
  destruct (process_box_sets flags b name) as [P1 P2].
  split; intros H.
  - destruct (IH1 H) as [H1 | [box [Hin Hb]]].
    + destruct (P1 H1) as [H2 | H2]; [now left | right; exists b; tauto].
    + right; exists box; tauto.
  - destruct (IH2 H) as [H1 | [box [Hin Hb]]].
    + destruct (P2 H1) as [H2 | H2]; [now left | right; exists b; tauto].
    + right; exists box; tauto.
Qed.

End DetectionFlags.

(** C10. The conversion of a frame's boxes compares the confidence strictly.
    A box whose confidence equals the threshold [0.6], of class 0 or 2 or any
    other, leaves every flag as it was; so does a box of a class other than 0
    and 2, whatever its confidence.  A zone's flag is set after the frame only
    if some box of class 0 with a confidence above the threshold has its
    centre in that zone (the first such zone in the order of the trackers),
    and the glove flag only if some box of class 2 with a confidence above the
    threshold lies in the glove area. *)
Theorem confidence_threshold_is_strict :
  forall (pointPolygonTest : list (Z * Z) -> Z * Z -> Q)
         (self : EnhancedMaterialDippingDetection.t),
    (forall flags box,
        (conf box == conf_threshold)%Q ->
        EnhancedMaterialDippingDetection.process_box pointPolygonTest self flags box = flags)
    /\ (forall flags box,
          cls box <> 0 -> cls box <> 2 ->
          EnhancedMaterialDippingDetection.process_box pointPolygonTest self flags box = flags)
    /\ (forall boxes name,
          EnhancedMaterialDippingDetection.get_flag name
            (fst (EnhancedMaterialDippingDetection.detection_flags pointPolygonTest self boxes))
            = true ->
          exists bs box,
            boxes = Some bs /\ In box bs /\ cls box = 0 /\ (conf_threshold < conf box)%Q
            /\ EnhancedMaterialDippingDetection.first_area_inside
                 (EnhancedMaterialDippingDetection.area_trackers self) (xyxy box) = Some name)
    /\ (forall boxes,
          snd (EnhancedMaterialDippingDetection.detection_flags pointPolygonTest self boxes)
            = true ->
          exists bs box,
            boxes = Some bs /\ In box bs /\ cls box = 2 /\ (conf_threshold < conf box)%Q
            /\ GloveTracker.is_inside_area pointPolygonTest
                 (EnhancedMaterialDippingDetection.glove_tracker self) (xyxy box) = true).
Proof.
  intros ppt self. split; [|split; [|split]].
  - intros flags box H. apply process_box_low_conf. rewrite H. apply Qle_refl.
  - intros; now apply process_box_other_class.
  - intros [bs|] name; unfold EnhancedMaterialDippingDetection.detection_flags.
    + intros H.
      destruct (fold_process_box_sets ppt self bs
                  (map (fun '(n, _) => (n, false))
                       (EnhancedMaterialDippingDetection.area_trackers self), false) name)
        as [F _].
      destruct (F H) as [H0 | [box Hb]].
      * simpl in H0. rewrite get_flag_all_false in H0. discriminate.
      * exists bs, box. tauto.
    + simpl. rewrite get_flag_all_false. discriminate.
  - intros [bs|]; unfold EnhancedMaterialDippingDetection.detection_flags.
    + intros H.
      destruct (fold_process_box_sets ppt self bs
                  (map (fun '(n, _) => (n, false))
                       (EnhancedMaterialDippingDetection.area_trackers self), false)
                  EmptyString)
        as [_ F].
      destruct (F H) as [H0 | [box Hb]]; [discriminate|].
      exists bs, box. tauto.
    + simpl. discriminate.
Qed.

(** Material and glove at exactly the threshold and a box of class 1 at 0.99,
    all three centred in Area 1: no flag is set. *)
Lemma confidence_threshold_is_strict_witness :
  EnhancedMaterialDippingDetection.detection_flags DetectionExample.all_inside
    DetectionExample.detector
    (Some [ DetectionExample.material_at_threshold; DetectionExample.glove_at_threshold;
            DetectionExample.other_class ])
  = ([ ("Area 1"%string, false); ("Area 2"%string, false);
       ("Area 3"%string, false); ("Area 4"%string, false) ], false).
Proof.
  destruct (confidence_threshold_is_strict DetectionExample.all_inside
              DetectionExample.detector) as [H1 [H2 _]].
  unfold EnhancedMaterialDippingDetection.detection_flags. cbn [fold_left].
  rewrite (H1 _ DetectionExample.material_at_threshold) by reflexivity.
  rewrite (H1 _ DetectionExample.glove_at_threshold) by reflexivity.
  rewrite (H2 _ DetectionExample.other_class) by (simpl; lia).
  reflexivity.
Defined.

(** The same material box at 0.61 sets the flag of Area 1 and no other. *)
Example material_above_threshold_is_detected :
  EnhancedMaterialDippingDetection.detection_flags DetectionExample.all_inside
    DetectionExample.detector (Some [ DetectionExample.material_above ])
  = ([ ("Area 1"%string, true); ("Area 2"%string, false);
       ("Area 3"%string, false); ("Area 4"%string, false) ], false).
Proof. reflexivity. Qed.

(** ** Presence signals *)

Section PresenceFacts.
Import Presence.

Lemma within_grace_firstn thr n : forall fs last,
  within_grace thr last fs -> within_grace thr last (firstn n fs).
Proof.
  induction n as [|n IH]; intros [|[t d] fs] last H; simpl; auto.
  destruct d; simpl in *; [auto | split; [tauto | apply IH; tauto]].
Qed.

Lemma chronological_from fs : forall a b,
  a <= b -> chronological b fs -> chronological a fs.
Proof. destruct fs as [|[t d] fs]; simpl; intros; [auto | split; [lia | tauto]]. Qed.

(** In a chronological sequence that ends on a detection, a detection
    follows, and not before the start. *)
Lemma first_detection_later fs : forall from,
  fs <> [] -> chronological from fs -> ends_detected fs ->
  exists b rest, detection_times fs = b :: rest /\ from <= b.
Proof.
  unfold detection_times, ends_detected.
  induction fs as [|[t d] fs IH]; intros from Hne Hc He; [congruence|].
  simpl in Hc. destruct d; simpl.
  - exists t, (map fst (filter snd fs)). split; [reflexivity | lia].
  - destruct fs as [|f fs']; [simpl in He; discriminate|].
    destruct (IH t) as [b [rest [E Hb]]]; [discriminate | tauto | exact He |].
    exists b, rest. split; [exact E | lia].
Qed.

(** Short gaps between the detections of a chronological sequence that ends
    on a detection keep every frame within the grace period. *)
Lemma short_gaps_within_grace thr fs : forall last,
  chronological last fs -> gaps_shorter thr last (detection_times fs) ->
  ends_detected fs -> within_grace thr last fs.
Proof.
  induction fs as [|[t d] fs IH]; intros last Hc Hg He; simpl; [exact I|].
  assert (He' : ends_detected fs).
  { destruct fs as [|f fs']; [reflexivity | exact He]. }
  simpl in Hc. destruct Hc as [Hlt Hc].
  destruct d.
  - unfold detection_times in *; simpl in Hg. apply IH; tauto.
  - unfold detection_times in Hg; simpl in Hg. fold (detection_times fs) in Hg.
    split; [| apply IH; auto; apply (chronological_from fs last t); auto].
    destruct fs as [|f fs']; [discriminate He|].
    destruct (first_detection_later (f :: fs') t) as [b [rest [E Hb]]];
      [discriminate | exact Hc | exact He |].
    rewrite E in Hg. simpl in Hg. lia.
Qed.

Lemma first_loss_none_within_grace thr last ts :
  first_loss thr last ts = None ->
  within_grace thr last (map (fun t => (t, false)) ts).
Proof.
  induction ts as [|t ts IH]; simpl; [auto|].
  destruct (thr <=? t - last) eqn:E; [discriminate|].
  intros H. split; [apply Z.leb_gt; exact E | auto].
Qed.

End PresenceFacts.

(** ** IndependentAreaTracker *)

Section AreaTrackerFacts.
Import IndependentAreaTracker.

Lemma area_ok_init e n k b d : area_ok (init e n k b d).
Proof. split; [apply timer_ok_init | simpl; discriminate]. Qed.

Lemma area_ok_exit e t tr : area_ok tr -> area_ok (fst (handle_material_exit e t tr)).
Proof.
  intros Hok. pose proof Hok as [Ht Hp]. unfold handle_material_exit.
  destruct (is_material_present tr) eqn:P; [|exact Hok].
  destruct (material_start_time tr) eqn:S; [|exact Hok].
  pose proof (timer_ok_end t (daily_timer tr) Ht) as Ht'.
  destruct (DailyTimer.end_session t (daily_timer tr)). simpl in *.
  split; [exact Ht' | discriminate].
Qed.

Lemma area_ok_update e t d tr : area_ok tr -> area_ok (fst (update_detection e t d tr)).
Proof.
  intros Hok. pose proof Hok as [Ht Hp]. unfold update_detection.
  destruct d.
  - destruct (is_material_present tr) eqn:P; simpl.
    + split; [exact Ht | simpl; intros _; split; [apply Hp; auto | discriminate]].
    + split; [now apply timer_ok_start | simpl; intros _; split; discriminate].
  - destruct (is_material_present tr) eqn:P; [|exact Hok].
    destruct (last_detection_time tr); [|exact Hok].
    destruct (_ <=? _); [now apply area_ok_exit | exact Hok].
Qed.

Lemma area_ok_reset e tr : area_ok tr -> area_ok (reset_daily_timer e tr).
Proof. intros [Ht Hp]. split; [now apply timer_ok_force | exact Hp]. Qed.

Lemma seen_at_same t tr : last_detection_time tr = Some t -> seen_at t tr = tr.
Proof. destruct tr; unfold seen_at; simpl; now intros ->. Qed.

(** While every frame is within the grace period, an occupied tracker only
    moves its time of last detection. *)
Lemma run_within_grace fs : forall tr last,
  is_material_present tr = true -> last_detection_time tr = Some last ->
  Presence.within_grace (material_lost_threshold tr) last (area_signals fs) ->
  run fs tr = (seen_at (Presence.last_seen last (area_signals fs)) tr, []).
Proof.
  induction fs as [|f fs IH]; intros tr last P L H; simpl.
  - now rewrite seen_at_same.
  - simpl in H. unfold update_detection.
    destruct (f_detected f) eqn:D.
    + rewrite P; simpl.
      rewrite (IH _ (f_time f)); simpl; auto.
      unfold seen_at; simpl. now rewrite P.
    + rewrite P, L. destruct H as [Hlt H]. unfold total_seconds.
      replace (material_lost_threshold tr <=? f_time f - last) with false
        by (symmetry; apply Z.leb_gt; exact Hlt).
      rewrite (IH tr last); auto.
Qed.

(** The frame that ends the presence. *)
Lemma update_detection_loss e t tr last start :
  is_material_present tr = true -> last_detection_time tr = Some last ->
  material_start_time tr = Some start ->
  material_lost_threshold tr <= t - last ->
  update_detection e t false tr
  = (mk (area_name tr) (area_bbox tr) (area_name_db tr) (area_number tr)
        false None None None (fst (DailyTimer.end_session t (daily_timer tr)))
        (material_lost_threshold tr),
     save_row e (area_name_db tr) (area_number tr)
       (format_hms (hms_of_duration (snd (DailyTimer.end_session t (daily_timer tr)))))
       start t "in_use").
Proof.
  intros P L S H. unfold update_detection, handle_material_exit, save_area_data, total_seconds.
  rewrite P, L, S.
  replace (material_lost_threshold tr <=? t - last) with true
    by (symmetry; apply Z.leb_le; exact H).
  now destruct (DailyTimer.end_session t (daily_timer tr)).
Qed.

(** A frame on which the tracker leaves the occupied state is one without
    detection, [material_lost_threshold] or more after the last detection. *)
Lemma update_detection_leaves e t d tr :
  is_material_present tr = true ->
  is_material_present (fst (update_detection e t d tr)) = false ->
  d = false
  /\ exists last start,
       last_detection_time tr = Some last /\ material_start_time tr = Some start
       /\ material_lost_threshold tr <= t - last.
Proof.
  intros P. unfold update_detection, handle_material_exit, total_seconds. rewrite P.
  destruct d; cbn [negb fst is_material_present]; [discriminate|].
  destruct (last_detection_time tr) as [last|]; cbn [fst]; [|congruence].
  destruct (material_lost_threshold tr <=? t - last) eqn:E; cbn [fst]; [|congruence].
  destruct (material_start_time tr) as [start|]; cbn [fst]; [|congruence].
  intros _. split; [reflexivity|]. exists last, start. apply Z.leb_le in E. auto.
Qed.

Lemma save_row_connected e a n f t_in t_out r :
  db_connected e = true ->
  save_row e a n f t_in t_out r
  = [ mkRow a f (int_of_seconds (t_out - t_in)) (strftime_seconds t_in)
        (get_current_shift e (Some t_in)) r n (get_log_date_for_shift e (Some t_in))
        (strftime_seconds t_out) ].
Proof. unfold save_row, total_seconds. now intros ->. Qed.

End AreaTrackerFacts.

(** C6. A zone tracker in the occupied state, fed frames in time order in
    which every gap between consecutive detections (the first counted from
    the tracker's last detection) is shorter than [material_lost_threshold]
    and which end on a detection: after every prefix of the frames the tracker
    is still occupied, its DailyTimer and session start are untouched, and no
    row has been inserted.  The tracker leaves the occupied state only on a
    frame without detection that comes [material_lost_threshold] or more
    after the last detection, and on such a frame it does leave: the
    DailyTimer session is ended and, the database being reachable, exactly one
    row is inserted, with remark "in_use". *)
Theorem short_gaps_never_end_session :
  (forall tr last fs,
      IndependentAreaTracker.is_material_present tr = true ->
      IndependentAreaTracker.last_detection_time tr = Some last ->
      Presence.chronological last (area_signals fs) ->
      Presence.gaps_shorter (IndependentAreaTracker.material_lost_threshold tr) last
        (Presence.detection_times (area_signals fs)) ->
      Presence.ends_detected (area_signals fs) ->
      forall n,
        IndependentAreaTracker.is_material_present
          (fst (IndependentAreaTracker.run (firstn n fs) tr)) = true
        /\ IndependentAreaTracker.daily_timer
             (fst (IndependentAreaTracker.run (firstn n fs) tr))
           = IndependentAreaTracker.daily_timer tr
        /\ IndependentAreaTracker.material_start_time
             (fst (IndependentAreaTracker.run (firstn n fs) tr))
           = IndependentAreaTracker.material_start_time tr
        /\ snd (IndependentAreaTracker.run (firstn n fs) tr) = [])
  /\ (forall e t d tr,
        IndependentAreaTracker.is_material_present tr = true ->
        IndependentAreaTracker.is_material_present
          (fst (IndependentAreaTracker.update_detection e t d tr)) = false ->
        d = false
        /\ exists last start,
             IndependentAreaTracker.last_detection_time tr = Some last
             /\ IndependentAreaTracker.material_start_time tr = Some start
             /\ IndependentAreaTracker.material_lost_threshold tr <= t - last)
  /\ (forall e t tr last start,
        IndependentAreaTracker.is_material_present tr = true ->
        IndependentAreaTracker.last_detection_time tr = Some last ->
        IndependentAreaTracker.material_start_time tr = Some start ->
        IndependentAreaTracker.material_lost_threshold tr <= t - last ->
        IndependentAreaTracker.is_material_present
          (fst (IndependentAreaTracker.update_detection e t false tr)) = false
        /\ IndependentAreaTracker.daily_timer
             (fst (IndependentAreaTracker.update_detection e t false tr))
           = fst (DailyTimer.end_session t (IndependentAreaTracker.daily_timer tr))
        /\ (db_connected e = true ->
            exists r,
              snd (IndependentAreaTracker.update_detection e t false tr) = [r]
              /\ remark r = "in_use"%string
              /\ time_in r = strftime_seconds start
              /\ time_int r = int_of_seconds (t - start))).
Proof.
  split; [|split].
  - intros tr last fs P L Hc Hg He n.
    assert (G : Presence.within_grace (IndependentAreaTracker.material_lost_threshold tr) last
                  (area_signals (firstn n fs))).
    { unfold area_signals. rewrite <- firstn_map. apply within_grace_firstn.
      now apply short_gaps_within_grace. }
    rewrite (run_within_grace (firstn n fs) tr last P L G). simpl. auto.
  - intros e t d tr P H. now apply (update_detection_leaves e).
  - intros e t tr last start P L S H.
    rewrite (update_detection_loss e t tr last start P L S H). cbn [fst snd].
    split; [reflexivity | split; [reflexivity|]].
    intros C. rewrite save_row_connected by exact C.
    eexists; split; [reflexivity|]. simpl. auto.
Qed.

(** Material in Area 1 since 10:00:00; then five frames, the detector missing
    the material on three of them: the gaps between detections are 0.8 s and
    0.9 s. *)
Lemma short_gaps_never_end_session_witness :
  IndependentAreaTracker.is_material_present
    (fst (IndependentAreaTracker.run
            (firstn 5
               [ ZoneScenario.frame_at 0 400000 false;
                 ZoneScenario.frame_at 0 800000 true;
                 ZoneScenario.frame_at 1 200000 false;
                 ZoneScenario.frame_at 1 600000 false;
                 ZoneScenario.frame_at 1 700000 true ])
            (fst (IndependentAreaTracker.update_detection
                    (mkEnv (mk_datetime 0 10 0 0 0) true)
                    (mk_datetime 0 10 0 0 0) true ZoneScenario.example_tracker)))) = true
  /\ snd (IndependentAreaTracker.run
            (firstn 5
               [ ZoneScenario.frame_at 0 400000 false;
                 ZoneScenario.frame_at 0 800000 true;
                 ZoneScenario.frame_at 1 200000 false;
                 ZoneScenario.frame_at 1 600000 false;
                 ZoneScenario.frame_at 1 700000 true ])
            (fst (IndependentAreaTracker.update_detection
                    (mkEnv (mk_datetime 0 10 0 0 0) true)
                    (mk_datetime 0 10 0 0 0) true ZoneScenario.example_tracker))) = [].
Proof.
  destruct short_gaps_never_end_session as [H _].
  destruct (H (fst (IndependentAreaTracker.update_detection
                      (mkEnv (mk_datetime 0 10 0 0 0) true)
                      (mk_datetime 0 10 0 0 0) true ZoneScenario.example_tracker))
              (mk_datetime 0 10 0 0 0)
              [ ZoneScenario.frame_at 0 400000 false;
                ZoneScenario.frame_at 0 800000 true;
                ZoneScenario.frame_at 1 200000 false;
                ZoneScenario.frame_at 1 600000 false;
                ZoneScenario.frame_at 1 700000 true ]
              eq_refl eq_refl) with (n := 5%nat) as [H1 [_ [_ H4]]].
  - vm_compute. intuition discriminate.
  - vm_compute. intuition.
  - reflexivity.
  - split; [exact H1 | exact H4].
Defined.

(** ** FreetimeTracker *)

Section FreetimeTrackerFacts.
Import FreetimeTracker.

Lemma freetime_ok_init e d : freetime_ok (init e d).
Proof. split; [apply timer_ok_init | simpl; discriminate]. Qed.

Lemma freetime_ok_end e t r ft : freetime_ok ft -> freetime_ok (fst (end_freetime e t r ft)).
Proof.
  intros Hok. pose proof Hok as [Ht Hs]. unfold end_freetime.
  destruct (is_freetime_active ft) eqn:A; [|exact Hok].
  destruct (freetime_start_time ft) eqn:S; [|exact Hok].
  pose proof (timer_ok_end t (daily_timer ft) Ht) as Ht'.
  destruct (DailyTimer.end_session t (daily_timer ft)). simpl in *.
  split; [exact Ht' | discriminate].
Qed.

Lemma freetime_ok_update e b t ft :
  freetime_ok ft -> freetime_ok (fst (update_freetime_status e b t ft)).
Proof.
  intros Hok. pose proof Hok as [Ht Hs]. unfold update_freetime_status.
  destruct b.
  - destruct (all_empty_start ft); [|exact Hok].
    destruct (_ && _); [|exact Hok].
    split; simpl; [now apply timer_ok_start | discriminate].
  - destruct (is_freetime_active ft) eqn:A.
    + pose proof (freetime_ok_end e t "material_detected" ft Hok) as Hok'.
      destruct (end_freetime e t "material_detected" ft). exact Hok'.
    + exact Hok.
Qed.

Lemma freetime_ok_reset e ft : freetime_ok ft -> freetime_ok (reset_daily_timer e ft).
Proof. intros [Ht Hs]. split; [now apply timer_ok_force | exact Hs]. Qed.

Lemma freetime_ok_run fs : forall ft, freetime_ok ft -> freetime_ok (fst (run fs ft)).
Proof.
  induction fs as [|f fs IH]; intros ft Hok; cbn [run]; [exact Hok|].
  pose proof (freetime_ok_update (f_env f) (f_all_empty f) (f_time f) ft Hok) as H1.
  destruct (update_freetime_status (f_env f) (f_all_empty f) (f_time f) ft) as [s1 r1].
  specialize (IH s1 H1). now destruct (run fs s1).
Qed.

Lemma end_freetime_active e t r ft start :
  is_freetime_active ft = true -> freetime_start_time ft = Some start ->
  end_freetime e t r ft
  = (mk (area_name_db ft) false None (freetime_threshold ft) (all_empty_start ft)
        (fst (DailyTimer.end_session t (daily_timer ft))),
     save_row e (area_name_db ft) 0
       (format_hms (hms_of_duration (snd (DailyTimer.end_session t (daily_timer ft)))))
       start t "freetime").
Proof.
  intros A S. unfold end_freetime, save_freetime_data. rewrite A, S.
  now destruct (DailyTimer.end_session t (daily_timer ft)).
Qed.

(** The rows of [end_freetime] are freetime rows. *)
Lemma end_freetime_rows e t r ft :
  Forall (fun row => remark row = "freetime"%string) (snd (end_freetime e t r ft)).
Proof.
  unfold end_freetime.
  destruct (is_freetime_active ft); [|constructor].
  destruct (freetime_start_time ft); [|constructor].
  destruct (DailyTimer.end_session t (daily_timer ft)). simpl.
  unfold save_freetime_data, save_row. destruct (db_connected e); repeat constructor.
Qed.

End FreetimeTrackerFacts.

(** ** GloveTracker *)

Section GloveTrackerFacts.
Import GloveTracker.

Lemma glove_ok_init e p d : glove_ok (init e p d).
Proof.
  split; [apply timer_ok_init | split; simpl; discriminate].
Qed.

Lemma glove_ok_exit e t g : glove_ok g -> glove_ok (fst (handle_glove_exit e t g)).
Proof.
  intros Hok. pose proof Hok as [Ht [Hd Ha]]. unfold handle_glove_exit.
  destruct (is_glove_detected g) eqn:D; [|exact Hok].
  destruct (glove_start_time g) eqn:S; [|exact Hok].
  destruct (was_freetime_before_glove g) eqn:W.
  - pose proof (timer_ok_end t (daily_timer g) Ht) as Ht'.
    assert (Hin : DailyTimer.is_active (fst (DailyTimer.end_session t (daily_timer g))) = false).
    { unfold DailyTimer.end_session.
      destruct (DailyTimer.is_active (daily_timer g)) eqn:A; [|simpl; exact A].
      destruct (DailyTimer.current_session_start (daily_timer g)) eqn:C; [reflexivity|].
      destruct Ht as [Ht _]. specialize (Ht A). congruence. }
    destruct (DailyTimer.end_session t (daily_timer g)). simpl in *.
    split; [exact Ht' | split; [discriminate | simpl; congruence]].
  - simpl. split; [exact Ht | split; [discriminate|]].
    simpl. intros A. destruct (Ha A). congruence.
Qed.

Lemma glove_ok_update e t d ft g :
  glove_ok g -> glove_ok (fst (fst (update_glove_detection e t d ft g))).
Proof.
  intros Hok. pose proof Hok as [Ht [Hd Ha]]. unfold update_glove_detection.
  destruct d.
  - destruct (is_glove_detected g) eqn:D; simpl.
    + split; [exact Ht | simpl; split].
      * intros _. split; [apply Hd; auto | discriminate].
      * intros A. destruct (Ha A). auto.
    + destruct (FreetimeTracker.is_freetime_active ft).
      * destruct (FreetimeTracker.end_freetime e t "glove_detected" ft). simpl.
        split; [now apply timer_ok_start | simpl; split; [split; discriminate | auto]].
      * simpl. split; [exact Ht | simpl; split; [split; discriminate|]].
        intros A. destruct (Ha A). congruence.
  - destruct (is_glove_detected g) eqn:D; [|exact Hok].
    destruct (last_glove_detection g); [|exact Hok].
    destruct (_ <=? _); [|exact Hok].
    pose proof (glove_ok_exit e t g Hok) as Hok'.
    destruct (handle_glove_exit e t g). exact Hok'.
Qed.

Lemma glove_ok_reset e g : glove_ok g -> glove_ok (reset_daily_timer e g).
Proof. intros [Ht [Hd Ha]]. split; [now apply timer_ok_force | split; [exact Hd | exact Ha]]. Qed.

Lemma glove_seen_at_same t g : last_glove_detection g = Some t -> glove_seen_at t g = g.
Proof. destruct g; unfold glove_seen_at; simpl; now intros ->. Qed.

(** While every frame is within the grace period, a tracker that sees a
    glove only moves its time of last detection; the freetime tracker it is
    handed is not looked at. *)
Lemma glove_run_within_grace fs : forall g last,
  is_glove_detected g = true -> last_glove_detection g = Some last ->
  Presence.within_grace (glove_lost_threshold g) last (glove_signals fs) ->
  run fs g = (glove_seen_at (Presence.last_seen last (glove_signals fs)) g, []).
Proof.
  induction fs as [|f fs IH]; intros g last D L H; simpl.
  - now rewrite glove_seen_at_same.
  - simpl in H. unfold update_glove_detection.
    destruct (f_detected f) eqn:F.
    + rewrite D; simpl.
      rewrite (IH _ (f_time f)); simpl; auto.
      unfold glove_seen_at; simpl. now rewrite D.
    + rewrite D, L. destruct H as [Hlt H]. unfold total_seconds.
      replace (glove_lost_threshold g <=? f_time f - last) with false
        by (symmetry; apply Z.leb_gt; exact Hlt).
      rewrite (IH g last); auto.
Qed.

(** The frame on which the glove is given up. *)
Lemma update_glove_loss e t ft g last start :
  is_glove_detected g = true -> last_glove_detection g = Some last ->
  glove_start_time g = Some start ->
  glove_lost_threshold g <= t - last ->
  update_glove_detection e t false ft g
  = (mk (area_polygon g) (area_name_db g) false None None (glove_lost_threshold g) false
        (if was_freetime_before_glove g
         then fst (DailyTimer.end_session t (daily_timer g))
         else daily_timer g),
     ft,
     if was_freetime_before_glove g
     then save_row e (area_name_db g) 5
            (format_hms (hms_of_duration (snd (DailyTimer.end_session t (daily_timer g)))))
            start t "in_use"
     else []).
Proof.
  intros D L S H. unfold update_glove_detection, handle_glove_exit, save_glove_data, total_seconds.
  rewrite D, L, S.
  replace (glove_lost_threshold g <=? t - last) with true
    by (symmetry; apply Z.leb_le; exact H).
  destruct (was_freetime_before_glove g); [|reflexivity].
  now destruct (DailyTimer.end_session t (daily_timer g)).
Qed.

Lemma start_session_active e t tm :
  DailyTimer.is_active (DailyTimer.start_session e t tm) = true.
Proof.
  unfold DailyTimer.start_session, DailyTimer.check_daily_reset.
  destruct (DailyTimer.is_active tm) eqn:A; simpl; [exact A|].
  now destruct (_ <? _).
Qed.

Lemma start_session_start e t tm :
  DailyTimer.is_active tm = false ->
  DailyTimer.current_session_start (DailyTimer.start_session e t tm) = Some t.
Proof.
  unfold DailyTimer.start_session, DailyTimer.check_daily_reset. intros ->. simpl.
  now destruct (_ <? _).
Qed.

End GloveTrackerFacts.

Lemma in_use_rows_of_freetime rows :
  Forall (fun row => remark row = "freetime"%string) rows -> in_use_rows rows = [].
Proof.
  induction 1 as [|r rows Hr _ IH]; [reflexivity|].
  unfold in_use_rows in *. simpl. rewrite Hr. exact IH.
Qed.

(** C1. A glove session: the glove is first detected at [t0] by a tracker
    that saw none, handed the freetime tracker [ft0]; the frames [mid] that
    follow stay within the grace period; the frame [ex], without glove, comes
    [glove_lost_threshold] or more after the last detection.
    - If freetime was active at [t0]: [was_freetime_before_glove] is set,
      freetime is ended by [end_freetime] with reason "glove_detected" (its
      rows are those of that call), the glove DailyTimer has a session (one
      that starts at [t0], the timer having been idle), and on [ex], the
      database being reachable, exactly one row is inserted, with remark
      "in_use".
    - If freetime was not active at [t0]: no row is inserted, at the entry,
      in between or at the exit, and the glove DailyTimer after the exit is
      the one before the entry, however long the session was.
    So the session leaves one "in_use" row exactly when freetime was active
    at the moment of the first detection. *)
Theorem glove_session_persisted_iff_freetime :
  forall g0 e0 t0 ft0 mid ex,
    GloveTracker.is_glove_detected g0 = false ->
    freetime_ok ft0 ->
    Presence.within_grace (GloveTracker.glove_lost_threshold g0) t0 (glove_signals mid) ->
    GloveTracker.f_detected ex = false ->
    GloveTracker.glove_lost_threshold g0
      <= GloveTracker.f_time ex - Presence.last_seen t0 (glove_signals mid) ->
    let entry := GloveTracker.update_glove_detection e0 t0 true ft0 g0 in
    let g1 := fst (fst entry) in
    let ft1 := snd (fst entry) in
    let between := GloveTracker.run mid g1 in
    let exit := GloveTracker.update_glove_detection (GloveTracker.f_env ex)
                  (GloveTracker.f_time ex) false (GloveTracker.f_freetime ex) (fst between) in
    let g3 := fst (fst exit) in
    let rows := snd entry ++ snd between ++ snd exit in
    (GloveTracker.is_glove_detected g1 = true
     /\ GloveTracker.is_glove_detected (fst between) = true
     /\ snd between = []
     /\ GloveTracker.is_glove_detected g3 = false)
    /\ (FreetimeTracker.is_freetime_active ft0 = true ->
        GloveTracker.was_freetime_before_glove g1 = true
        /\ (ft1, snd entry) = FreetimeTracker.end_freetime e0 t0 "glove_detected" ft0
        /\ FreetimeTracker.is_freetime_active ft1 = false
        /\ DailyTimer.is_active (GloveTracker.daily_timer g1) = true
        /\ (DailyTimer.is_active (GloveTracker.daily_timer g0) = false ->
            DailyTimer.current_session_start (GloveTracker.daily_timer g1) = Some t0)
        /\ (db_connected (GloveTracker.f_env ex) = true ->
            exists r,
              snd exit = [r] /\ in_use_rows rows = [r]
              /\ remark r = "in_use"%string /\ no_area r = 5
              /\ time_in r = strftime_seconds t0
              /\ time_int r = int_of_seconds (GloveTracker.f_time ex - t0)))
    /\ (FreetimeTracker.is_freetime_active ft0 = false ->
        GloveTracker.was_freetime_before_glove g1 = false
        /\ ft1 = ft0
        /\ rows = []
        /\ GloveTracker.daily_timer g3 = GloveTracker.daily_timer g0).
Proof.
  intros g0 e0 t0 ft0 mid ex D0 [_ Hft] Hg Hex Hloss entry g1 ft1 between exit g3 rows.
  assert (E1 : GloveTracker.is_glove_detected g1 = true
               /\ GloveTracker.last_glove_detection g1 = Some t0
               /\ GloveTracker.glove_start_time g1 = Some t0
               /\ GloveTracker.glove_lost_threshold g1 = GloveTracker.glove_lost_threshold g0
               /\ GloveTracker.area_name_db g1 = GloveTracker.area_name_db g0
               /\ GloveTracker.was_freetime_before_glove g1
                  = FreetimeTracker.is_freetime_active ft0).
  { subst g1 entry. unfold GloveTracker.update_glove_detection. rewrite D0. simpl.
    destruct (FreetimeTracker.is_freetime_active ft0).
    - destruct (FreetimeTracker.end_freetime e0 t0 "glove_detected" ft0). simpl. auto 10.
    - simpl. auto 10. }
  destruct E1 as [D1 [L1 [S1 [T1 [N1 W1]]]]].
  assert (E2 : between
               = (glove_seen_at (Presence.last_seen t0 (glove_signals mid)) g1, [])).
  { subst between. apply glove_run_within_grace; auto. now rewrite T1. }
  assert (E3 : exit = GloveTracker.update_glove_detection (GloveTracker.f_env ex)
                        (GloveTracker.f_time ex) false (GloveTracker.f_freetime ex)
                        (glove_seen_at (Presence.last_seen t0 (glove_signals mid)) g1)).
  { subst exit. now rewrite E2. }
  rewrite (update_glove_loss _ _ _ _ (Presence.last_seen t0 (glove_signals mid)) t0) in E3;
    [| exact D1 | reflexivity | exact S1 | simpl; rewrite T1; exact Hloss].
  cbn [glove_seen_at GloveTracker.area_polygon GloveTracker.area_name_db
       GloveTracker.glove_lost_threshold GloveTracker.was_freetime_before_glove
       GloveTracker.daily_timer] in E3.
  rewrite W1 in E3.
  split; [|split].
  - split; [exact D1 | split; [rewrite E2; exact D1 | split; [now rewrite E2|]]].
    subst g3. now rewrite E3.
  - intros A. rewrite A in *.
    assert (Hentry : entry
              = (GloveTracker.mk (GloveTracker.area_polygon g0) (GloveTracker.area_name_db g0)
                   true (Some t0) (Some t0) (GloveTracker.glove_lost_threshold g0) true
                   (DailyTimer.start_session e0 t0 (GloveTracker.daily_timer g0)),
                 fst (FreetimeTracker.end_freetime e0 t0 "glove_detected" ft0),
                 snd (FreetimeTracker.end_freetime e0 t0 "glove_detected" ft0))).
    { subst entry. unfold GloveTracker.update_glove_detection. rewrite D0, A. simpl.
      now destruct (FreetimeTracker.end_freetime e0 t0 "glove_detected" ft0). }
    split; [exact W1|].
    split; [subst ft1; rewrite Hentry; simpl; now destruct (FreetimeTracker.end_freetime _ _ _ _)|].
    split.
    { subst ft1. rewrite Hentry. simpl. apply end_freetime_deactivates; auto. }
    split.
    { subst g1. rewrite Hentry. simpl. apply start_session_active. }
    split.
    { intros I. subst g1. rewrite Hentry. simpl. now apply start_session_start. }
    intros C. subst rows. rewrite E2, E3, Hentry. cbn [fst snd].
    rewrite save_row_connected by exact C.
    eexists. split; [reflexivity|].
    unfold in_use_rows. rewrite !filter_app.
    fold (in_use_rows (snd (FreetimeTracker.end_freetime e0 t0 "glove_detected" ft0))).
    rewrite in_use_rows_of_freetime by apply end_freetime_rows.
    simpl. rewrite N1. auto 10.
  - intros A. rewrite A in *.
    assert (Hentry : entry
              = (GloveTracker.mk (GloveTracker.area_polygon g0) (GloveTracker.area_name_db g0)
                   true (Some t0) (Some t0) (GloveTracker.glove_lost_threshold g0) false
                   (GloveTracker.daily_timer g0),
                 ft0, [])).
    { subst entry. unfold GloveTracker.update_glove_detection. now rewrite D0, A. }
    split; [exact W1|].
    split; [subst ft1; now rewrite Hentry|].
    split; [subst rows; now rewrite E2, E3, Hentry|].
    subst g3 g1. rewrite E3, Hentry. reflexivity.
Qed.

(** Two sessions of three seconds: the one that starts during freetime leaves
    the freetime row and one "in_use" row of 3 s, the other leaves nothing. *)
Lemma glove_session_persisted_iff_freetime_witness :
  map time_int (in_use_rows (GloveScenario.session_rows GloveScenario.freetime_active)) = [3]
  /\ GloveScenario.session_rows GloveScenario.freetime_idle = [].
Proof.
  assert (Hok : forall ft, freetime_ok ft ->
            Presence.within_grace
              (GloveTracker.glove_lost_threshold GloveScenario.example_tracker)
              (GloveScenario.at_time 5 0)
              (glove_signals (GloveScenario.example_mid ft))).
  { intros ft _. vm_compute. intuition discriminate. }
  split.
  - pose proof (glove_session_persisted_iff_freetime
                  GloveScenario.example_tracker
                  (mkEnv (GloveScenario.at_time 5 0) true) (GloveScenario.at_time 5 0)
                  GloveScenario.freetime_active
                  (GloveScenario.example_mid
                     (fst (FreetimeTracker.end_freetime
                             (mkEnv (GloveScenario.at_time 5 0) true)
                             (GloveScenario.at_time 5 0) "glove_detected"
                             GloveScenario.freetime_active)))
                  (GloveScenario.example_exit
                     (fst (FreetimeTracker.end_freetime
                             (mkEnv (GloveScenario.at_time 5 0) true)
                             (GloveScenario.at_time 5 0) "glove_detected"
                             GloveScenario.freetime_active)))
                  eq_refl) as H.
    cbv zeta in H.
    destruct H as [_ [H _]].
    + apply freetime_ok_run, freetime_ok_init.
    + apply Hok. apply freetime_ok_end, freetime_ok_run, freetime_ok_init.
    + reflexivity.
    + vm_compute. discriminate.
    + destruct (H eq_refl) as [_ [_ [_ [_ [_ Hrow]]]]].
      destruct (Hrow eq_refl) as [r [_ [Hr [_ [_ [_ Ht]]]]]].
      change (in_use_rows (GloveScenario.session_rows GloveScenario.freetime_active) = [r])
        in Hr.
      rewrite Hr. simpl. rewrite Ht. reflexivity.
  - pose proof (glove_session_persisted_iff_freetime
                  GloveScenario.example_tracker
                  (mkEnv (GloveScenario.at_time 5 0) true) (GloveScenario.at_time 5 0)
                  GloveScenario.freetime_idle
                  (GloveScenario.example_mid GloveScenario.freetime_idle)
                  (GloveScenario.example_exit GloveScenario.freetime_idle)
                  eq_refl) as H.
    cbv zeta in H.
    destruct H as [_ [_ H]].
    + apply freetime_ok_init.
    + apply Hok. apply freetime_ok_init.
    + reflexivity.
    + vm_compute. discriminate.
    + destruct (H eq_refl) as [_ [_ [Hrows _]]]. exact Hrows.
Defined.

(** ** The zone scenario *)

Section ZoneScenarioFacts.
Import IndependentAreaTracker.

Lemma run_app fs1 : forall fs2 tr,
  run (fs1 ++ fs2) tr
  = (fst (run fs2 (fst (run fs1 tr))), snd (run fs1 tr) ++ snd (run fs2 (fst (run fs1 tr)))).
Proof.
  induction fs1 as [|f fs1 IH]; intros fs2 tr; simpl.
  - now destruct (run fs2 tr).
  - destruct (update_detection (f_env f) (f_time f) (f_detected f) tr) as [s1 r1].
    rewrite IH. destruct (run fs1 s1) as [s2 r2]. simpl.
    now rewrite app_assoc.
Qed.

Lemma all_detected_within_grace thr fs : forall last,
  Forall (fun f => f_detected f = true) fs ->
  Presence.within_grace thr last (area_signals fs).
Proof.
  induction fs as [|f fs IH]; intros last H; simpl; [exact I|].
  inversion H as [|? ? Hf Hfs]; subst. rewrite Hf. now apply IH.
Qed.

Lemma all_detected_last_seen fs : forall last f,
  Forall (fun f => f_detected f = true) (fs ++ [f]) ->
  Presence.last_seen last (area_signals (fs ++ [f])) = f_time f.
Proof.
  induction fs as [|g fs IH]; intros last f H; simpl in *;
    inversion H as [|? ? Hf Hfs]; subst; rewrite Hf; [reflexivity | now apply IH].
Qed.

(** An empty tracker ignores frames without material. *)
Lemma run_empty_idle fs : forall tr,
  is_material_present tr = false ->
  Forall (fun f => f_detected f = false) fs ->
  run fs tr = (tr, []).
Proof.
  induction fs as [|f fs IH]; intros tr P H; simpl; [reflexivity|].
  inversion H as [|? ? Hf Hfs]; subst.
  unfold update_detection. rewrite Hf, P. now rewrite IH.
Qed.

(** An occupied tracker fed frames without material: nothing happens until
    the first frame that comes [material_lost_threshold] or more after the
    last detection; that frame ends the session and nothing happens after
    it. *)
Lemma run_until_loss fs : forall tr last start,
  is_material_present tr = true -> last_detection_time tr = Some last ->
  material_start_time tr = Some start ->
  Forall (fun f => f_detected f = false) fs ->
  match Presence.first_loss (material_lost_threshold tr) last (map f_time fs) with
  | None => run fs tr = (tr, [])
  | Some t_exit =>
      exists e, (exists f, In f fs /\ f_env f = e /\ f_time f = t_exit)
                /\ material_lost_threshold tr <= t_exit - last
                /\ run fs tr = update_detection e t_exit false tr
  end.
Proof.
  induction fs as [|f fs IH]; intros tr last start P L S H;
    cbn [map Presence.first_loss run]; [reflexivity|].
  inversion H as [|? ? Hf Hfs]; subst.
  destruct (material_lost_threshold tr <=? f_time f - last) eqn:E.
  - apply Z.leb_le in E. exists (f_env f).
    split; [exists f; simpl; auto|]. split; [exact E|].
    rewrite Hf.
    rewrite (update_detection_loss (f_env f) (f_time f) tr last start P L S E).
    rewrite run_empty_idle; [now rewrite app_nil_r | reflexivity | exact Hfs].
  - assert (U : update_detection (f_env f) (f_time f) (f_detected f) tr = (tr, [])).
    { unfold update_detection, total_seconds. now rewrite Hf, P, L, E. }
    rewrite U. specialize (IH tr last start P L S Hfs).
    destruct (Presence.first_loss (material_lost_threshold tr) last (map f_time fs)).
    + destruct IH as [e [[g [Hin [He Hg]]] [Hle Hrun]]].
      exists e. split; [exists g; simpl; auto|]. split; [exact Hle|].
      now rewrite Hrun; destruct (update_detection e d false tr).
    + now rewrite IH.
Qed.

Lemma first_loss_in thr last ts t :
  Presence.first_loss thr last ts = Some t -> thr <= t - last.
Proof.
  induction ts as [|u ts IH]; simpl; [discriminate|].
  destruct (thr <=? u - last) eqn:E; [|exact IH].
  intros H; inversion H; subst. now apply Z.leb_le.
Qed.

End ZoneScenarioFacts.

(** C3, as stated, fails: material seen at every second from 10:00:00 to
    10:00:05 and frames without material at 10:00:05.5, 10:00:06 and 10:00:07
    fit the scenario, and the one row they leave has 6 as its duration in
    seconds, not 5: the session runs until the frame that finds the material
    lost, one second after the last detection. *)
Lemma zone_scenario_duration_is_not_5 :
  ZoneScenario.frames_ok 0 ZoneScenario.example_seen ZoneScenario.example_after
  /\ IndependentAreaTracker.is_material_present ZoneScenario.example_tracker = false
  /\ map time_int
       (snd (IndependentAreaTracker.run
               (ZoneScenario.example_seen ++ ZoneScenario.example_after)
               ZoneScenario.example_tracker)) = [6]
  /\ ~ ZoneScenario.outcome_as_stated 0
         (snd (IndependentAreaTracker.run
                 (ZoneScenario.example_seen ++ ZoneScenario.example_after)
                 ZoneScenario.example_tracker)).
Proof.
  split; [|split; [reflexivity | split; [reflexivity|]]].
  - split; [eexists; eexists; split; reflexivity|].
    split; [exists (firstn 5 ZoneScenario.example_seen), (ZoneScenario.frame_at 5 0 true);
            split; reflexivity|].
    split; repeat constructor; vm_compute; congruence.
  - intros [r [E [H _]]]. vm_compute in E. inversion E; subst r. discriminate H.
Qed.

Section ZoneScenarioOutcome.
Import IndependentAreaTracker.

Lemma scenario_shift e day :
  get_current_shift e (Some (ZoneScenario.t_first day)) = Shift_1
  /\ get_log_date_for_shift e (Some (ZoneScenario.t_first day)) = day
  /\ strftime_seconds (ZoneScenario.t_first day) = ZoneScenario.t_first day.
Proof.
  assert (Hh : hour (ZoneScenario.t_first day) = 10)
    by (unfold ZoneScenario.t_first; time_arith).
  assert (Hd : date_of (ZoneScenario.t_first day) = day)
    by (unfold ZoneScenario.t_first; time_arith).
  unfold get_log_date_for_shift, get_current_shift. rewrite Hh, Hd. simpl.
  repeat split. unfold strftime_seconds, ZoneScenario.t_first. time_arith.
Qed.

(** After the frames with material: occupied since 10:00:00, last seen at
    10:00:05, no row. *)
Lemma run_seen day tr seen after :
  is_material_present tr = false ->
  ZoneScenario.frames_ok day seen after ->
  is_material_present (fst (run seen tr)) = true
  /\ material_start_time (fst (run seen tr)) = Some (ZoneScenario.t_first day)
  /\ last_detection_time (fst (run seen tr)) = Some (ZoneScenario.t_last day)
  /\ material_lost_threshold (fst (run seen tr)) = material_lost_threshold tr
  /\ area_name_db (fst (run seen tr)) = area_name_db tr
  /\ area_number (fst (run seen tr)) = area_number tr
  /\ snd (run seen tr) = [].
Proof.
  intros P [[f [rest [Es Hf]]] [[rest' [fl [El Hl]]] [Hseen _]]].
  assert (Hdet : Forall (fun f => f_detected f = true) seen).
  { eapply Forall_impl; [|exact Hseen]. simpl; tauto. }
  assert (Hls : Presence.last_seen (f_time f) (area_signals rest) = ZoneScenario.t_last day).
  { destruct rest' as [|g rest'].
    - simpl in El. rewrite El in Es. inversion Es; subst. simpl. congruence.
    - rewrite El in Es. simpl in Es. inversion Es; subst g rest.
      rewrite all_detected_last_seen; [exact Hl|].
      rewrite El in Hdet. simpl in Hdet. now inversion Hdet. }
  subst seen. inversion Hdet as [|? ? Df Drest]; subst.
  assert (R : run (f :: rest) tr
              = (seen_at (ZoneScenario.t_last day)
                   (fst (update_detection (f_env f) (f_time f) true tr)), [])).
  { cbn [run]. rewrite Df.
    assert (U : update_detection (f_env f) (f_time f) true tr
                = (fst (update_detection (f_env f) (f_time f) true tr), [])).
    { unfold update_detection. now rewrite P. }
    rewrite U at 1.
    rewrite run_within_grace with (last := f_time f);
      [ now rewrite Hls
      | unfold update_detection; now rewrite P
      | unfold update_detection; now rewrite P
      | now apply all_detected_within_grace ]. }
  rewrite R. unfold update_detection. rewrite P, Hf. simpl. auto 10.
Qed.

End ZoneScenarioOutcome.

(** C3, amended.  A zone tracker without material and with the default
    threshold of 1.0 s, fed frames in which material is detected from 10:00:00
    to 10:00:05 and never afterwards: no row is inserted before a frame comes
    that is at least 1.0 s later than 10:00:05; the first such frame inserts
    exactly one row, with time_in = 10:00:00, shift = Shift_1, remark =
    "in_use" and, as duration in seconds, the whole seconds from 10:00:00 to
    the time of that frame, which is 6 or more; no later frame inserts
    another. *)
Theorem zone_scenario_one_record :
  forall day tr seen after,
    IndependentAreaTracker.is_material_present tr = false ->
    IndependentAreaTracker.material_lost_threshold tr = 1000000 ->
    ZoneScenario.frames_ok day seen after ->
    match Presence.first_loss 1000000 (ZoneScenario.t_last day)
            (map IndependentAreaTracker.f_time after) with
    | None => snd (IndependentAreaTracker.run (seen ++ after) tr) = []
    | Some t_exit =>
        exists r,
          snd (IndependentAreaTracker.run (seen ++ after) tr) = [r]
          /\ time_int r = int_of_seconds (t_exit - ZoneScenario.t_first day)
          /\ 6 <= time_int r
          /\ time_in r = ZoneScenario.t_first day
          /\ shift r = Shift_1
          /\ remark r = "in_use"%string
          /\ no_area r = IndependentAreaTracker.area_number tr
          /\ log_date r = day
          /\ created_at r = strftime_seconds t_exit
    end.
Proof.
  intros day tr seen after P T Hok.
  destruct (run_seen day tr seen after P Hok) as [P1 [S1 [L1 [T1 [N1 [K1 R1]]]]]].
  destruct Hok as [_ [_ [_ Hafter]]].
  assert (Hnd : Forall (fun f => IndependentAreaTracker.f_detected f = false) after).
  { eapply Forall_impl; [|exact Hafter]. simpl; tauto. }
  pose proof (run_until_loss after _ _ _ P1 L1 S1 Hnd) as Hrun.
  rewrite T1, T in Hrun. rewrite run_app, R1. cbn [fst snd app].
  destruct (Presence.first_loss 1000000 (ZoneScenario.t_last day)
              (map IndependentAreaTracker.f_time after)) as [t_exit|] eqn:F.
  - destruct Hrun as [e [[f [Hin [He Hf]]] [Hle Hrun]]].
    assert (C : db_connected e = true).
    { rewrite Forall_forall in Hafter. destruct (Hafter f Hin) as [_ [_ C]]. congruence. }
    rewrite Hrun.
    rewrite (update_detection_loss e t_exit _ _ _ P1 L1 S1) by (rewrite T1, T; exact Hle).
    cbn [snd]. rewrite save_row_connected by exact C.
    destruct (scenario_shift e day) as [Hs [Hd Hz]].
    eexists. split; [reflexivity|]. cbn [time_int time_in shift remark no_area log_date created_at].
    rewrite Hs, Hd, Hz, K1.
    repeat split.
    unfold int_of_seconds, ZoneScenario.t_first, ZoneScenario.t_last in *.
    unfold_time. apply Z.quot_le_lower_bound; lia.
  - now rewrite Hrun.
Qed.

(** The frames of the example above: the row comes at 10:00:06. *)
Lemma zone_scenario_one_record_witness :
  exists r,
    snd (IndependentAreaTracker.run
           (ZoneScenario.example_seen ++ ZoneScenario.example_after)
           ZoneScenario.example_tracker) = [r]
    /\ time_int r = 6 /\ time_in r = ZoneScenario.t_first 0
    /\ shift r = Shift_1 /\ remark r = "in_use"%string.
Proof.
  pose proof (zone_scenario_one_record 0 ZoneScenario.example_tracker
                ZoneScenario.example_seen ZoneScenario.example_after
                eq_refl eq_refl) as H.
  assert (Hok : ZoneScenario.frames_ok 0 ZoneScenario.example_seen ZoneScenario.example_after).
  { split; [eexists; eexists; split; reflexivity|].
    split; [exists (firstn 5 ZoneScenario.example_seen), (ZoneScenario.frame_at 5 0 true);
            split; reflexivity|].
    split; repeat constructor; vm_compute; congruence. }
  specialize (H Hok). vm_compute Presence.first_loss in H.
  destruct H as [r [H1 [H2 [_ [H4 [H5 [H6 _]]]]]]].
  exists r. repeat split; assumption.
Defined.

(** ** The freetime scenario *)

Section FreetimeScenarioFacts.
Import FreetimeTracker.

(** An active freetime ignores frames in which all zones are empty. *)
Lemma run_active_idle fs : forall ft since,
  is_freetime_active ft = true -> all_empty_start ft = Some since ->
  Forall (fun f => f_all_empty f = true) fs ->
  run fs ft = (ft, []).
Proof.
  induction fs as [|f fs IH]; intros ft since A S H; cbn [run]; [reflexivity|].
  inversion H as [|? ? Hf Hfs]; subst.
  assert (U : update_freetime_status (f_env f) (f_all_empty f) (f_time f) ft = (ft, [])).
  { unfold update_freetime_status. rewrite Hf, S, A. cbn [negb]. now rewrite andb_false_r. }
  rewrite U, (IH ft since); auto.
Qed.

(** An idle tracker that has seen all zones empty since [since], fed frames
    in which they stay empty: nothing happens until the first frame that
    comes [freetime_threshold] or more after [since]; that frame starts
    freetime, at its own time, and nothing happens after it. *)
Lemma run_until_freetime fs : forall ft since,
  is_freetime_active ft = false -> all_empty_start ft = Some since ->
  Forall (fun f => f_all_empty f = true) fs ->
  match Presence.first_loss (freetime_threshold ft) since (map f_time fs) with
  | None => run fs ft = (ft, [])
  | Some t_act => exists e, run fs ft = (activated e t_act ft, [])
  end.
Proof.
  induction fs as [|f fs IH]; intros ft since A S H;
    cbn [map Presence.first_loss run]; [reflexivity|].
  inversion H as [|? ? Hf Hfs]; subst.
  destruct (freetime_threshold ft <=? f_time f - since) eqn:E.
  - exists (f_env f).
    assert (U : update_freetime_status (f_env f) (f_all_empty f) (f_time f) ft
                = (activated (f_env f) (f_time f) ft, [])).
    { unfold update_freetime_status, total_seconds, activated.
      now rewrite Hf, S, E, A. }
    rewrite U, (run_active_idle fs _ since); auto.
  - assert (U : update_freetime_status (f_env f) (f_all_empty f) (f_time f) ft = (ft, [])).
    { unfold update_freetime_status, total_seconds. now rewrite Hf, S, E. }
    rewrite U. specialize (IH ft since A S Hfs).
    destruct (Presence.first_loss (freetime_threshold ft) since (map f_time fs)).
    + destruct IH as [e IH]. exists e. now rewrite IH.
    + now rewrite IH.
Qed.

Lemma first_loss_some thr last (fs : list Frame) :
  Exists (fun f => last + thr <= f_time f) fs ->
  exists t, Presence.first_loss thr last (map f_time fs) = Some t.
Proof.
  induction 1 as [f fs Hf | f fs _ IH]; simpl.
  - exists (f_time f). replace (thr <=? f_time f - last) with true; [reflexivity|].
    symmetry; apply Z.leb_le; lia.
  - destruct (thr <=? f_time f - last); [eexists; reflexivity | exact IH].
Qed.

Lemma first_loss_member thr last ts t :
  Presence.first_loss thr last ts = Some t -> In t ts.
Proof.
  induction ts as [|u ts IH]; simpl; [discriminate|].
  destruct (thr <=? u - last); [|auto].
  intros H; inversion H; auto.
Qed.

End FreetimeScenarioFacts.

Lemma freetime_run_app fs1 : forall fs2 ft,
  FreetimeTracker.run (fs1 ++ fs2) ft
  = (fst (FreetimeTracker.run fs2 (fst (FreetimeTracker.run fs1 ft))),
     snd (FreetimeTracker.run fs1 ft)
       ++ snd (FreetimeTracker.run fs2 (fst (FreetimeTracker.run fs1 ft)))).
Proof.
  induction fs1 as [|f fs1 IH]; intros fs2 ft; simpl.
  - now destruct (FreetimeTracker.run fs2 ft).
  - destruct (FreetimeTracker.update_freetime_status _ _ _ ft) as [s1 r1].
    rewrite IH. destruct (FreetimeTracker.run fs1 s1) as [s2 r2]. simpl.
    now rewrite app_assoc.
Qed.

Lemma freetime_example_frames_ok :
  FreetimeScenario.frames_ok 0 FreetimeScenario.example_first
    FreetimeScenario.example_empty FreetimeScenario.example_material.
Proof.
  split; [reflexivity | split; [reflexivity|]].
  split; [repeat constructor; vm_compute; congruence|].
  split; [|repeat split].
  do 3 apply Exists_cons_tl. apply Exists_cons_hd. vm_compute. congruence.
Qed.

(** C4, as stated, fails: with a frame every half second, all zones empty
    from 09:00:00 to 09:00:03 and material at 09:00:03.5, the one freetime row
    has 1 as its duration in seconds, which is not about 3: the session that
    is recorded starts when freetime is declared, 2 s after 09:00:00. *)
Lemma freetime_scenario_duration_is_not_3 :
  FreetimeScenario.frames_ok 0 FreetimeScenario.example_first
    FreetimeScenario.example_empty FreetimeScenario.example_material
  /\ map time_int
       (snd (FreetimeTracker.run
               (FreetimeScenario.example_first
                  :: FreetimeScenario.example_empty ++ [FreetimeScenario.example_material])
               FreetimeScenario.example_tracker)) = [1]
  /\ ~ FreetimeScenario.outcome_as_stated
         (snd (FreetimeTracker.run
                 (FreetimeScenario.example_first
                    :: FreetimeScenario.example_empty ++ [FreetimeScenario.example_material])
                 FreetimeScenario.example_tracker)).
Proof.
  split; [apply freetime_example_frames_ok | split; [reflexivity|]].
  intros [r [E [[H _] _]]]. vm_compute in E. inversion E; subst r.
  vm_compute in H. apply H. reflexivity.
Qed.

(** C4, amended.  A freetime tracker that is idle, has not yet seen all zones
    empty and has the default threshold of 2.0 s, fed frames in which all
    zones are empty from 09:00:00 until material appears at 09:00:03.5, one of
    them at 09:00:02 or later: exactly one row is inserted, by the frame at
    09:00:03.5, with remark "freetime"; its time_in is the time of the first
    frame that comes 2.0 s or more after 09:00:00, the frame that declares
    freetime, and its duration in seconds is the whole seconds from then to
    09:00:03.5, which is 0 or 1. *)
Theorem freetime_scenario_one_record :
  forall day ft first empty material,
    FreetimeTracker.is_freetime_active ft = false ->
    FreetimeTracker.all_empty_start ft = None ->
    FreetimeTracker.freetime_threshold ft = 2000000 ->
    FreetimeScenario.frames_ok day first empty material ->
    exists t_act r,
      Presence.first_loss 2000000 (FreetimeScenario.t_first day)
        (map FreetimeTracker.f_time empty) = Some t_act
      /\ snd (FreetimeTracker.run (first :: empty ++ [material]) ft) = [r]
      /\ remark r = "freetime"%string
      /\ no_area r = 0
      /\ time_in r = strftime_seconds t_act
      /\ time_int r = int_of_seconds (FreetimeScenario.t_material day - t_act)
      /\ 0 <= time_int r <= 1.
Proof.
  intros day ft first empty material A S T [Hf [He [Hemp [Hex [Hm [Hme Hc]]]]]].
  assert (Hall : Forall (fun f => FreetimeTracker.f_all_empty f = true) empty).
  { eapply Forall_impl; [|exact Hemp]. simpl; tauto. }
  destruct (first_loss_some 2000000 (FreetimeScenario.t_first day) empty Hex) as [t_act F].
  exists t_act.
  (* the first frame *)
  cbn [FreetimeTracker.run].
  assert (U : FreetimeTracker.update_freetime_status (FreetimeTracker.f_env first)
                (FreetimeTracker.f_all_empty first) (FreetimeTracker.f_time first) ft
              = (FreetimeTracker.mk (FreetimeTracker.area_name_db ft) false
                   (FreetimeTracker.freetime_start_time ft) 2000000
                   (Some (FreetimeScenario.t_first day)) (FreetimeTracker.daily_timer ft),
                 [])).
  { unfold FreetimeTracker.update_freetime_status. now rewrite He, S, A, T, Hf. }
  rewrite U. set (ft1 := FreetimeTracker.mk _ _ _ _ _ _).
  (* the frames with all zones empty *)
  pose proof (run_until_freetime empty ft1 (FreetimeScenario.t_first day)
                eq_refl eq_refl Hall) as Hrun.
  cbn [FreetimeTracker.freetime_threshold ft1] in Hrun. rewrite F in Hrun.
  destruct Hrun as [e Hrun].
  rewrite freetime_run_app, Hrun. cbn [fst snd app FreetimeTracker.run].
  (* the frame with material *)
  unfold FreetimeTracker.update_freetime_status. rewrite Hme.
  cbn [activated FreetimeTracker.is_freetime_active].
  rewrite (end_freetime_active _ _ _ _ t_act) by reflexivity.
  rewrite save_row_connected by exact Hc. cbn [fst snd app].
  eexists. split; [exact F|]. split; [reflexivity|].
  cbn [remark no_area time_in time_int]. rewrite Hm.
  repeat split.
  - pose proof (first_loss_in _ _ _ _ F) as Hlo.
    pose proof (first_loss_member _ _ _ _ F) as Hin.
    apply in_map_iff in Hin. destruct Hin as [f [Ef Hin]].
    rewrite Forall_forall in Hemp. destruct (Hemp f Hin) as [_ Hhi]. rewrite Ef in Hhi.
    unfold int_of_seconds, usec_per_second. clear - Hhi. apply Z.quot_pos; lia.
  - pose proof (first_loss_in _ _ _ _ F) as Hlo.
    pose proof (first_loss_member _ _ _ _ F) as Hin.
    apply in_map_iff in Hin. destruct Hin as [f [Ef Hin]].
    rewrite Forall_forall in Hemp. destruct (Hemp f Hin) as [_ Hhi]. rewrite Ef in Hhi.
    unfold int_of_seconds, FreetimeScenario.t_material, FreetimeScenario.t_first in *.
    clear - Hlo Hhi. unfold_time.
    apply Z.lt_succ_r. apply Z.quot_lt_upper_bound; lia.
Qed.

(** The frames of the example above: freetime is declared at 09:00:02. *)
Lemma freetime_scenario_one_record_witness :
  exists r,
    snd (FreetimeTracker.run
           (FreetimeScenario.example_first
              :: FreetimeScenario.example_empty ++ [FreetimeScenario.example_material])
           FreetimeScenario.example_tracker) = [r]
    /\ remark r = "freetime"%string
    /\ time_in r = mk_datetime 0 9 0 2 0
    /\ time_int r = 1.
Proof.
  destruct (freetime_scenario_one_record 0 FreetimeScenario.example_tracker
              FreetimeScenario.example_first FreetimeScenario.example_empty
              FreetimeScenario.example_material eq_refl eq_refl eq_refl
              freetime_example_frames_ok)
    as [t_act [r [F [H1 [H2 [_ [H4 [H5 _]]]]]]]].
  vm_compute in F. inversion F; subst t_act.
  exists r. repeat split; assumption.
Defined.

(** * More properties of the code *)

(** ** DailyTimer *)

(** X1. A session started on an idle timer and then ended: [end_session]
    returns the span between the two times; the accumulated total is the old
    one plus that span, or that span alone when the wall clock at the start
    shows a date later than the last reset; the reset date is the later of the
    two; the timer is idle again.  While a session is open, [start_session]
    changes nothing: no rollover takes place in the middle of a session. *)
Theorem start_then_end_session :
  forall e t1 t2 tm,
    DailyTimer.is_active tm = false ->
    let tm' := fst (DailyTimer.end_session t2 (DailyTimer.start_session e t1 tm)) in
    snd (DailyTimer.end_session t2 (DailyTimer.start_session e t1 tm)) = t2 - t1
    /\ DailyTimer.daily_total_seconds tm'
       = (if DailyTimer.last_reset_date tm <? date_of (now e)
          then 0 else DailyTimer.daily_total_seconds tm) + (t2 - t1)
    /\ DailyTimer.last_reset_date tm'
       = Z.max (DailyTimer.last_reset_date tm) (date_of (now e))
    /\ DailyTimer.is_active tm' = false
    /\ DailyTimer.current_session_start tm' = None
    /\ (forall e' t', DailyTimer.start_session e' t' (DailyTimer.start_session e t1 tm)
                      = DailyTimer.start_session e t1 tm).
Proof.
  intros e t1 t2 tm A. cbv zeta.
  assert (S : DailyTimer.start_session e t1 tm
              = DailyTimer.mk (DailyTimer.area_name tm)
                  (if DailyTimer.last_reset_date tm <? date_of (now e)
                   then 0 else DailyTimer.daily_total_seconds tm)
                  (Z.max (DailyTimer.last_reset_date tm) (date_of (now e)))
                  (Some t1) true).
  { unfold DailyTimer.start_session, DailyTimer.check_daily_reset. rewrite A. simpl.
    destruct (DailyTimer.last_reset_date tm <? date_of (now e)) eqn:E; f_equal; lia. }
  rewrite S. rewrite (end_session_active t2 _ t1) by reflexivity. simpl.
  repeat split.
Qed.

Lemma start_then_end_session_witness :
  DailyTimer.daily_total_seconds
    (fst (DailyTimer.end_session (mk_datetime 1 0 0 10 0)
            (DailyTimer.start_session (mkEnv (mk_datetime 1 0 0 5 0) true)
               (mk_datetime 1 0 0 5 0)
               (DailyTimer.mk "Area 1" 7000000 0 None false)))) = 5000000.
Proof.
  destruct (start_then_end_session (mkEnv (mk_datetime 1 0 0 5 0) true)
              (mk_datetime 1 0 0 5 0) (mk_datetime 1 0 0 10 0)
              (DailyTimer.mk "Area 1" 7000000 0 None false) eq_refl) as [_ [H _]].
  exact H.
Defined.

(** X2. Ending a session leaves the daily total, read at the end time, as it
    was: the live part becomes accumulated.  After that the daily total no
    longer moves with the clock. *)
Theorem end_session_keeps_daily_total :
  forall e tm,
    DailyTimer.get_daily_total e (fst (DailyTimer.end_session (now e) tm))
    = DailyTimer.get_daily_total e tm
    /\ (DailyTimer.is_active tm = true -> DailyTimer.current_session_start tm <> None ->
        forall e',
          DailyTimer.get_daily_total e' (fst (DailyTimer.end_session (now e) tm))
          = DailyTimer.get_daily_total e tm).
Proof.
  intros e tm. unfold DailyTimer.get_daily_total, DailyTimer.get_current_session_duration,
    DailyTimer.end_session, total_seconds.
  destruct (DailyTimer.is_active tm) eqn:A;
    destruct (DailyTimer.current_session_start tm) eqn:S; simpl; rewrite ?A, ?S;
    split; try reflexivity; intros; congruence.
Qed.

Lemma end_session_keeps_daily_total_witness :
  DailyTimer.get_daily_total (mkEnv 99000000 true)
    (fst (DailyTimer.end_session 9000000 (DailyTimer.mk "Glove" 2000000 0 (Some 4000000) true)))
  = 7000000.
Proof.
  destruct (end_session_keeps_daily_total (mkEnv 9000000 true)
              (DailyTimer.mk "Glove" 2000000 0 (Some 4000000) true)) as [_ H].
  exact (H eq_refl ltac:(discriminate) (mkEnv 99000000 true)).
Defined.

(** ** Durations as text *)

Lemma pad2_length n : 0 <= n < 100 -> String.length (pad2 n) = 2%nat.
Proof.
  intros H.
  assert (A : forallb (fun k => Nat.eqb (String.length (pad2 (Z.of_nat k))) 2) (seq 0 100)
              = true) by (vm_compute; reflexivity).
  rewrite forallb_forall in A.
  specialize (A (Z.to_nat n)). rewrite Z2Nat.id in A by lia.
  apply Nat.eqb_eq, A, in_seq. lia.
Qed.

Lemma string_length_append a b :
  String.length (String.append a b) = (String.length a + String.length b)%nat.
Proof. induction a as [|c a IH]; simpl; [reflexivity | now rewrite IH]. Qed.

Lemma string_get_append_at a b :
  String.get (String.length a) (String.append a b) = String.get 0 b.
Proof. induction a as [|c a IH]; simpl; [reflexivity | exact IH]. Qed.

(** X3. The fields of a formatted duration: minutes and seconds are below 60
    and, with the hours, add up to the duration cut to whole seconds, for
    every duration.  For a duration from 0 to under 100 hours the text is
    eight characters long, HH:MM:SS, with the colons in the third and sixth
    place. *)
Theorem format_duration_fields :
  forall seconds,
    (let '(h, m, s) := hms_of_duration seconds in
     0 <= m < 60 /\ 0 <= s < 60
     /\ h * 3600 + m * 60 + s = seconds / usec_per_second)
    /\ (0 <= seconds < 100 * usec_per_hour ->
        String.length (DailyTimer.format_duration seconds) = 8%nat
        /\ String.get 2 (DailyTimer.format_duration seconds) = Some (Ascii.ascii_of_nat 58)
        /\ String.get 5 (DailyTimer.format_duration seconds) = Some (Ascii.ascii_of_nat 58)).
Proof.
  intros x. split.
  - unfold hms_of_duration. time_arith.
  - intros Hx. unfold DailyTimer.format_duration, hms_of_duration, format_hms.
    assert (Hh : 0 <= x / usec_per_hour < 100) by time_arith.
    assert (Hm : 0 <= x mod usec_per_hour / usec_per_minute < 100) by time_arith.
    assert (Hs : 0 <= x mod usec_per_minute / usec_per_second < 100) by time_arith.
    pose proof (pad2_length _ Hh) as Lh. pose proof (pad2_length _ Hm) as Lm.
    pose proof (pad2_length _ Hs) as Ls.
    set (ph := pad2 (x / usec_per_hour)) in *.
    set (pm := pad2 (x mod usec_per_hour / usec_per_minute)) in *.
    set (ps := pad2 (x mod usec_per_minute / usec_per_second)) in *.
    split; [|split].
    + rewrite !string_length_append, Lh, Lm, Ls. reflexivity.
    + rewrite <- Lh at 1. rewrite string_get_append_at. reflexivity.
    + destruct ph as [|a [|b [|c ph]]]; try discriminate Lh.
      cbn [String.append String.get].
      rewrite <- Lm at 1. rewrite string_get_append_at. reflexivity.
Qed.

(** 3725.9 s is 01:02:05. *)
Lemma format_duration_fields_witness :
  String.length (DailyTimer.format_duration 3725900000) = 8%nat
  /\ DailyTimer.format_duration 3725900000 = "01:02:05"%string.
Proof.
  destruct (format_duration_fields 3725900000) as [_ H].
  destruct H as [H _]; [vm_compute; intuition discriminate|].
  split; [exact H | reflexivity].
Defined.

(** ** The business day *)

(** X4. The log date is the calendar date of the moment 7 hours and 10
    minutes earlier: the business day runs from 07:10:00 to 07:09:59 of the
    next calendar day.  A shift never starts on one log date and goes on
    under another: Shift_1 and Shift_2 before midnight have the calendar date,
    Shift_2 after midnight and Shift_3 the one before. *)
Theorem log_date_is_date_seven_ten_earlier :
  forall e dt,
    get_log_date_for_shift e (Some dt) = date_of (dt - (7 * usec_per_hour + 10 * usec_per_minute))
    /\ (get_current_shift e (Some dt) = Shift_1 ->
        get_log_date_for_shift e (Some dt) = date_of dt)
    /\ (get_current_shift e (Some dt) = Shift_3 ->
        get_log_date_for_shift e (Some dt) = date_of dt - 1)
    /\ (get_current_shift e (Some dt) = Shift_2 ->
        get_log_date_for_shift e (Some dt)
        = if hour dt =? 0 then date_of dt - 1 else date_of dt).
Proof.
  intros e dt.
  assert (Hcase :
    (hour dt < 7 \/ hour dt = 7 /\ minute dt < 10)
      /\ date_of (dt - (7 * usec_per_hour + 10 * usec_per_minute)) = date_of dt - 1
    \/ (7 < hour dt \/ hour dt = 7 /\ 10 <= minute dt)
      /\ date_of (dt - (7 * usec_per_hour + 10 * usec_per_minute)) = date_of dt).
  { time_arith. }
  set (shifted := date_of (dt - (7 * usec_per_hour + 10 * usec_per_minute))) in *.
  pose proof (hour_range dt) as Hh. pose proof (minute_range dt) as Hm.
  unfold get_log_date_for_shift. cbv beta iota zeta. unfold previous_day.
  destruct (get_current_shift_cases e dt) as [[E H] | [[E H] | [E H]]]; rewrite E; simpl.
  - repeat split; try discriminate; auto. destruct Hcase as [[C _] | [_ C]]; [lia | now rewrite C].
  - destruct (hour dt =? 0) eqn:E0; destruct (minute dt <=? 15) eqn:E15; simpl;
      (repeat split; try discriminate; try reflexivity);
      destruct Hcase as [[C D] | [C D]]; rewrite ?D; lia.
  - repeat split; try discriminate; auto. destruct Hcase as [[_ C] | [C _]]; [now rewrite C | lia].
Qed.

(** ** The zones of the program *)

Section ZoneGeometry.
Import EnhancedMaterialDippingDetection.

Lemma is_inside_area_x tr b :
  IndependentAreaTracker.is_inside_area tr b = true ->
  (inject_Z (fst (fst (fst (IndependentAreaTracker.area_bbox tr)))) <= center_x b
   /\ center_x b <= inject_Z (snd (fst (IndependentAreaTracker.area_bbox tr))))%Q.
Proof.
  unfold IndependentAreaTracker.is_inside_area.
  destruct (IndependentAreaTracker.area_bbox tr) as [[[a0 a1] a2] a3]. simpl.
  rewrite !andb_true_iff, !Qle_bool_iff. tauto.
Qed.

Lemma first_area_inside_sound trackers b n :
  first_area_inside trackers b = Some n ->
  exists tr, In (n, tr) trackers /\ IndependentAreaTracker.is_inside_area tr b = true.
Proof.
  induction trackers as [|[k tr] rest IH]; simpl; [discriminate|].
  destruct (IndependentAreaTracker.is_inside_area tr b) eqn:I.
  - intros H; inversion H; subst. exists tr. auto.
  - intros H. destruct (IH H) as [tr' [Hin Hi]]. exists tr'. auto.
Qed.

Lemma first_area_inside_some trackers b n tr :
  In (n, tr) trackers -> IndependentAreaTracker.is_inside_area tr b = true ->
  exists n', first_area_inside trackers b = Some n'.
Proof.
  induction trackers as [|[k tr'] rest IH]; simpl; [tauto|].
  intros [H | H] Hi.
  - inversion H; subst. rewrite Hi. eexists; reflexivity.
  - destruct (IndependentAreaTracker.is_inside_area tr' b); [eexists; reflexivity | eauto].
Qed.

Lemma program_zones_apart e db b n1 tr1 n2 tr2 :
  In (n1, tr1) (area_trackers (init e db)) ->
  In (n2, tr2) (area_trackers (init e db)) ->
  IndependentAreaTracker.is_inside_area tr1 b = true ->
  IndependentAreaTracker.is_inside_area tr2 b = true ->
  n1 = n2.
Proof.
  intros H1 H2 I1 I2.
  apply is_inside_area_x in I1. apply is_inside_area_x in I2.
  simpl in H1, H2.
  destruct H1 as [H1 | [H1 | [H1 | [H1 | []]]]]; inversion H1; subst; clear H1;
    destruct H2 as [H2 | [H2 | [H2 | [H2 | []]]]]; inversion H2; subst; clear H2;
    try reflexivity; exfalso; simpl in I1, I2; destruct I1 as [L1 U1], I2 as [L2 U2];
    first [ pose proof (Qle_trans _ _ _ L1 U2) as C; unfold Qle in C; simpl in C; lia
          | pose proof (Qle_trans _ _ _ L2 U1) as C; unfold Qle in C; simpl in C; lia ].
Qed.

End ZoneGeometry.

(** X5. The four zones of the program lie apart: the centre of a box is in at
    most one of them.  So the zone that [update_all_trackers] marks for a
    box, the first in the order of the trackers that holds its centre, is the
    only one that holds it: the [break] of the inner loop hides no zone. *)
Theorem box_marks_its_only_zone :
  forall e db b n,
    EnhancedMaterialDippingDetection.first_area_inside
      (EnhancedMaterialDippingDetection.area_trackers
         (EnhancedMaterialDippingDetection.init e db)) b = Some n
    <-> exists tr,
          In (n, tr) (EnhancedMaterialDippingDetection.area_trackers
                        (EnhancedMaterialDippingDetection.init e db))
          /\ IndependentAreaTracker.is_inside_area tr b = true.
Proof.
  intros e db b n. split; [apply first_area_inside_sound|].
  intros [tr [Hin Hi]].
  destruct (first_area_inside_some _ b n tr Hin Hi) as [n' F].
  destruct (first_area_inside_sound _ b n' F) as [tr' [Hin' Hi']].
  rewrite F. f_equal. exact (program_zones_apart e db b n' tr' n tr Hin' Hin Hi' Hi).
Qed.

(** ** Zone trackers in time *)

Lemma last_cons_default {A} (l : list A) : forall x d, last (x :: l) d = last l x.
Proof.
  induction l as [|y l IH]; intros x d; [reflexivity|].
  change (last (y :: l) d = last (y :: l) x). now rewrite !IH.
Qed.

Section ZoneInTime.
Import IndependentAreaTracker.

Lemma update_detection_keeps_names e t d tr :
  area_name_db (fst (update_detection e t d tr)) = area_name_db tr
  /\ area_number (fst (update_detection e t d tr)) = area_number tr
  /\ material_lost_threshold (fst (update_detection e t d tr)) = material_lost_threshold tr.
Proof.
  unfold update_detection, handle_material_exit.
  destruct d; [destruct (is_material_present tr); simpl; auto|].
  destruct (is_material_present tr); [|auto].
  destruct (last_detection_time tr); [|auto].
  destruct (_ <=? _); [|auto].
  destruct (material_start_time tr); [|auto].
  destruct (DailyTimer.end_session t (daily_timer tr)); simpl; auto.
Qed.

Lemma zone_row_of_names tr tr' start g r :
  area_name_db tr' = area_name_db tr -> area_number tr' = area_number tr ->
  zone_row_of tr' start g r -> zone_row_of tr start g r.
Proof. unfold zone_row_of. now intros -> ->. Qed.

(** One frame, not earlier than the latest one. *)
Lemma update_detection_in_time e t d tr seen :
  area_in_time seen tr -> seen <= t ->
  area_in_time t (fst (update_detection e t d tr)).
Proof.
  intros [Hp Hn] Hle. unfold update_detection.
  destruct d.
  - destruct (is_material_present tr) eqn:P; simpl.
    + destruct (Hp eq_refl) as [start [last [S [L [H1 [H2 [A C]]]]]]].
      split; [|simpl; congruence]. simpl. intros _.
      exists start, t. repeat split; auto; lia.
    + specialize (Hn eq_refl).
      split; [|simpl; discriminate]. simpl. intros _.
      exists t, t. repeat split; try lia.
      * apply start_session_active.
      * now apply start_session_start.
  - destruct (is_material_present tr) eqn:P.
    + destruct (Hp eq_refl) as [start [last [S [L [H1 [H2 [A C]]]]]]].
      rewrite L. unfold total_seconds.
      destruct (material_lost_threshold tr <=? t - last) eqn:E.
      * unfold handle_material_exit. rewrite P, S.
        rewrite (end_session_active t _ start A C). cbn [fst snd].
        split; simpl; [discriminate | reflexivity].
      * simpl. split; [|congruence].
        intros _. exists start, last. repeat split; auto. lia.
    + simpl. split; [congruence | intros _; now apply Hn].
Qed.

(** What one frame does to a tracker whose times are in order: it closes the
    session, opens one, continues one with or without material, or finds the
    zone empty and leaves it so. *)
Lemma update_detection_cases e t d tr seen :
  area_in_time seen tr ->
  (d = false /\ is_material_present tr = true
   /\ is_material_present (fst (update_detection e t d tr)) = false
   /\ exists start last,
        material_start_time tr = Some start /\ last_detection_time tr = Some last
        /\ start <= last /\ material_lost_threshold tr <= t - last
        /\ snd (update_detection e t d tr)
           = save_row e (area_name_db tr) (area_number tr)
               (format_hms (hms_of_duration (t - start))) start t "in_use")
  \/ (d = true /\ is_material_present tr = false
      /\ snd (update_detection e t d tr) = []
      /\ material_start_time (fst (update_detection e t d tr)) = Some t
      /\ last_detection_time (fst (update_detection e t d tr)) = Some t)
  \/ (d = true /\ is_material_present tr = true
      /\ snd (update_detection e t d tr) = []
      /\ material_start_time (fst (update_detection e t d tr)) = material_start_time tr
      /\ last_detection_time (fst (update_detection e t d tr)) = Some t
      /\ exists last, last_detection_time tr = Some last)
  \/ (d = false /\ is_material_present tr = true
      /\ update_detection e t d tr = (tr, [])
      /\ exists last, last_detection_time tr = Some last
                      /\ t - last < material_lost_threshold tr)
  \/ (d = false /\ is_material_present tr = false
      /\ update_detection e t d tr = (tr, [])).
Proof.
  intros [Hp Hn]. unfold update_detection.
  destruct d.
  - destruct (is_material_present tr) eqn:P; cbn [negb fst snd].
    + right; right; left.
      destruct (Hp eq_refl) as [start [last [S [L _]]]].
      repeat split; auto. now exists last.
    + right; left. repeat split; auto.
  - destruct (is_material_present tr) eqn:P.
    + destruct (Hp eq_refl) as [start [last [S [L [H1 [H2 [A C]]]]]]].
      rewrite L. unfold total_seconds.
      destruct (material_lost_threshold tr <=? t - last) eqn:E.
      * apply Z.leb_le in E. left.
        unfold handle_material_exit, save_area_data. rewrite P, S.
        rewrite (end_session_active t _ start A C). cbn [fst snd is_material_present].
        repeat split; auto. exists start, last. repeat split; auto.
      * apply Z.leb_gt in E. right; right; right; left.
        repeat split; auto. now exists last.
    + right; right; right; right. repeat split; auto.
Qed.

(** A row of the frames after the first is a row of all the frames. *)
Lemma zone_row_ok_later f fs tr s1 r :
  fst (update_detection (f_env f) (f_time f) (f_detected f) tr) = s1 ->
  area_name_db s1 = area_name_db tr -> area_number s1 = area_number tr ->
  material_lost_threshold s1 = material_lost_threshold tr ->
  forall seen, area_in_time seen tr ->
  zone_row_ok s1 fs r -> zone_row_ok tr (f :: fs) r.
Proof.
  intros U N1 N2 N3 seen Hok
    [pre [mid [g [post [start [last [Hfs [Ho [Hw [Hg [Hs [Hl Hr]]]]]]]]]]]].
  rewrite N3 in Hw, Hl. apply (zone_row_of_names tr s1) in Hr; auto.
  destruct Ho as [[Hpre [P [S L]]] | [pre' [f0 [Hpre [D [E [T Hlast]]]]]]].
  - subst pre. cbn [app] in Hfs.
    destruct (update_detection_cases (f_env f) (f_time f) (f_detected f) tr seen Hok)
      as [[_ [_ [Q _]]] | [[D [P0 [_ [S1 L1]]]] | [[D [P0 [_ [S1 [L1 [last0 L0]]]]]]
          | [[D [P0 [Eq [last0 [L0 G]]]]] | [_ [P0 Eq]]]]]].
    + rewrite U in Q. congruence.
    + rewrite U in S1, L1.
      assert (start = f_time f) by congruence. assert (last = f_time f) by congruence.
      subst start last.
      exists [f], mid, g, post, (f_time f), (f_time f).
      split; [now rewrite Hfs|]. split; [|auto 10].
      right. exists [], f. cbn [run fst]. auto.
    + rewrite U in S1, L1.
      assert (last = f_time f) by congruence. subst last.
      exists [], (f :: mid), g, post, start, last0.
      split; [now rewrite Hfs|].
      split; [left; repeat split; auto; congruence|].
      unfold area_signals in *. cbn [map Presence.within_grace Presence.last_seen].
      rewrite D. auto 10.
    + rewrite Eq in U. cbn [fst] in U. subst s1.
      assert (last = last0) by congruence. subst last0.
      exists [], (f :: mid), g, post, start, last.
      split; [now rewrite Hfs|].
      split; [left; repeat split; auto|].
      unfold area_signals in *. cbn [map Presence.within_grace Presence.last_seen].
      rewrite D. auto 10.
    + rewrite Eq in U. cbn [fst] in U. subst s1. congruence.
  - exists (f :: pre), mid, g, post, start, last.
    split; [now rewrite Hfs|]. split; [|auto 10].
    right. exists (f :: pre'), f0. split; [now rewrite Hpre|].
    split; [exact D|]. split; [|auto].
    cbn [run].
    destruct (update_detection (f_env f) (f_time f) (f_detected f) tr) as [s1' r1].
    cbn [fst] in U. subst s1'.
    destruct (run pre' s1) as [s2 r2]. exact E.
Qed.

(** A row of the first frame is a row of all the frames. *)
Lemma zone_row_ok_first f fs tr seen r :
  area_in_time seen tr ->
  In r (snd (update_detection (f_env f) (f_time f) (f_detected f) tr)) ->
  zone_row_ok tr (f :: fs) r.
Proof.
  intros Hok Hin.
  destruct (update_detection_cases (f_env f) (f_time f) (f_detected f) tr seen Hok)
    as [[D [P [_ [start [last [S [L [H1 [H2 Rows]]]]]]]]]
        | [[_ [_ [R _]]] | [[_ [_ [R _]]] | [[_ [_ [R _]]] | [_ [_ R]]]]]];
    try (rewrite R in Hin; destruct Hin).
  rewrite Rows in Hin. unfold save_row in Hin.
  destruct (db_connected (f_env f)) eqn:Db; [|destruct Hin].
  destruct Hin as [<- | []].
  exists [], [], f, fs, start, last.
  split; [reflexivity|]. split; [left; auto|].
  cbn [area_signals map Presence.within_grace Presence.last_seen].
  repeat split; auto.
Qed.

Lemma run_in_time fs : forall tr seen,
  area_in_time seen tr -> Presence.chronological seen (area_signals fs) ->
  area_in_time (last (map f_time fs) seen) (fst (run fs tr))
  /\ Forall (zone_row_ok tr fs) (snd (run fs tr)).
Proof.
  induction fs as [|f fs IH]; intros tr seen Hok Hc; [simpl; auto|].
  simpl in Hc. destruct Hc as [Hle Hc].
  pose proof (update_detection_in_time (f_env f) (f_time f) (f_detected f) tr seen Hok Hle)
    as Hok1.
  destruct (update_detection_keeps_names (f_env f) (f_time f) (f_detected f) tr)
    as [N1 [N2 N3]].
  pose proof (zone_row_ok_first f fs tr seen) as First.
  pose proof (zone_row_ok_later f fs tr) as Later.
  cbn [run].
  destruct (update_detection (f_env f) (f_time f) (f_detected f) tr) as [s1 r1].
  cbn [fst snd] in *.
  destruct (IH s1 (f_time f) Hok1 Hc) as [Hok2 Hr2].
  destruct (run fs s1) as [s2 r2]. cbn [fst snd] in *.
  split.
  - replace (last (map f_time (f :: fs)) seen) with (last (map f_time fs) (f_time f));
      [exact Hok2|].
    cbn [map]. now rewrite last_cons_default.
  - apply Forall_app. split.
    + apply Forall_forall. intros r Hin. now apply First.
    + eapply Forall_impl; [|exact Hr2]. intros r Hr.
      now apply (Later s1 r eq_refl N1 N2 N3 seen Hok).
Qed.

End ZoneInTime.

(** X6. A zone tracker fed frames in the order of their times, from a state
    in which its timer runs exactly while it holds material.  Every row it
    inserts is the row of one session between two frames it was fed: the
    session was open at the beginning, or a frame with material opened it
    when the zone held none, and the time of that first detection is the
    row's time_in; a later frame without material, coming
    [material_lost_threshold] or more after the latest detection before it,
    closed it, and the time of that frame is the row's created_at; in between
    no frame came that late.  The row is an "in_use" row under the tracker's
    own names; its duration in seconds and its formatted duration are both
    taken from that span, which is never shorter than the threshold.  The
    state after the frames is again such a state. *)
Theorem zone_rows_respect_debounce :
  forall fs tr seen,
    area_in_time seen tr ->
    Presence.chronological seen (area_signals fs) ->
    0 <= IndependentAreaTracker.material_lost_threshold tr ->
    area_in_time (last (map IndependentAreaTracker.f_time fs) seen)
      (fst (IndependentAreaTracker.run fs tr))
    /\ Forall (fun r =>
         zone_row_ok tr fs r
         /\ int_of_seconds (IndependentAreaTracker.material_lost_threshold tr) <= time_int r)
         (snd (IndependentAreaTracker.run fs tr)).
Proof.
  intros fs tr seen Hok Hc Hthr.
  destruct (run_in_time fs tr seen Hok Hc) as [H1 H2].
  split; [exact H1|].
  eapply Forall_impl; [|exact H2]. intros r Hr. split; [exact Hr|].
  destruct Hr as [pre [mid [g [post [start [last [_ [_ [_ [_ [Hs [Hl Hrow]]]]]]]]]]]].
  destruct Hrow as [_ [_ [_ [_ [_ [_ [Hint _]]]]]]].
  rewrite Hint. unfold int_of_seconds, usec_per_second.
  apply Z.quot_le_mono; lia.
Qed.

(** The frames of the zone scenario, from a fresh tracker. *)
Lemma zone_rows_respect_debounce_witness :
  Forall (fun r =>
            zone_row_ok ZoneScenario.example_tracker
              (ZoneScenario.example_seen ++ ZoneScenario.example_after) r
            /\ 1 <= time_int r)
    (snd (IndependentAreaTracker.run
            (ZoneScenario.example_seen ++ ZoneScenario.example_after)
            ZoneScenario.example_tracker)).
Proof.
  destruct (zone_rows_respect_debounce
              (ZoneScenario.example_seen ++ ZoneScenario.example_after)
              ZoneScenario.example_tracker (mk_datetime 0 8 0 0 0)) as [_ H].
  - split; [discriminate | reflexivity].
  - vm_compute. intuition discriminate.
  - vm_compute. discriminate.
  - exact H.
Defined.

Section ZoneEpisode.
Import IndependentAreaTracker.

Lemma all_detected_last_time fs : forall last0,
  Forall (fun f => f_detected f = true) fs ->
  Presence.last_seen last0 (area_signals fs) = last (map f_time fs) last0.
Proof.
  induction fs as [|f fs IH]; intros last0 H; [reflexivity|].
  inversion H as [|? ? Hf Hfs]; subst. simpl Presence.last_seen. rewrite Hf.
  rewrite IH by exact Hfs. cbn [map]. now rewrite last_cons_default.
Qed.

(** Frames with material, fed to a tracker without: the first one opens the
    session, the others move the time of last detection. *)
Lemma run_detected f rest tr :
  is_material_present tr = false ->
  Forall (fun f => f_detected f = true) (f :: rest) ->
  run (f :: rest) tr
  = (seen_at (last (map f_time rest) (f_time f))
       (fst (update_detection (f_env f) (f_time f) true tr)), []).
Proof.
  intros P H. inversion H as [|? ? Hf Hrest]; subst.
  cbn [run]. rewrite Hf.
  assert (U : update_detection (f_env f) (f_time f) true tr
              = (fst (update_detection (f_env f) (f_time f) true tr), [])).
  { unfold update_detection. now rewrite P. }
  rewrite U at 1.
  rewrite run_within_grace with (last := f_time f);
    [ now rewrite all_detected_last_time
    | unfold update_detection; now rewrite P
    | unfold update_detection; now rewrite P
    | now apply all_detected_within_grace ].
Qed.

End ZoneEpisode.

(** X7. One episode of a zone: a tracker without material is fed frames with
    material, the first at [t0] and the last at [t1], and then frames
    without.  As long as no frame comes [material_lost_threshold] or more
    after [t1], the zone holds material and nothing is inserted.  The first
    frame that does closes the session: the zone is empty whether or not the
    database can be reached; if it can, exactly one row is inserted and it
    runs from [t0] to the time of that frame; if it cannot, none is, and none
    will be later. *)
Theorem zone_episode_one_row :
  forall tr f rest after,
    IndependentAreaTracker.is_material_present tr = false ->
    Forall (fun f => IndependentAreaTracker.f_detected f = true) (f :: rest) ->
    Forall (fun f => IndependentAreaTracker.f_detected f = false) after ->
    let t0 := IndependentAreaTracker.f_time f in
    let t1 := last (map IndependentAreaTracker.f_time rest) t0 in
    let result := IndependentAreaTracker.run ((f :: rest) ++ after) tr in
    match Presence.first_loss (IndependentAreaTracker.material_lost_threshold tr) t1
            (map IndependentAreaTracker.f_time after) with
    | None =>
        IndependentAreaTracker.is_material_present (fst result) = true /\ snd result = []
    | Some t_exit =>
        IndependentAreaTracker.is_material_present (fst result) = false
        /\ IndependentAreaTracker.material_lost_threshold tr <= t_exit - t1
        /\ exists g,
             In g after /\ IndependentAreaTracker.f_time g = t_exit
             /\ (db_connected (IndependentAreaTracker.f_env g) = false -> snd result = [])
             /\ (db_connected (IndependentAreaTracker.f_env g) = true ->
                 exists r,
                   snd result = [r]
                   /\ remark r = "in_use"%string
                   /\ no_area r = IndependentAreaTracker.area_number tr
                   /\ time_in r = strftime_seconds t0
                   /\ created_at r = strftime_seconds t_exit
                   /\ time_int r = int_of_seconds (t_exit - t0)
                   /\ shift r = get_current_shift (IndependentAreaTracker.f_env g) (Some t0)
                   /\ log_date r
                      = get_log_date_for_shift (IndependentAreaTracker.f_env g) (Some t0))
    end.
Proof.
  intros tr f rest after P Hseen Hafter t0 t1 result.
  pose proof (run_detected f rest tr P Hseen) as R.
  set (entered := fst (IndependentAreaTracker.update_detection
                         (IndependentAreaTracker.f_env f) t0 true tr)) in *.
  assert (He : IndependentAreaTracker.is_material_present entered = true
               /\ IndependentAreaTracker.material_start_time entered = Some t0
               /\ IndependentAreaTracker.material_lost_threshold entered
                  = IndependentAreaTracker.material_lost_threshold tr
               /\ IndependentAreaTracker.area_name_db entered
                  = IndependentAreaTracker.area_name_db tr
               /\ IndependentAreaTracker.area_number entered
                  = IndependentAreaTracker.area_number tr).
  { subst entered. unfold IndependentAreaTracker.update_detection. rewrite P. simpl. auto. }
  destruct He as [P1 [S1 [T1 [N1 K1]]]].
  pose proof (run_until_loss after (seen_at t1 entered) t1 t0 P1 eq_refl S1 Hafter) as Hrun.
  cbn [seen_at IndependentAreaTracker.material_lost_threshold] in Hrun.
  rewrite T1 in Hrun.
  assert (Eres : result
                 = (fst (IndependentAreaTracker.run after (seen_at t1 entered)),
                    snd (IndependentAreaTracker.run after (seen_at t1 entered)))).
  { subst result. rewrite run_app. fold t0 in R. fold t1 in R. now rewrite R. }
  rewrite Eres. cbn [fst snd].
  destruct (Presence.first_loss (IndependentAreaTracker.material_lost_threshold tr) t1
              (map IndependentAreaTracker.f_time after)) as [t_exit|].
  - destruct Hrun as [e [[g [Hin [Hge Hgt]]] [Hle Hrun]]].
    rewrite Hrun.
    rewrite (update_detection_loss e t_exit (seen_at t1 entered) t1 t0 P1 eq_refl S1)
      by (cbn [seen_at IndependentAreaTracker.material_lost_threshold]; rewrite T1; exact Hle).
    cbn [fst snd seen_at IndependentAreaTracker.is_material_present
         IndependentAreaTracker.area_name_db IndependentAreaTracker.area_number].
    split; [reflexivity | split; [exact Hle|]].
    exists g. rewrite Hge. split; [exact Hin | split; [exact Hgt | split]].
    + unfold save_row. now intros ->.
    + intros C. rewrite save_row_connected by exact C.
      eexists. split; [reflexivity|]. simpl. rewrite K1. auto 10.
  - rewrite Hrun. split; [exact P1 | reflexivity].
Qed.

(** The zone scenario: material from 10:00:00 to 10:00:05, given up at
    10:00:06. *)
Lemma zone_episode_one_row_witness :
  IndependentAreaTracker.is_material_present
    (fst (IndependentAreaTracker.run
            (ZoneScenario.example_seen ++ ZoneScenario.example_after)
            ZoneScenario.example_tracker)) = false.
Proof.
  pose proof (zone_episode_one_row ZoneScenario.example_tracker
                (ZoneScenario.frame_at 0 0 true)
                (map (fun s => ZoneScenario.frame_at s 0 true) [1; 2; 3; 4; 5])
                ZoneScenario.example_after eq_refl) as H.
  cbv zeta in H.
  assert (H1 : Forall (fun f => IndependentAreaTracker.f_detected f = true)
                 (ZoneScenario.frame_at 0 0 true
                    :: map (fun s => ZoneScenario.frame_at s 0 true) [1; 2; 3; 4; 5]))
    by (repeat constructor).
  assert (H2 : Forall (fun f => IndependentAreaTracker.f_detected f = false)
                 ZoneScenario.example_after) by (repeat constructor).
  specialize (H H1 H2).
  vm_compute Presence.first_loss in H. destruct H as [H _]. exact H.
Defined.

(** ** Freetime *)

(** X8. How freetime begins and ends.  The first frame in which all zones are
    empty only notes its time.  Freetime becomes active only on a frame in
    which all zones are empty and which comes [freetime_threshold] or more
    after the noted time; it then starts at the time of that frame, not at
    the noted one.  A single frame with material somewhere ends an active
    freetime at once and forgets the noted time; the row, if the database can
    be reached, runs from the start of freetime to that frame. *)
Theorem freetime_begins_late_and_ends_at_once :
  (forall e t ft,
      FreetimeTracker.all_empty_start ft = None ->
      FreetimeTracker.update_freetime_status e true t ft
      = (FreetimeTracker.mk (FreetimeTracker.area_name_db ft)
           (FreetimeTracker.is_freetime_active ft) (FreetimeTracker.freetime_start_time ft)
           (FreetimeTracker.freetime_threshold ft) (Some t) (FreetimeTracker.daily_timer ft),
         []))
  /\ (forall e b t ft,
        FreetimeTracker.is_freetime_active ft = false ->
        FreetimeTracker.is_freetime_active
          (fst (FreetimeTracker.update_freetime_status e b t ft)) = true ->
        b = true
        /\ exists since,
             FreetimeTracker.all_empty_start ft = Some since
             /\ FreetimeTracker.freetime_threshold ft <= t - since
             /\ FreetimeTracker.update_freetime_status e b t ft = (activated e t ft, []))
  /\ (forall e t ft,
        freetime_ok ft ->
        FreetimeTracker.is_freetime_active
          (fst (FreetimeTracker.update_freetime_status e false t ft)) = false
        /\ FreetimeTracker.all_empty_start
             (fst (FreetimeTracker.update_freetime_status e false t ft)) = None
        /\ (FreetimeTracker.is_freetime_active ft = false ->
            snd (FreetimeTracker.update_freetime_status e false t ft) = [])
        /\ (FreetimeTracker.is_freetime_active ft = true -> db_connected e = true ->
            exists start r,
              FreetimeTracker.freetime_start_time ft = Some start
              /\ snd (FreetimeTracker.update_freetime_status e false t ft) = [r]
              /\ remark r = "freetime"%string /\ no_area r = 0
              /\ time_in r = strftime_seconds start
              /\ created_at r = strftime_seconds t
              /\ time_int r = int_of_seconds (t - start))).
Proof.
  split; [|split].
  - intros e t ft S. unfold FreetimeTracker.update_freetime_status. now rewrite S.
  - intros e b t ft A. unfold FreetimeTracker.update_freetime_status, total_seconds.
    destruct b.
    + destruct (FreetimeTracker.all_empty_start ft) as [since|] eqn:S;
        [|simpl; congruence].
      rewrite A. cbn [negb]. rewrite andb_true_r.
      destruct (FreetimeTracker.freetime_threshold ft <=? t - since) eqn:E;
        [|simpl; congruence].
      intros _. split; [reflexivity|]. exists since. apply Z.leb_le in E.
      split; [reflexivity | split; [exact E|]].
      unfold activated. now rewrite S.
    + rewrite A. simpl. congruence.
  - intros e t ft [_ Hs]. unfold FreetimeTracker.update_freetime_status.
    destruct (FreetimeTracker.is_freetime_active ft) eqn:A.
    + destruct (FreetimeTracker.freetime_start_time ft) as [start|] eqn:S;
        [|now destruct (Hs eq_refl)].
      rewrite (end_freetime_active e t _ ft start A S). cbn [fst snd
        FreetimeTracker.is_freetime_active FreetimeTracker.all_empty_start].
      split; [reflexivity | split; [reflexivity | split; [discriminate|]]].
      intros _ C. exists start. rewrite save_row_connected by exact C.
      eexists. split; [reflexivity | split; [reflexivity|]]. simpl. auto 10.
    + cbn [fst snd FreetimeTracker.is_freetime_active FreetimeTracker.all_empty_start].
      split; [exact A | split; [reflexivity | split; [reflexivity | discriminate]]].
Qed.

(** Freetime active since 09:00:02 ends on a frame with material at
    09:00:04. *)
Lemma freetime_begins_late_and_ends_at_once_witness :
  FreetimeTracker.is_freetime_active
    (fst (FreetimeTracker.update_freetime_status (mkEnv (GloveScenario.at_time 4 0) true)
            false (GloveScenario.at_time 4 0) GloveScenario.freetime_active)) = false.
Proof.
  destruct freetime_begins_late_and_ends_at_once as [_ [_ H]].
  destruct (H (mkEnv (GloveScenario.at_time 4 0) true) (GloveScenario.at_time 4 0)
              GloveScenario.freetime_active) as [H1 _].
  - apply freetime_ok_run, freetime_ok_init.
  - exact H1.
Defined.

(** X9. A glove that ends freetime suspends it for one frame only.
    [end_freetime] keeps the time since which all zones are empty, so on the
    next frame in which they still are, freetime starts again, while the
    glove session that displaced it is still open and still counts as
    preceded by freetime. *)
Theorem freetime_resumes_during_glove_session :
  forall g ft e1 t1 e2 t2 since,
    GloveTracker.is_glove_detected g = false ->
    freetime_ok ft ->
    FreetimeTracker.is_freetime_active ft = true ->
    FreetimeTracker.all_empty_start ft = Some since ->
    FreetimeTracker.freetime_threshold ft <= t2 - since ->
    let first := GloveTracker.update_glove_detection e1 t1 true ft g in
    let ft1 := snd (fst first) in
    let ft2 := fst (FreetimeTracker.update_freetime_status e2 true t2 ft1) in
    let second := GloveTracker.update_glove_detection e2 t2 true ft2 (fst (fst first)) in
    FreetimeTracker.is_freetime_active ft1 = false
    /\ FreetimeTracker.is_freetime_active (snd (fst second)) = true
    /\ FreetimeTracker.freetime_start_time (snd (fst second)) = Some t2
    /\ GloveTracker.is_glove_detected (fst (fst second)) = true
    /\ GloveTracker.was_freetime_before_glove (fst (fst second)) = true
    /\ snd (FreetimeTracker.update_freetime_status e2 true t2 ft1) = []
    /\ snd second = [].
Proof.
  intros g ft e1 t1 e2 t2 since D [Ht Hs] A S Hle. cbv zeta.
  destruct (FreetimeTracker.freetime_start_time ft) as [start|] eqn:F;
    [|now destruct (Hs A)].
  assert (E1 : GloveTracker.update_glove_detection e1 t1 true ft g
               = (GloveTracker.mk (GloveTracker.area_polygon g) (GloveTracker.area_name_db g)
                    true (Some t1) (Some t1) (GloveTracker.glove_lost_threshold g) true
                    (DailyTimer.start_session e1 t1 (GloveTracker.daily_timer g)),
                  fst (FreetimeTracker.end_freetime e1 t1 "glove_detected" ft),
                  snd (FreetimeTracker.end_freetime e1 t1 "glove_detected" ft))).
  { unfold GloveTracker.update_glove_detection. rewrite D, A. simpl.
    now destruct (FreetimeTracker.end_freetime e1 t1 "glove_detected" ft). }
  rewrite E1. cbn [fst snd].
  rewrite (end_freetime_active e1 t1 _ ft start A F). cbn [fst snd].
  unfold FreetimeTracker.update_freetime_status, total_seconds.
  cbn [FreetimeTracker.all_empty_start FreetimeTracker.is_freetime_active
       FreetimeTracker.freetime_threshold negb].
  rewrite S.
  replace (FreetimeTracker.freetime_threshold ft <=? t2 - since) with true
    by (symmetry; apply Z.leb_le; exact Hle).
  cbn [andb fst snd]. unfold GloveTracker.update_glove_detection. simpl. auto 10.
Qed.

(** Freetime active since 09:00:02, glove at 09:00:05, next frame at
    09:00:05.5. *)
Lemma freetime_resumes_during_glove_session_witness :
  FreetimeTracker.is_freetime_active
    (snd (fst (GloveTracker.update_glove_detection
                 (mkEnv (GloveScenario.at_time 5 500000) true) (GloveScenario.at_time 5 500000)
                 true
                 (fst (FreetimeTracker.update_freetime_status
                         (mkEnv (GloveScenario.at_time 5 500000) true) true
                         (GloveScenario.at_time 5 500000)
                         (snd (fst (GloveTracker.update_glove_detection
                                      (mkEnv (GloveScenario.at_time 5 0) true)
                                      (GloveScenario.at_time 5 0) true
                                      GloveScenario.freetime_active
                                      GloveScenario.example_tracker)))))
                 (fst (fst (GloveTracker.update_glove_detection
                              (mkEnv (GloveScenario.at_time 5 0) true)
                              (GloveScenario.at_time 5 0) true
                              GloveScenario.freetime_active
                              GloveScenario.example_tracker)))))) = true.
Proof.
  pose proof (freetime_resumes_during_glove_session
                GloveScenario.example_tracker GloveScenario.freetime_active
                (mkEnv (GloveScenario.at_time 5 0) true) (GloveScenario.at_time 5 0)
                (mkEnv (GloveScenario.at_time 5 500000) true) (GloveScenario.at_time 5 500000)
                (GloveScenario.at_time 0 0) eq_refl) as H.
  cbv zeta in H.
  destruct H as [_ [H _]].
  - apply freetime_ok_run, freetime_ok_init.
  - reflexivity.
  - reflexivity.
  - vm_compute. discriminate.
  - exact H.
Defined.

(** ** The glove tracker's timer *)

Lemma glove_ok_run fs : forall g, glove_ok g -> glove_ok (fst (GloveTracker.run fs g)).
Proof.
  induction fs as [|f fs IH]; intros g Hok; cbn [GloveTracker.run]; [exact Hok|].
  pose proof (glove_ok_update (GloveTracker.f_env f) (GloveTracker.f_time f)
                (GloveTracker.f_detected f) (GloveTracker.f_freetime f) g Hok) as H1.
  destruct (GloveTracker.update_glove_detection _ _ _ _ g) as [[s1 ft1] r1].
  specialize (IH s1 H1). now destruct (GloveTracker.run fs s1).
Qed.

(** X10. Whatever frames a new glove tracker is fed, and whatever freetime
    trackers it is handed with them: its DailyTimer has an open session only
    while a glove is seen in a session that began during freetime, so glove
    time outside such sessions is never accumulated; and while a glove is
    seen, the tracker knows when it was first and last seen.  A forced reset
    of the timer in between changes none of this. *)
Theorem glove_timer_runs_only_after_freetime :
  forall e polygon db fs1 e' fs2,
    let g := fst (GloveTracker.run fs2
                    (GloveTracker.reset_daily_timer e'
                       (fst (GloveTracker.run fs1 (GloveTracker.init e polygon db))))) in
    (DailyTimer.is_active (GloveTracker.daily_timer g) = true ->
       GloveTracker.is_glove_detected g = true
       /\ GloveTracker.was_freetime_before_glove g = true
       /\ DailyTimer.current_session_start (GloveTracker.daily_timer g) <> None)
    /\ (GloveTracker.is_glove_detected g = true ->
        GloveTracker.glove_start_time g <> None
        /\ GloveTracker.last_glove_detection g <> None).
Proof.
  intros e polygon db fs1 e' fs2 g.
  assert (Hok : glove_ok g).
  { subst g. apply glove_ok_run, glove_ok_reset, glove_ok_run, glove_ok_init. }
  destruct Hok as [Ht [Hd Ha]]. split; [|exact Hd].
  intros A. destruct (Ha A) as [H1 H2]. split; [exact H1 | split; [exact H2|]].
  now apply Ht.
Qed.

(** ** The engine *)

Section EngineFacts.
Import EnhancedMaterialDippingDetection.
Variable pointPolygonTest : list (Z * Z) -> Z * Z -> Q.

Lemma fold_process_box_ignored self bs : forall flags,
  Forall (fun b => (conf b <= conf_threshold)%Q \/ (cls b <> 0 /\ cls b <> 2)) bs ->
  fold_left (process_box pointPolygonTest self) bs flags = flags.
Proof.
  induction bs as [|b bs IH]; intros flags H; [reflexivity|].
  inversion H as [|? ? Hb Hbs]; subst. simpl.
  assert (E : process_box pointPolygonTest self flags b = flags).
  { destruct Hb as [Hb | [H0 H2]];
      [now apply process_box_low_conf | now apply process_box_other_class]. }
  rewrite E. now apply IH.
Qed.

Lemma update_area_trackers_map e t md trackers :
  fst (update_area_trackers e t md trackers)
  = map (fun p => (fst p,
                   fst (IndependentAreaTracker.update_detection e t (get_flag (fst p) md)
                          (snd p))))
        trackers.
Proof.
  induction trackers as [|[n tr] rest IH]; [reflexivity|].
  cbn [update_area_trackers map fst snd].
  destruct (IndependentAreaTracker.update_detection e t (get_flag n md) tr) as [tr' r1].
  destruct (update_area_trackers e t md rest) as [rest' r2].
  cbn [fst snd] in *. now rewrite IH.
Qed.

Lemma get_flag_true_exists n md : get_flag n md = true -> existsb snd md = true.
Proof.
  induction md as [|[k b] md IH]; simpl; [discriminate|].
  destruct (String.eqb k n).
  - intros ->. reflexivity.
  - intros H. rewrite (IH H). apply orb_true_r.
Qed.

(** What one frame does to a zone. *)
Lemma zone_step e t d tr :
  area_ok tr ->
  let tr' := fst (IndependentAreaTracker.update_detection e t d tr) in
  area_ok tr'
  /\ IndependentAreaTracker.material_lost_threshold tr'
     = IndependentAreaTracker.material_lost_threshold tr
  /\ (d = true -> IndependentAreaTracker.last_detection_time tr' = Some t)
  /\ (d = false -> IndependentAreaTracker.is_material_present tr' = true ->
      IndependentAreaTracker.is_material_present tr = true
      /\ IndependentAreaTracker.last_detection_time tr'
         = IndependentAreaTracker.last_detection_time tr
      /\ forall last, IndependentAreaTracker.last_detection_time tr = Some last ->
                      t - last < IndependentAreaTracker.material_lost_threshold tr).
Proof.
  intros Hok. cbv zeta.
  split; [now apply area_ok_update|].
  split; [apply update_detection_keeps_names|].
  destruct Hok as [_ Hp].
  unfold IndependentAreaTracker.update_detection, total_seconds.
  split.
  - intros ->. now destruct (IndependentAreaTracker.is_material_present tr).
  - intros ->.
    destruct (IndependentAreaTracker.is_material_present tr) eqn:P; [|simpl; congruence].
    destruct (Hp eq_refl) as [Hs Hl].
    destruct (IndependentAreaTracker.last_detection_time tr) as [last|] eqn:L; [|congruence].
    destruct (IndependentAreaTracker.material_lost_threshold tr <=? t - last) eqn:E.
    + unfold IndependentAreaTracker.handle_material_exit. rewrite P.
      destruct (IndependentAreaTracker.material_start_time tr); [|congruence].
      destruct (DailyTimer.end_session t (IndependentAreaTracker.daily_timer tr)).
      simpl. discriminate.
    + simpl. intros _. split; [reflexivity | split; [exact L|]].
      intros last' H; inversion H; subst. now apply Z.leb_gt.
Qed.

(** What the glove tracker can do to the freetime tracker it is handed. *)
Lemma glove_step_freetime e t d ft g :
  let ft' := snd (fst (GloveTracker.update_glove_detection e t d ft g)) in
  FreetimeTracker.all_empty_start ft' = FreetimeTracker.all_empty_start ft
  /\ FreetimeTracker.freetime_threshold ft' = FreetimeTracker.freetime_threshold ft
  /\ (freetime_ok ft -> freetime_ok ft')
  /\ (FreetimeTracker.is_freetime_active ft' = true ->
      FreetimeTracker.is_freetime_active ft = true).
Proof.
  cbv zeta. unfold GloveTracker.update_glove_detection.
  destruct d.
  - destruct (GloveTracker.is_glove_detected g); simpl; [(split; [|split; [|split]]; auto; congruence)|].
    destruct (FreetimeTracker.is_freetime_active ft) eqn:A; [|simpl; (split; [|split; [|split]]; auto; congruence)].
    pose proof (freetime_ok_end e t "glove_detected" ft) as Hok.
    destruct (FreetimeTracker.freetime_start_time ft) as [start|] eqn:S.
    + rewrite (end_freetime_active e t _ ft start A S) in *. simpl in *. (split; [|split; [|split]]; auto; congruence).
    + unfold FreetimeTracker.end_freetime. rewrite A, S. simpl. (split; [|split; [|split]]; auto; congruence).
  - destruct (GloveTracker.is_glove_detected g); [|simpl; (split; [|split; [|split]]; auto; congruence)].
    destruct (GloveTracker.last_glove_detection g); [|simpl; (split; [|split; [|split]]; auto; congruence)].
    destruct (_ <=? _); [|simpl; (split; [|split; [|split]]; auto; congruence)].
    destruct (GloveTracker.handle_glove_exit e t g). simpl. (split; [|split; [|split]]; auto; congruence).
Qed.

(** What one frame does to the freetime tracker. *)
Lemma freetime_step e b t ft :
  freetime_ok ft ->
  let ft' := fst (FreetimeTracker.update_freetime_status e b t ft) in
  freetime_ok ft'
  /\ FreetimeTracker.freetime_threshold ft' = FreetimeTracker.freetime_threshold ft
  /\ (b = false ->
      FreetimeTracker.all_empty_start ft' = None
      /\ FreetimeTracker.is_freetime_active ft' = false)
  /\ (b = true -> FreetimeTracker.all_empty_start ft = None ->
      FreetimeTracker.all_empty_start ft' = Some t
      /\ FreetimeTracker.is_freetime_active ft' = FreetimeTracker.is_freetime_active ft)
  /\ (b = true -> forall since, FreetimeTracker.all_empty_start ft = Some since ->
      FreetimeTracker.all_empty_start ft' = Some since
      /\ (FreetimeTracker.is_freetime_active ft' = true ->
          FreetimeTracker.is_freetime_active ft = true
          \/ FreetimeTracker.freetime_threshold ft <= t - since)).
Proof.
  intros Hok. cbv zeta.
  split; [now apply freetime_ok_update|].
  destruct Hok as [_ Hs].
  unfold FreetimeTracker.update_freetime_status, total_seconds.
  destruct b.
  - split; [|split; [discriminate|split]].
    + destruct (FreetimeTracker.all_empty_start ft); [|reflexivity].
      now destruct (_ && _).
    + intros _ S. rewrite S. simpl. auto.
    + intros _ since S. rewrite S.
      destruct (FreetimeTracker.freetime_threshold ft <=? t - since) eqn:E.
      * destruct (FreetimeTracker.is_freetime_active ft) eqn:A; simpl.
        -- split; [congruence | auto].
        -- split; [congruence|]. intros _. right. now apply Z.leb_le.
      * simpl. split; [congruence | auto].
  - assert (H : FreetimeTracker.freetime_threshold
                  (fst (if FreetimeTracker.is_freetime_active ft
                        then FreetimeTracker.end_freetime e t "material_detected" ft
                        else (ft, [])))
                = FreetimeTracker.freetime_threshold ft
                /\ FreetimeTracker.is_freetime_active
                     (fst (if FreetimeTracker.is_freetime_active ft
                           then FreetimeTracker.end_freetime e t "material_detected" ft
                           else (ft, []))) = false).
    { destruct (FreetimeTracker.is_freetime_active ft) eqn:A; [|simpl; auto].
      destruct (FreetimeTracker.freetime_start_time ft) as [start|] eqn:S;
        [|now destruct (Hs eq_refl)].
      rewrite (end_freetime_active e t _ ft start A S). simpl. auto. }
    destruct (if FreetimeTracker.is_freetime_active ft
              then FreetimeTracker.end_freetime e t "material_detected" ft
              else (ft, [])) as [s1 rows].
    cbn [fst FreetimeTracker.freetime_threshold FreetimeTracker.all_empty_start
         FreetimeTracker.is_freetime_active] in *.
    destruct H as [H1 H2].
    split; [exact H1 | split; [auto | split; discriminate]].
Qed.

(** One frame, not earlier than the latest one, keeps what the engine
    keeps. *)
Lemma engine_step e boxes t self seen :
  Engine.ok seen self -> seen <= t ->
  Engine.ok t (fst (update_all_trackers pointPolygonTest e boxes t self)).
Proof.
  intros [Hft [Hzones [Hsince Hact]]] Hle.
  unfold update_all_trackers.
  destruct (detection_flags pointPolygonTest self boxes) as [md gd].
  pose proof (update_area_trackers_map e t md (area_trackers self)) as Hmap.
  destruct (update_area_trackers e t md (area_trackers self)) as [trs' r1].
  cbn [fst] in Hmap.
  set (b := negb (existsb snd md)).
  pose proof (freetime_step e b t (freetime_tracker self) Hft) as Hf. cbv zeta in Hf.
  destruct (FreetimeTracker.update_freetime_status e b t (freetime_tracker self))
    as [ft1 r2].
  cbn [fst] in Hf. destruct Hf as [Hok1 [Hthr1 [Hfalse [Hnone Hsome]]]].
  pose proof (glove_step_freetime e t gd ft1 (glove_tracker self)) as Hg. cbv zeta in Hg.
  destruct (GloveTracker.update_glove_detection e t gd ft1 (glove_tracker self))
    as [[gt ft2] r3].
  cbn [fst snd] in Hg. destruct Hg as [Haes [Hthr2 [Hok2 Hact2]]].
  assert (Hflag : b = true -> forall n, get_flag n md = false).
  { intros Hb n. destruct (get_flag n md) eqn:G; [|reflexivity].
    apply get_flag_true_exists in G. subst b. rewrite G in Hb. discriminate. }
  assert (Hb_false : forall n, get_flag n md = true -> b = false).
  { intros n G. destruct b eqn:Hb; [|reflexivity]. rewrite (Hflag eq_refl n) in G.
    discriminate. }
  rewrite Forall_forall in Hzones.
  unfold Engine.ok. cbn [fst area_trackers freetime_tracker].
  rewrite Haes, Hthr2, Hthr1.
  split; [auto|]. split; [|split].
  - (* the zones *)
    rewrite Forall_forall. intros p' Hin'. rewrite Hmap in Hin'.
    apply in_map_iff in Hin'. destruct Hin' as [[n tr] [Ep Hin]]. subst p'.
    cbn [fst snd].
    destruct (Hzones (n, tr) Hin) as [Hz1 [Hz2 Hz3]]. cbn [snd] in Hz1, Hz2, Hz3.
    pose proof (zone_step e t (get_flag n md) tr Hz1) as Hz. cbv zeta in Hz.
    destruct Hz as [Hz_ok [Hz_thr [Hz_true Hz_false]]].
    split; [exact Hz_ok|]. split; [rewrite Hz_thr; exact Hz2|].
    intros P'. destruct (get_flag n md) eqn:G.
    + exists t. split; [now apply Hz_true | split; [lia|]].
      intros since Hs. destruct (Hfalse (Hb_false n G)) as [Hn _]. congruence.
    + destruct (Hz_false eq_refl P') as [P [L _]].
      destruct (Hz3 P) as [last [Hl [Hl1 Hl2]]].
      exists last. split; [congruence | split; [lia|]].
      intros since Hs. destruct b eqn:Hb.
      * destruct (FreetimeTracker.all_empty_start (freetime_tracker self)) as [s|] eqn:S.
        -- destruct (Hsome eq_refl s eq_refl) as [Hs' _].
           assert (since = s) by congruence. subst. now apply Hl2.
        -- destruct (Hnone eq_refl eq_refl) as [Hs' _].
           assert (since = t) by congruence. subst. lia.
      * destruct (Hfalse eq_refl) as [Hn _]. congruence.
  - (* the time since which all zones are empty *)
    intros since Hs. destruct b eqn:Hb.
    + destruct (FreetimeTracker.all_empty_start (freetime_tracker self)) as [s|] eqn:S.
      * destruct (Hsome eq_refl s eq_refl) as [Hs' _].
        assert (since = s) by congruence. subst. specialize (Hsince s eq_refl). lia.
      * destruct (Hnone eq_refl eq_refl) as [Hs' _].
        assert (since = t) by congruence. subst. lia.
    + destruct (Hfalse eq_refl) as [Hn _]. congruence.
  - (* freetime and material *)
    intros A2. specialize (Hact2 A2).
    destruct b eqn:Hb; [|destruct (Hfalse eq_refl) as [_ Hn]; congruence].
    destruct (FreetimeTracker.all_empty_start (freetime_tracker self)) as [s|] eqn:S.
    + destruct (Hsome eq_refl s eq_refl) as [Hs' Hwhy]. specialize (Hwhy Hact2).
      split; [congruence|].
      rewrite Forall_forall. intros p' Hin'. rewrite Hmap in Hin'.
      apply in_map_iff in Hin'. destruct Hin' as [[n tr] [Ep Hin]]. subst p'.
      cbn [fst snd]. rewrite (Hflag eq_refl n).
      destruct (Hzones (n, tr) Hin) as [Hz1 [Hz2 Hz3]]. cbn [snd] in Hz1, Hz2, Hz3.
      pose proof (zone_step e t false tr Hz1) as Hz. cbv zeta in Hz.
      destruct Hz as [_ [_ [_ Hz_false]]].
      destruct (IndependentAreaTracker.is_material_present
                  (fst (IndependentAreaTracker.update_detection e t false tr))) eqn:P';
        [exfalso | reflexivity].
      destruct (Hz_false eq_refl eq_refl) as [P [_ Hlt]].
      destruct Hwhy as [A | Hlate].
      * destruct (Hact A) as [_ Hnone']. rewrite Forall_forall in Hnone'.
        specialize (Hnone' (n, tr) Hin). cbn [snd] in Hnone'. congruence.
      * destruct (Hz3 P) as [last [Hl [_ Hl2]]].
        specialize (Hlt last Hl). specialize (Hl2 s eq_refl). lia.
    + destruct (Hnone eq_refl eq_refl) as [_ Hsame].
      rewrite Hsame in Hact2. destruct (Hact Hact2) as [Hn _]. congruence.
Qed.

Lemma engine_run fs : forall self seen,
  Engine.ok seen self -> Engine.chronological seen fs ->
  Engine.ok (last (map Engine.f_time fs) seen) (fst (Engine.run pointPolygonTest fs self)).
Proof.
  induction fs as [|f fs IH]; intros self seen Hok Hc; [exact Hok|].
  simpl in Hc. destruct Hc as [Hle Hc].
  pose proof (engine_step (Engine.f_env f) (Engine.f_boxes f) (Engine.f_time f) self seen
                Hok Hle) as H1.
  cbn [Engine.run map]. rewrite last_cons_default.
  destruct (update_all_trackers pointPolygonTest (Engine.f_env f) (Engine.f_boxes f)
              (Engine.f_time f) self) as [s1 r1].
  cbn [fst] in H1. specialize (IH s1 (Engine.f_time f) H1 Hc).
  now destruct (Engine.run pointPolygonTest fs s1).
Qed.

Lemma engine_reset e self seen :
  Engine.ok seen self -> Engine.ok seen (reset_all_daily_timers e self).
Proof.
  intros [Hft [Hzones [Hsince Hact]]].
  unfold Engine.ok, reset_all_daily_timers. cbn [freetime_tracker area_trackers].
  split; [now apply freetime_ok_reset|]. split; [|split].
  - rewrite Forall_forall in *. intros p' Hin'.
    apply in_map_iff in Hin'. destruct Hin' as [p [Ep Hin]]. subst p'.
    destruct (Hzones p Hin) as [H1 [H2 H3]]. cbn [snd].
    split; [now apply area_ok_reset | split; [exact H2 | exact H3]].
  - exact Hsince.
  - intros A. destruct (Hact A) as [H1 H2]. split; [exact H1|].
    rewrite Forall_forall in *. intros p' Hin'.
    apply in_map_iff in Hin'. destruct Hin' as [p [Ep Hin]]. subst p'.
    exact (H2 p Hin).
Qed.

Lemma engine_init e db seen : Engine.ok seen (init e db).
Proof.
  unfold Engine.ok. cbn [init freetime_tracker area_trackers].
  split; [apply freetime_ok_init|]. split; [|split].
  - unfold material_areas. cbn [map].
    repeat (constructor; [cbn [snd]; split;
              [apply area_ok_init | split; [simpl; lia | simpl; discriminate]]|]).
    constructor.
  - simpl. discriminate.
  - simpl. discriminate.
Qed.

End EngineFacts.

(** X11. Freetime and material never go together.  The engine is fed frames
    in the order of their times, from its initial state, with a reset of all
    daily timers somewhere in between: whenever freetime is active after a
    frame, no zone holds material, not even one that is waiting out its
    debounce second.  The zones give up their material in the very frame that
    starts freetime at the latest, since a zone waits 1.0 s and freetime
    2.0 s. *)
Theorem freetime_never_with_material :
  forall pointPolygonTest e db fs1 e' fs2 t0,
    Engine.chronological t0 (fs1 ++ fs2) ->
    let self :=
      fst (Engine.run pointPolygonTest fs2
             (EnhancedMaterialDippingDetection.reset_all_daily_timers e'
                (fst (Engine.run pointPolygonTest fs1
                        (EnhancedMaterialDippingDetection.init e db))))) in
    FreetimeTracker.is_freetime_active
      (EnhancedMaterialDippingDetection.freetime_tracker self) = true ->
    Forall (fun p => IndependentAreaTracker.is_material_present (snd p) = false)
      (EnhancedMaterialDippingDetection.area_trackers self).
Proof.
  intros ppt e db fs1 e' fs2 t0 Hc self A.
  assert (Hsplit : Engine.chronological t0 fs1
                   /\ Engine.chronological (last (map Engine.f_time fs1) t0) fs2).
  { clear - Hc. revert t0 Hc. induction fs1 as [|f fs1 IH]; intros t0 Hc; [simpl; auto|].
    simpl in Hc. destruct Hc as [Hle Hc]. destruct (IH _ Hc) as [H1 H2].
    cbn [map]. rewrite last_cons_default. simpl. auto. }
  destruct Hsplit as [Hc1 Hc2].
  assert (Hok : Engine.ok (last (map Engine.f_time fs2) (last (map Engine.f_time fs1) t0)) self).
  { subst self. apply engine_run; [|exact Hc2].
    apply engine_reset, engine_run; [apply engine_init | exact Hc1]. }
  destruct Hok as [_ [_ [_ Hact]]]. now destruct (Hact A).
Qed.

(** After the second frame of the example freetime is active, and no zone
    holds material. *)
Lemma freetime_never_with_material_witness :
  Forall (fun p => IndependentAreaTracker.is_material_present (snd p) = false)
    (EnhancedMaterialDippingDetection.area_trackers
       (fst (Engine.run DetectionExample.all_inside (firstn 1 (skipn 1 engine_example))
               (EnhancedMaterialDippingDetection.reset_all_daily_timers
                  (mkEnv (GloveScenario.at_time 1 0) true)
                  (fst (Engine.run DetectionExample.all_inside (firstn 1 engine_example)
                          DetectionExample.detector)))))).
Proof.
  apply (freetime_never_with_material DetectionExample.all_inside
           (mkEnv (mk_datetime 0 8 0 0 0) true) "bak_alkali"
           (firstn 1 engine_example) (mkEnv (GloveScenario.at_time 1 0) true)
           (firstn 1 (skipn 1 engine_example)) (GloveScenario.at_time 0 0)).
  - vm_compute. intuition discriminate.
  - reflexivity.
Defined.

(** X12. Boxes that do not count are no boxes.  A frame all of whose boxes
    have a confidence of at most 0.6 or a class other than 0 and 2, an empty
    list of boxes among them, does to every tracker, and inserts, exactly what
    a frame without boxes does. *)
Theorem ignored_boxes_are_no_boxes :
  forall pointPolygonTest e bs t self,
    Forall (fun b => (conf b <= conf_threshold)%Q \/ (cls b <> 0 /\ cls b <> 2)) bs ->
    EnhancedMaterialDippingDetection.update_all_trackers pointPolygonTest e (Some bs) t self
    = EnhancedMaterialDippingDetection.update_all_trackers pointPolygonTest e None t self.
Proof.
  intros ppt e bs t self H.
  unfold EnhancedMaterialDippingDetection.update_all_trackers,
    EnhancedMaterialDippingDetection.detection_flags.
  now rewrite fold_process_box_ignored.
Qed.

Lemma ignored_boxes_are_no_boxes_witness :
  EnhancedMaterialDippingDetection.update_all_trackers DetectionExample.all_inside
    (mkEnv (GloveScenario.at_time 0 0) true)
    (Some [ DetectionExample.material_at_threshold; DetectionExample.glove_at_threshold;
            DetectionExample.other_class ])
    (GloveScenario.at_time 0 0) DetectionExample.detector
  = EnhancedMaterialDippingDetection.update_all_trackers DetectionExample.all_inside
      (mkEnv (GloveScenario.at_time 0 0) true) None
      (GloveScenario.at_time 0 0) DetectionExample.detector.
Proof.
  apply ignored_boxes_are_no_boxes.
  constructor; [left; vm_compute; congruence|].
  constructor; [left; vm_compute; congruence|].
  constructor; [right; split; vm_compute; congruence|].
  constructor.
Defined.

(** ** Shutdown *)

Section CleanupFacts.
Import EnhancedMaterialDippingDetection.

Lemma save_row_created e a n f t_in t_out r :
  Forall (fun row => created_at row = strftime_seconds t_out)
    (save_row e a n f t_in t_out r).
Proof. unfold save_row. destruct (db_connected e); repeat constructor. Qed.

Lemma handle_material_exit_closes e t tr :
  area_ok tr ->
  IndependentAreaTracker.is_material_present
    (fst (if IndependentAreaTracker.is_material_present tr
          then IndependentAreaTracker.handle_material_exit e t tr
          else (tr, []))) = false
  /\ Forall (fun row => created_at row = strftime_seconds t)
       (snd (if IndependentAreaTracker.is_material_present tr
             then IndependentAreaTracker.handle_material_exit e t tr
             else (tr, []))).
Proof.
  intros [_ Hp].
  destruct (IndependentAreaTracker.is_material_present tr) eqn:P;
    [|split; [exact P | constructor]].
  destruct (Hp eq_refl) as [Hs _].
  unfold IndependentAreaTracker.handle_material_exit,
    IndependentAreaTracker.save_area_data. rewrite P.
  destruct (IndependentAreaTracker.material_start_time tr); [|congruence].
  destruct (DailyTimer.end_session t (IndependentAreaTracker.daily_timer tr)).
  cbn [fst snd IndependentAreaTracker.is_material_present].
  split; [reflexivity | apply save_row_created].
Qed.

Lemma exit_areas_closes e t trackers :
  Forall (fun p => area_ok (snd p)) trackers ->
  Forall (fun p => IndependentAreaTracker.is_material_present (snd p) = false)
    (fst (exit_areas e t trackers))
  /\ Forall (fun row => created_at row = strftime_seconds t) (snd (exit_areas e t trackers)).
Proof.
  induction 1 as [|[n tr] rest Hok _ IH]; [split; constructor|].
  cbn [exit_areas]. cbn [snd] in Hok.
  destruct (handle_material_exit_closes e t tr Hok) as [H1 H2].
  destruct (if IndependentAreaTracker.is_material_present tr
            then IndependentAreaTracker.handle_material_exit e t tr
            else (tr, [])) as [tr' r1].
  destruct IH as [IH1 IH2].
  destruct (exit_areas e t rest) as [rest' r2]. cbn [fst snd] in *.
  split; [constructor; assumption | apply Forall_app; auto].
Qed.

Lemma existsb_all_false {A} (f : A -> bool) l :
  Forall (fun x => f x = false) l -> existsb f l = false.
Proof. induction 1 as [|x l Hx _ IH]; simpl; [reflexivity | now rewrite Hx, IH]. Qed.

Lemma engine_glove_ok ppt fs : forall self,
  glove_ok (glove_tracker self) ->
  glove_ok (glove_tracker (fst (Engine.run ppt fs self))).
Proof.
  induction fs as [|f fs IH]; intros self Hok; [exact Hok|].
  cbn [Engine.run].
  assert (H1 : glove_ok (glove_tracker
                 (fst (update_all_trackers ppt (Engine.f_env f) (Engine.f_boxes f)
                         (Engine.f_time f) self)))).
  { unfold update_all_trackers.
    destruct (detection_flags ppt self (Engine.f_boxes f)) as [md gd].
    destruct (update_area_trackers _ _ md _) as [trs r1].
    destruct (FreetimeTracker.update_freetime_status _ _ _ _) as [ft r2].
    pose proof (glove_ok_update (Engine.f_env f) (Engine.f_time f) gd ft
                  (glove_tracker self) Hok) as H.
    destruct (GloveTracker.update_glove_detection _ _ gd ft _) as [[gt ft'] r3].
    exact H. }
  destruct (update_all_trackers ppt (Engine.f_env f) (Engine.f_boxes f)
              (Engine.f_time f) self) as [s1 r1].
  specialize (IH s1 H1). now destruct (Engine.run ppt fs s1).
Qed.

End CleanupFacts.

(** X13. [cleanup] closes whatever is open.  From consistent trackers: after
    it no zone holds material, freetime is not active, no glove is seen, and
    the status shown is "not in use"; every row it inserts is stamped with the
    time of the shutdown; and a second [cleanup] finds nothing to do. *)
Theorem cleanup_closes_every_session :
  forall e self,
    Forall (fun p => area_ok (snd p)) (EnhancedMaterialDippingDetection.area_trackers self) ->
    freetime_ok (EnhancedMaterialDippingDetection.freetime_tracker self) ->
    glove_ok (EnhancedMaterialDippingDetection.glove_tracker self) ->
    let self' := fst (EnhancedMaterialDippingDetection.cleanup e self) in
    Forall (fun p => IndependentAreaTracker.is_material_present (snd p) = false)
      (EnhancedMaterialDippingDetection.area_trackers self')
    /\ FreetimeTracker.is_freetime_active
         (EnhancedMaterialDippingDetection.freetime_tracker self') = false
    /\ GloveTracker.is_glove_detected
         (EnhancedMaterialDippingDetection.glove_tracker self') = false
    /\ EnhancedMaterialDippingDetection.get_bak_status self' = false
    /\ Forall (fun row => created_at row = strftime_seconds (now e))
         (snd (EnhancedMaterialDippingDetection.cleanup e self))
    /\ (forall e2, EnhancedMaterialDippingDetection.cleanup e2 self' = (self', [])).
Proof.
  intros e self Hz [_ Hf] [_ [Hg _]]. cbv zeta.
  split; [|split; [|split; [|split; [|split; [|intros; apply cleanup_twice]]]]];
    unfold EnhancedMaterialDippingDetection.cleanup;
    destruct (exit_areas_closes e (now e) _ Hz) as [Z1 Z2];
    destruct (EnhancedMaterialDippingDetection.exit_areas e (now e)
                (EnhancedMaterialDippingDetection.area_trackers self)) as [trs r1];
    cbn [fst snd] in Z1, Z2;
    assert (F : FreetimeTracker.is_freetime_active
                  (fst (if FreetimeTracker.is_freetime_active
                             (EnhancedMaterialDippingDetection.freetime_tracker self)
                        then FreetimeTracker.end_freetime e (now e) "system_shutdown"
                               (EnhancedMaterialDippingDetection.freetime_tracker self)
                        else (EnhancedMaterialDippingDetection.freetime_tracker self, [])))
                = false
                /\ Forall (fun row => created_at row = strftime_seconds (now e))
                     (snd (if FreetimeTracker.is_freetime_active
                                (EnhancedMaterialDippingDetection.freetime_tracker self)
                           then FreetimeTracker.end_freetime e (now e) "system_shutdown"
                                  (EnhancedMaterialDippingDetection.freetime_tracker self)
                           else (EnhancedMaterialDippingDetection.freetime_tracker self, []))))
      by (destruct (FreetimeTracker.is_freetime_active
                      (EnhancedMaterialDippingDetection.freetime_tracker self)) eqn:A;
          [ destruct (FreetimeTracker.freetime_start_time
                        (EnhancedMaterialDippingDetection.freetime_tracker self))
              as [start|] eqn:S; [|now destruct (Hf eq_refl)];
            rewrite (end_freetime_active e (now e) _ _ start A S); cbn [fst snd];
            split; [reflexivity | apply save_row_created]
          | split; [exact A | constructor] ]);
    assert (G : GloveTracker.is_glove_detected
                  (fst (if GloveTracker.is_glove_detected
                             (EnhancedMaterialDippingDetection.glove_tracker self)
                        then GloveTracker.handle_glove_exit e (now e)
                               (EnhancedMaterialDippingDetection.glove_tracker self)
                        else (EnhancedMaterialDippingDetection.glove_tracker self, [])))
                = false
                /\ Forall (fun row => created_at row = strftime_seconds (now e))
                     (snd (if GloveTracker.is_glove_detected
                                (EnhancedMaterialDippingDetection.glove_tracker self)
                           then GloveTracker.handle_glove_exit e (now e)
                                  (EnhancedMaterialDippingDetection.glove_tracker self)
                           else (EnhancedMaterialDippingDetection.glove_tracker self, []))))
      by (destruct (GloveTracker.is_glove_detected
                      (EnhancedMaterialDippingDetection.glove_tracker self)) eqn:D;
          [ destruct (Hg eq_refl) as [Hs _];
            unfold GloveTracker.handle_glove_exit, GloveTracker.save_glove_data; rewrite D;
            destruct (GloveTracker.glove_start_time
                        (EnhancedMaterialDippingDetection.glove_tracker self));
              [|congruence];
            destruct (GloveTracker.was_freetime_before_glove
                        (EnhancedMaterialDippingDetection.glove_tracker self));
              [ destruct (DailyTimer.end_session (now e) _); cbn [fst snd];
                split; [reflexivity | apply save_row_created]
              | cbn [fst snd]; split; [reflexivity | constructor] ]
          | split; [exact D | constructor] ]);
    destruct F as [F1 F2]; destruct G as [G1 G2];
    destruct (if FreetimeTracker.is_freetime_active _ then _ else _) as [ft r2];
    destruct (if GloveTracker.is_glove_detected _ then _ else _) as [g r3];
    cbn [fst snd EnhancedMaterialDippingDetection.area_trackers
         EnhancedMaterialDippingDetection.freetime_tracker
         EnhancedMaterialDippingDetection.glove_tracker] in *;
    try assumption.
  - unfold EnhancedMaterialDippingDetection.get_bak_status.
    cbn [EnhancedMaterialDippingDetection.area_trackers
         EnhancedMaterialDippingDetection.glove_tracker].
    rewrite G1, orb_false_r.
    apply (existsb_all_false
             (fun p => IndependentAreaTracker.is_material_present (snd p))). exact Z1.
  - repeat (apply Forall_app; split); assumption.
Qed.

(** The engine after the third frame of the example, Area 1 holding
    material: [cleanup] closes that session. *)
Lemma cleanup_closes_every_session_witness :
  EnhancedMaterialDippingDetection.get_bak_status
    (fst (Engine.run DetectionExample.all_inside (firstn 3 engine_example)
            DetectionExample.detector)) = true
  /\ EnhancedMaterialDippingDetection.get_bak_status
       (fst (EnhancedMaterialDippingDetection.cleanup (mkEnv (GloveScenario.at_time 9 0) true)
               (fst (Engine.run DetectionExample.all_inside (firstn 3 engine_example)
                       DetectionExample.detector)))) = false.
Proof.
  split; [reflexivity|].
  destruct (cleanup_closes_every_session (mkEnv (GloveScenario.at_time 9 0) true)
              (fst (Engine.run DetectionExample.all_inside (firstn 3 engine_example)
                      DetectionExample.detector))) as [_ [_ [_ [H _]]]].
  - pose proof (engine_run DetectionExample.all_inside (firstn 3 engine_example)
                  DetectionExample.detector (GloveScenario.at_time 0 0)
                  (engine_init _ _ _)) as Hok.
    destruct Hok as [_ [Hz _]]; [vm_compute; intuition discriminate|].
    eapply Forall_impl; [|exact Hz]. simpl. tauto.
  - pose proof (engine_run DetectionExample.all_inside (firstn 3 engine_example)
                  DetectionExample.detector (GloveScenario.at_time 0 0)
                  (engine_init _ _ _)) as Hok.
    destruct Hok as [Hf _]; [vm_compute; intuition discriminate | exact Hf].
  - apply engine_glove_ok. apply glove_ok_init.
  - exact H.
Defined.

(** ** The frame queue under a stream of frames *)

Section CaptureFacts.
Context {A : Type}.
Import FrameQueue.

Lemma enqueue_frame_room (frame : A) (q : t A) :
  maxsize q <= 0 \/ qsize q < maxsize q ->
  enqueue_frame frame q = Enqueued (mk (maxsize q) (items q ++ [frame])).
Proof.
  intros H. unfold enqueue_frame, put_nowait.
  replace ((0 <? maxsize q) && (maxsize q <=? qsize q)) with false; [reflexivity|].
  symmetry. apply andb_false_iff.
  destruct H; [left; apply Z.ltb_ge | right; apply Z.leb_gt]; lia.
Qed.

(** One frame into a queue of capacity 2 or more that is not over its
    capacity: some of the oldest frames may go, the new one is the last. *)
Lemma enqueue_frame_step (frame : A) (q : t A) :
  2 <= maxsize q -> qsize q <= maxsize q ->
  exists n,
    (n <= List.length (items q))%nat
    /\ enqueue_frame frame q = Enqueued (mk (maxsize q) (skipn n (items q) ++ [frame]))
    /\ qsize (mk (maxsize q) (skipn n (items q) ++ [frame])) <= maxsize q.
Proof.
  intros Hm Hq.
  destruct (Z.eq_dec (qsize q) (maxsize q)) as [Hfull | Hroom].
  - exists (Z.to_nat (qsize q / 2)).
    assert (Hhalf : 1 <= qsize q / 2 <= qsize q) by (Z.div_mod_to_equations; lia).
    split; [unfold qsize in *; lia|].
    split; [now apply enqueue_frame_full|].
    unfold qsize in *. cbn [items]. rewrite length_app, length_skipn. simpl. lia.
  - exists 0%nat. split; [lia|]. cbn [skipn].
    split; [apply enqueue_frame_room; lia|].
    unfold qsize in *. cbn [items]. rewrite length_app. simpl. lia.
Qed.

Lemma enqueue_all_some (frames : list A) : forall q,
  2 <= maxsize q -> qsize q <= maxsize q ->
  exists q' n,
    Capture.enqueue_all frames q = Some q'
    /\ maxsize q' = maxsize q
    /\ qsize q' <= maxsize q
    /\ items q' = skipn n (items q ++ frames)
    /\ (forall d, frames <> [] -> last (items q') d = last frames d).
Proof.
  induction frames as [|f rest IH]; intros q Hm Hq.
  - exists q, 0%nat. simpl. rewrite app_nil_r. repeat split; auto. congruence.
  - destruct (enqueue_frame_step f q Hm Hq) as [k [Hk [E Hlen]]].
    cbn [Capture.enqueue_all]. rewrite E.
    destruct (IH (mk (maxsize q) (skipn k (items q) ++ [f])) Hm Hlen)
      as [q' [n [E' [M' [L' [I' Hlast]]]]]].
    cbn [maxsize items] in *.
    exists q', (n + k)%nat. split; [exact E' | split; [exact M' | split; [exact L'|]]].
    split.
    + rewrite I'. rewrite <- skipn_skipn. f_equal.
      rewrite !skipn_app.
      replace (k - List.length (items q))%nat with 0%nat by lia.
      cbn [skipn]. now rewrite <- app_assoc.
    + intros d _. destruct rest as [|g rest'].
      * simpl in E'. inversion E'; subst q'. cbn [items]. apply last_last.
      * rewrite (Hlast d) by discriminate. reflexivity.
Qed.

End CaptureFacts.

(** X14. The capture loop puts any number of frames into a queue of capacity
    2 or more that no consumer empties: [queue.Full] never leaves the
    overflow handling, the queue never holds more than its capacity, and what
    it holds is always the latest frames in the order in which they came: a
    suffix of all frames put so far, ending with the latest one.  Only the
    oldest frames are ever dropped. *)
Theorem capture_keeps_latest_frames :
  forall (A : Type) (frames : list A) (q : FrameQueue.t A),
    2 <= FrameQueue.maxsize q ->
    FrameQueue.qsize q <= FrameQueue.maxsize q ->
    exists q' n,
      Capture.enqueue_all frames q = Some q'
      /\ FrameQueue.maxsize q' = FrameQueue.maxsize q
      /\ FrameQueue.qsize q' <= FrameQueue.maxsize q
      /\ FrameQueue.items q' = skipn n (FrameQueue.items q ++ frames)
      /\ (forall d, frames <> [] -> last (FrameQueue.items q') d = last frames d).
Proof. intros A frames q. apply enqueue_all_some. Qed.

(** 230 numbered frames into the program's empty queue: 80 remain, the
    latest ones. *)
Lemma capture_keeps_latest_frames_witness :
  option_map FrameQueue.items
    (Capture.enqueue_all (map Z.of_nat (seq 0 230)) FrameQueue.frame_queue)
  = Some (skipn 150 (map Z.of_nat (seq 0 230))).
Proof.
  destruct (capture_keeps_latest_frames Z (map Z.of_nat (seq 0 230)) FrameQueue.frame_queue)
    as [q' [n [E _]]].
  - vm_compute. discriminate.
  - vm_compute. discriminate.
  - rewrite E. vm_compute in E. inversion E. reflexivity.
Defined.

(** X15. The two capacities at which the overflow handling is different.  A
    queue without bound ([maxsize <= 0]) takes every frame and drops none.  A
    full queue of capacity 1 gives up no frame (half of one is none), so the
    second [put] raises [queue.Full] as well: the exception leaves the
    statement, the new frame is lost and the queue is as it was. *)
Theorem overflow_at_the_edge_capacities :
  forall (A : Type) (frame : A) (q : FrameQueue.t A),
    (FrameQueue.maxsize q <= 0 ->
     FrameQueue.enqueue_frame frame q
     = FrameQueue.Enqueued
         (FrameQueue.mk (FrameQueue.maxsize q) (FrameQueue.items q ++ [frame])))
    /\ (FrameQueue.maxsize q = 1 -> FrameQueue.qsize q = 1 ->
        FrameQueue.enqueue_frame frame q = FrameQueue.RaisedFull q
        /\ Capture.enqueue_all [frame] q = None).
Proof.
  intros A frame q. split.
  - intros H. apply enqueue_frame_room. now left.
  - intros Hm Hq.
    assert (E : FrameQueue.enqueue_frame frame q = FrameQueue.RaisedFull q).
    { unfold FrameQueue.enqueue_frame, FrameQueue.put_nowait. rewrite Hm, Hq. simpl.
      unfold FrameQueue.put_nowait. now rewrite Hm, Hq. }
    split; [exact E|]. simpl. now rewrite E.
Qed.

Lemma overflow_at_the_edge_capacities_witness :
  FrameQueue.enqueue_frame 7 (FrameQueue.mk 1 [3]) = FrameQueue.RaisedFull (FrameQueue.mk 1 [3])
  /\ FrameQueue.enqueue_frame 7 (FrameQueue.mk 0 [3; 4])
     = FrameQueue.Enqueued (FrameQueue.mk 0 [3; 4; 7]).
Proof.
  split.
  - destruct (overflow_at_the_edge_capacities Z 7 (FrameQueue.mk 1 [3])) as [_ H].
    destruct (H eq_refl eq_refl) as [H1 _]. exact H1.
  - destruct (overflow_at_the_edge_capacities Z 7 (FrameQueue.mk 0 [3; 4])) as [H _].
    apply H. simpl. lia.
Defined.

(** ** The watchdog *)

Lemma drain_empty {A} (l : list A) : SystemWatchdog.drain l = [].
Proof. induction l; simpl; auto. Qed.

(** X16. The health check of the watchdog.  While the last activity is no
    more than [freeze_threshold] seconds old the check changes nothing.  When
    it is older, the frame queue is emptied, its capacity kept, and the time
    of last activity becomes the time the recovery ends.  Either way, the
    clock not running backwards, the watchdog is not stale after the check,
    so that the check does nothing when repeated at once.  The memory figure
    changes neither the watchdog nor the queue. *)
Theorem health_check_recovers_once :
  forall (A : Type) (current_time clock memory_percent : Q)
         (wd : SystemWatchdog.t) (q : FrameQueue.t A),
    let after := SystemWatchdog.check_system_health current_time clock memory_percent wd q in
    ((current_time - SystemWatchdog.last_activity wd <= SystemWatchdog.freeze_threshold wd)%Q ->
     after = (wd, q))
    /\ ((SystemWatchdog.freeze_threshold wd < current_time - SystemWatchdog.last_activity wd)%Q ->
        FrameQueue.items (snd after) = []
        /\ FrameQueue.maxsize (snd after) = FrameQueue.maxsize q
        /\ SystemWatchdog.last_activity (fst after) = clock
        /\ SystemWatchdog.freeze_threshold (fst after) = SystemWatchdog.freeze_threshold wd)
    /\ ((current_time <= clock)%Q -> (0 <= SystemWatchdog.freeze_threshold wd)%Q ->
        (current_time - SystemWatchdog.last_activity (fst after)
         <= SystemWatchdog.freeze_threshold (fst after))%Q
        /\ forall clock' memory',
             SystemWatchdog.check_system_health current_time clock' memory'
               (fst after) (snd after) = after)
    /\ (forall memory',
          SystemWatchdog.check_system_health current_time clock memory' wd q = after).
Proof.
  intros A current_time clock memory_percent wd q. cbv zeta.
  unfold SystemWatchdog.check_system_health.
  destruct (Qgt_bool (current_time - SystemWatchdog.last_activity wd)
              (SystemWatchdog.freeze_threshold wd)) eqn:G.
  - pose proof G as G'. apply Qgt_bool_true in G'.
    unfold SystemWatchdog.emergency_recovery. cbn [fst snd FrameQueue.items
      FrameQueue.maxsize SystemWatchdog.last_activity SystemWatchdog.freeze_threshold].
    rewrite drain_empty.
    split; [intros H; exfalso; lra|]. split; [auto|]. split; [|reflexivity].
    intros H1 H2.
    assert (Hfresh : (current_time - clock <= SystemWatchdog.freeze_threshold wd)%Q) by lra.
    split; [exact Hfresh|]. intros clock' memory'.
    replace (Qgt_bool (current_time - clock) (SystemWatchdog.freeze_threshold wd)) with false;
      [reflexivity|].
    symmetry. apply not_true_iff_false. rewrite Qgt_bool_true. lra.
  - assert (G' : (current_time - SystemWatchdog.last_activity wd
                  <= SystemWatchdog.freeze_threshold wd)%Q).
    { apply Qnot_lt_le. intros H. apply Qgt_bool_true in H. congruence. }
    cbn [fst snd]. split; [reflexivity|]. split; [intros H; exfalso; lra|].
    split; [|reflexivity].
    intros _ _. split; [exact G'|]. intros clock' memory'. now rewrite G.
Qed.

(** The last activity 20 s ago, three frames waiting. *)
Lemma health_check_recovers_once_witness :
  SystemWatchdog.check_system_health 120 121 50 (SystemWatchdog.init 100)
    (FrameQueue.mk 100 [1; 2; 3])
  = (SystemWatchdog.mk 121 15 90 true, FrameQueue.mk 100 []).
Proof.
  destruct (health_check_recovers_once Z 120 121 50 (SystemWatchdog.init 100)
              (FrameQueue.mk 100 [1; 2; 3])) as [_ [H _]].
  destruct H as [H1 [H2 [H3 H4]]]; [reflexivity|]. reflexivity.
Defined.

(** ** Reconnecting *)

Lemma delay_values :
  Capture.delay 1 == 5 /\ Capture.delay 2 == 15 # 2 /\ Capture.delay 3 == 45 # 4
  /\ Capture.delay 4 == 135 # 8 /\ Capture.delay 5 == 405 # 16
  /\ Capture.delay 6 == 30 /\ Capture.delay 7 == 30 /\ Capture.delay 8 == 30
  /\ Capture.delay 9 == 30 /\ Capture.delay 10 == 30.
Proof. repeat split; vm_compute; reflexivity. Qed.

Lemma delay_late n : 10 < n -> Capture.delay n = 30%Q.
Proof.
  intros H. unfold Capture.delay, Capture.max_reconnect_attempts.
  replace (n <=? 10) with false; [reflexivity | symmetry; apply Z.leb_gt; exact H].
Qed.

(** X17. The wait before a reconnection, the attempts counted from 1: it is
    5 s before the second connection, grows by half with every failure, never
    exceeds 30 s and is 30 s from the sixth failure in a row on. *)
Theorem reconnect_delay_is_bounded :
  forall n,
    1 <= n ->
    (5 <= Capture.delay n)%Q /\ (Capture.delay n <= 30)%Q
    /\ (Capture.delay n <= Capture.delay (n + 1))%Q
    /\ (6 <= n -> Capture.delay n == 30)
    /\ (n < 6 -> Capture.delay n == 5 * Qpower (3 # 2) (n - 1)).
Proof.
  intros n Hn.
  destruct delay_values as [V1 [V2 [V3 [V4 [V5 [V6 [V7 [V8 [V9 V10]]]]]]]]].
  destruct (Z_lt_le_dec 10 n) as [Hl | Hs].
  - rewrite (delay_late n Hl), (delay_late (n + 1)) by lia.
    repeat split; try lra; try reflexivity. lia.
  - pose proof (delay_late 11 ltac:(lia)) as V11.
    assert (C : n = 1 \/ n = 2 \/ n = 3 \/ n = 4 \/ n = 5 \/ n = 6 \/ n = 7 \/ n = 8
                \/ n = 9 \/ n = 10) by lia.
    destruct C as [-> | [-> | [-> | [-> | [-> | [-> | [-> | [-> | [-> | ->]]]]]]]]];
      cbn [Z.add Pos.add Pos.succ];
      (repeat split);
      try (intros; lia);
      try (intros _; vm_compute; reflexivity);
      try (rewrite ?V1, ?V2, ?V3, ?V4, ?V5, ?V6, ?V7, ?V8, ?V9, ?V10, ?V11; lra);
      try assumption.
Qed.

Lemma reconnect_delay_is_bounded_witness : (Capture.delay 3 <= 30)%Q.
Proof.
  destruct (reconnect_delay_is_bounded 3) as [_ [H _]]; [lia | exact H].
Defined.

(** ** Connecting to the database *)

(** X18. [connect_database] calls [connect] at most three times and stops at
    the first call that yields a live connection.  It sleeps only after a
    call that raised an error and was not the last, first 2 s and then 4 s:
    6 s at most.  It returns with a live connection exactly when one of the
    three calls it can make yields one, and without one only after three
    calls. *)
Theorem connect_database_tries_three_times :
  forall world,
    let '(connected, calls, slept) := ConnectDatabase.connect_database world in
    (1 <= calls <= 3)%nat
    /\ (slept = [] \/ slept = [2] \/ slept = [2; 4])
    /\ (connected = true ->
        world (calls - 1)%nat = ConnectDatabase.Connected
        /\ forall k, (k < calls - 1)%nat -> world k <> ConnectDatabase.Connected)
    /\ (connected = false ->
        calls = 3%nat
        /\ forall k, (k < 3)%nat -> world k <> ConnectDatabase.Connected)
    /\ (List.length slept
        <= List.length (filter (fun k => match world k with
                                         | ConnectDatabase.Failed => true
                                         | _ => false
                                         end) [0; 1]%nat))%nat.
Proof.
  intros world.
  unfold ConnectDatabase.connect_database, ConnectDatabase.max_retries.
  cbn [ConnectDatabase.attempts_from filter].
  destruct (world 0%nat) eqn:W0; simpl;
    [ | destruct (world 1%nat) eqn:W1; simpl;
          [ | destruct (world 2%nat) eqn:W2; simpl | destruct (world 2%nat) eqn:W2; simpl ]
      | destruct (world 1%nat) eqn:W1; simpl;
          [ | destruct (world 2%nat) eqn:W2; simpl | destruct (world 2%nat) eqn:W2; simpl ] ];
    (repeat split); auto; try lia; try discriminate;
    try (intros k Hk;
         assert (C : (k = 0 \/ k = 1 \/ k = 2)%nat) by lia;
         destruct C as [-> | [-> | ->]]; try congruence; lia).
Qed.

(** ** Rows and resets *)

Section RowsAndResets.
Import EnhancedMaterialDippingDetection.
Variable pointPolygonTest : list (Z * Z) -> Z * Z -> Q.

Ltac split_ifs :=
  repeat match goal with
         | |- context [if ?b then _ else _] => destruct b
         | |- context [match ?o with Some _ => _ | None => _ end] => destruct o
         end.

Lemma forget_start_session e t tm :
  forget_totals (DailyTimer.start_session e t tm)
  = forget_totals (DailyTimer.start_session e t (forget_totals tm)).
Proof.
  destruct tm as [n total lrd start active].
  unfold DailyTimer.start_session, DailyTimer.check_daily_reset, forget_totals; simpl.
  destruct active; simpl; [reflexivity|].
  destruct (lrd <? date_of (now e)); destruct (0 <? date_of (now e)); reflexivity.
Qed.

Lemma forget_end_session t tm :
  forget_totals (fst (DailyTimer.end_session t tm))
  = forget_totals (fst (DailyTimer.end_session t (forget_totals tm)))
  /\ snd (DailyTimer.end_session t tm) = snd (DailyTimer.end_session t (forget_totals tm)).
Proof.
  destruct tm as [n total lrd start active].
  unfold DailyTimer.end_session, forget_totals; simpl.
  destruct active; destruct start; simpl; auto.
Qed.

Lemma forget_area_step e t d tr :
  forget_area (fst (IndependentAreaTracker.update_detection e t d tr))
  = forget_area (fst (IndependentAreaTracker.update_detection e t d (forget_area tr)))
  /\ snd (IndependentAreaTracker.update_detection e t d tr)
     = snd (IndependentAreaTracker.update_detection e t d (forget_area tr)).
Proof.
  unfold IndependentAreaTracker.update_detection, IndependentAreaTracker.handle_material_exit,
    IndependentAreaTracker.save_area_data.
  cbn [forget_area IndependentAreaTracker.is_material_present
       IndependentAreaTracker.last_detection_time IndependentAreaTracker.material_start_time
       IndependentAreaTracker.material_lost_threshold IndependentAreaTracker.daily_timer
       IndependentAreaTracker.area_name IndependentAreaTracker.area_bbox
       IndependentAreaTracker.area_name_db IndependentAreaTracker.area_number
       IndependentAreaTracker.material_entry_time].
  destruct (forget_end_session t (IndependentAreaTracker.daily_timer tr)) as [E1 E2].
  pose proof (forget_start_session e t (IndependentAreaTracker.daily_timer tr)) as E3.
  destruct d.
  - destruct (IndependentAreaTracker.is_material_present tr); simpl;
      unfold forget_area; simpl; [auto|]. split; [now rewrite E3 | reflexivity].
  - destruct (IndependentAreaTracker.is_material_present tr); [|auto].
    destruct (IndependentAreaTracker.last_detection_time tr); [|auto].
    destruct (_ <=? _); [|auto].
    destruct (IndependentAreaTracker.material_start_time tr); [|auto].
    destruct (DailyTimer.end_session t (IndependentAreaTracker.daily_timer tr)) as [tm1 d1].
    destruct (DailyTimer.end_session t
                (forget_totals (IndependentAreaTracker.daily_timer tr))) as [tm2 d2].
    cbn [fst snd] in *. subst d2. unfold forget_area; simpl. now rewrite E1.
Qed.

Lemma forget_end_freetime e t r ft :
  forget_freetime (fst (FreetimeTracker.end_freetime e t r ft))
  = forget_freetime (fst (FreetimeTracker.end_freetime e t r (forget_freetime ft)))
  /\ snd (FreetimeTracker.end_freetime e t r ft)
     = snd (FreetimeTracker.end_freetime e t r (forget_freetime ft)).
Proof.
  unfold FreetimeTracker.end_freetime, FreetimeTracker.save_freetime_data.
  cbn [forget_freetime FreetimeTracker.is_freetime_active
       FreetimeTracker.freetime_start_time FreetimeTracker.daily_timer
       FreetimeTracker.area_name_db FreetimeTracker.freetime_threshold
       FreetimeTracker.all_empty_start].
  destruct (forget_end_session t (FreetimeTracker.daily_timer ft)) as [E1 E2].
  destruct (FreetimeTracker.is_freetime_active ft); [|auto].
  destruct (FreetimeTracker.freetime_start_time ft); [|auto].
  destruct (DailyTimer.end_session t (FreetimeTracker.daily_timer ft)) as [tm1 d1].
  destruct (DailyTimer.end_session t (forget_totals (FreetimeTracker.daily_timer ft)))
    as [tm2 d2].
  cbn [fst snd] in *. subst d2. unfold forget_freetime; simpl. now rewrite E1.
Qed.

Lemma forget_freetime_step e b t ft :
  forget_freetime (fst (FreetimeTracker.update_freetime_status e b t ft))
  = forget_freetime (fst (FreetimeTracker.update_freetime_status e b t (forget_freetime ft)))
  /\ snd (FreetimeTracker.update_freetime_status e b t ft)
     = snd (FreetimeTracker.update_freetime_status e b t (forget_freetime ft)).
Proof.
  unfold FreetimeTracker.update_freetime_status.
  pose proof (forget_start_session e t (FreetimeTracker.daily_timer ft)) as E3.
  destruct (forget_end_freetime e t "material_detected" ft) as [F1 F2].
  destruct b.
  - cbn [forget_freetime FreetimeTracker.all_empty_start FreetimeTracker.is_freetime_active
         FreetimeTracker.freetime_threshold FreetimeTracker.daily_timer
         FreetimeTracker.area_name_db FreetimeTracker.freetime_start_time].
    destruct (FreetimeTracker.all_empty_start ft); [|auto].
    destruct (_ && _); [|auto].
    unfold forget_freetime; simpl. split; [now rewrite E3 | reflexivity].
  - change (FreetimeTracker.is_freetime_active (forget_freetime ft))
      with (FreetimeTracker.is_freetime_active ft).
    destruct (FreetimeTracker.is_freetime_active ft).
    + destruct (FreetimeTracker.end_freetime e t "material_detected" ft) as [s1 r1].
      destruct (FreetimeTracker.end_freetime e t "material_detected" (forget_freetime ft))
        as [s2 r2].
      cbn [fst snd] in *. subst r2. split; [|reflexivity].
      unfold forget_freetime in *. simpl. inversion F1. congruence.
    + auto.
Qed.

Lemma forget_glove_step e t d ft g :
  let a := GloveTracker.update_glove_detection e t d ft g in
  let b := GloveTracker.update_glove_detection e t d (forget_freetime ft) (forget_glove g) in
  forget_glove (fst (fst a)) = forget_glove (fst (fst b))
  /\ forget_freetime (snd (fst a)) = forget_freetime (snd (fst b))
  /\ snd a = snd b.
Proof.
  cbv zeta. unfold GloveTracker.update_glove_detection, GloveTracker.handle_glove_exit,
    GloveTracker.save_glove_data.
  cbn [forget_glove GloveTracker.is_glove_detected GloveTracker.last_glove_detection
       GloveTracker.glove_lost_threshold GloveTracker.glove_start_time
       GloveTracker.was_freetime_before_glove GloveTracker.daily_timer
       GloveTracker.area_polygon GloveTracker.area_name_db].
  change (FreetimeTracker.is_freetime_active (forget_freetime ft))
    with (FreetimeTracker.is_freetime_active ft).
  destruct (forget_end_session t (GloveTracker.daily_timer g)) as [E1 E2].
  pose proof (forget_start_session e t (GloveTracker.daily_timer g)) as E3.
  destruct (forget_end_freetime e t "glove_detected" ft) as [F1 F2].
  destruct d.
  - destruct (GloveTracker.is_glove_detected g); cbn [negb fst snd]; [auto|].
    destruct (FreetimeTracker.is_freetime_active ft); [|auto].
    destruct (FreetimeTracker.end_freetime e t "glove_detected" ft) as [s1 r1].
    destruct (FreetimeTracker.end_freetime e t "glove_detected" (forget_freetime ft))
      as [s2 r2].
    cbn [fst snd] in *. subst r2.
    split; [unfold forget_glove; simpl; now rewrite E3 | split; [exact F1 | reflexivity]].
  - destruct (GloveTracker.is_glove_detected g); [|auto].
    destruct (GloveTracker.last_glove_detection g); [|auto].
    destruct (_ <=? _); [|auto].
    destruct (GloveTracker.glove_start_time g); [|auto].
    destruct (GloveTracker.was_freetime_before_glove g); [|auto].
    destruct (DailyTimer.end_session t (GloveTracker.daily_timer g)) as [tm1 d1].
    destruct (DailyTimer.end_session t (forget_totals (GloveTracker.daily_timer g)))
      as [tm2 d2].
    cbn [fst snd] in *. subst d2. unfold forget_glove; simpl. now rewrite E1.
Qed.

Lemma forget_engine_trackers self :
  area_trackers (forget_engine self) = map forget_entry (area_trackers self).
Proof. reflexivity. Qed.

Lemma forget_first_area_inside trackers bbox :
  first_area_inside (map forget_entry trackers) bbox = first_area_inside trackers bbox.
Proof.
  induction trackers as [|[n tr] rest IH]; [reflexivity|].
  cbn [map forget_entry fst snd first_area_inside].
  change (IndependentAreaTracker.is_inside_area (forget_area tr) bbox)
    with (IndependentAreaTracker.is_inside_area tr bbox).
  now rewrite IH.
Qed.

Lemma forget_process_box self flags box :
  process_box pointPolygonTest (forget_engine self) flags box
  = process_box pointPolygonTest self flags box.
Proof.
  unfold process_box. rewrite forget_engine_trackers, forget_first_area_inside.
  reflexivity.
Qed.

Lemma forget_detection_flags self boxes :
  detection_flags pointPolygonTest (forget_engine self) boxes
  = detection_flags pointPolygonTest self boxes.
Proof.
  unfold detection_flags. rewrite forget_engine_trackers, map_map.
  assert (E : map (fun x => let '(n, _) := forget_entry x in (n, false)) (area_trackers self)
              = map (fun '(n, _) => (n, false)) (area_trackers self)).
  { apply map_ext. now intros [n tr]. }
  rewrite E. destruct boxes as [bs|]; [|reflexivity].
  generalize (map (fun '(n, _) => (n, false)) (area_trackers self), false).
  induction bs as [|b bs IH]; intros flags; [reflexivity|].
  cbn [fold_left]. now rewrite forget_process_box, IH.
Qed.

Lemma forget_update_area_trackers e t md trackers :
  map forget_entry (fst (update_area_trackers e t md trackers))
  = map forget_entry (fst (update_area_trackers e t md (map forget_entry trackers)))
  /\ snd (update_area_trackers e t md trackers)
     = snd (update_area_trackers e t md (map forget_entry trackers)).
Proof.
  induction trackers as [|[n tr] rest [IH1 IH2]]; [now split|].
  cbn [map forget_entry fst snd update_area_trackers].
  destruct (forget_area_step e t (get_flag n md) tr) as [A1 A2].
  destruct (IndependentAreaTracker.update_detection e t (get_flag n md) tr) as [tr1 r1].
  destruct (IndependentAreaTracker.update_detection e t (get_flag n md) (forget_area tr))
    as [tr2 r2].
  destruct (update_area_trackers e t md rest) as [rest1 q1].
  destruct (update_area_trackers e t md (map forget_entry rest)) as [rest2 q2].
  cbn [fst snd map forget_entry] in *. subst. split; [|reflexivity].
  unfold forget_entry at 1 3; cbn [fst snd]. now rewrite A1, IH1.
Qed.

(** One frame: what it writes, and the state it leaves apart from the daily
    totals, do not depend on the daily totals. *)
Lemma forget_engine_step e boxes t self :
  forget_engine (fst (update_all_trackers pointPolygonTest e boxes t self))
  = forget_engine (fst (update_all_trackers pointPolygonTest e boxes t (forget_engine self)))
  /\ snd (update_all_trackers pointPolygonTest e boxes t self)
     = snd (update_all_trackers pointPolygonTest e boxes t (forget_engine self)).
Proof.
  unfold update_all_trackers. rewrite forget_detection_flags.
  destruct (detection_flags pointPolygonTest self boxes) as [md gd].
  rewrite forget_engine_trackers.
  destruct (forget_update_area_trackers e t md (area_trackers self)) as [A1 A2].
  destruct (update_area_trackers e t md (area_trackers self)) as [trs1 r1].
  destruct (update_area_trackers e t md (map forget_entry (area_trackers self)))
    as [trs2 r2].
  cbn [freetime_tracker glove_tracker forget_engine].
  destruct (forget_freetime_step e (negb (existsb snd md)) t (freetime_tracker self))
    as [F1 F2].
  destruct (FreetimeTracker.update_freetime_status e (negb (existsb snd md)) t
              (freetime_tracker self)) as [ft1 q1].
  destruct (FreetimeTracker.update_freetime_status e (negb (existsb snd md)) t
              (forget_freetime (freetime_tracker self))) as [ft2 q2].
  cbn [fst snd] in *. subst.
  pose proof (forget_glove_step e t gd ft1 (glove_tracker self)) as G1.
  pose proof (forget_glove_step e t gd ft2 (forget_glove (glove_tracker self))) as G2.
  cbv zeta in G1, G2.
  assert (FG : forget_glove (forget_glove (glove_tracker self))
               = forget_glove (glove_tracker self)) by reflexivity.
  rewrite FG, <- F1 in G2.
  destruct (GloveTracker.update_glove_detection e t gd ft1 (glove_tracker self))
    as [[g1 f1] s1].
  destruct (GloveTracker.update_glove_detection e t gd ft2
              (forget_glove (glove_tracker self))) as [[g2 f2] s2].
  destruct (GloveTracker.update_glove_detection e t gd (forget_freetime ft1)
              (forget_glove (glove_tracker self))) as [[g3 f3] s3].
  cbn [fst snd] in *.
  destruct G1 as (G1a & G1b & G1c). destruct G2 as (G2a & G2b & G2c). subst.
  split; [|reflexivity].
  unfold forget_engine; cbn [area_trackers freetime_tracker glove_tracker].
  congruence.
Qed.

Lemma forget_engine_twice self : forget_engine (forget_engine self) = forget_engine self.
Proof.
  unfold forget_engine; cbn [area_trackers freetime_tracker glove_tracker].
  rewrite map_map.
  rewrite (map_ext (fun x => forget_entry (forget_entry x)) forget_entry);
    [reflexivity | now intros [n tr]].
Qed.

Lemma forget_engine_run fs : forall self,
  forget_engine (fst (Engine.run pointPolygonTest fs self))
  = forget_engine (fst (Engine.run pointPolygonTest fs (forget_engine self)))
  /\ snd (Engine.run pointPolygonTest fs self)
     = snd (Engine.run pointPolygonTest fs (forget_engine self)).
Proof.
  induction fs as [|f fs IH]; intros self;
    [cbn [Engine.run fst snd]; now rewrite forget_engine_twice|].
  cbn [Engine.run].
  destruct (forget_engine_step (Engine.f_env f) (Engine.f_boxes f) (Engine.f_time f) self)
    as [S1 S2].
  destruct (update_all_trackers pointPolygonTest (Engine.f_env f) (Engine.f_boxes f)
              (Engine.f_time f) self) as [s1 r1].
  destruct (update_all_trackers pointPolygonTest (Engine.f_env f) (Engine.f_boxes f)
              (Engine.f_time f) (forget_engine self)) as [s2 r2].
  cbn [fst snd] in *. subst r2.
  destruct (IH s1) as [I1 I2]. destruct (IH s2) as [J1 J2].
  rewrite <- S1 in J1, J2.
  destruct (Engine.run pointPolygonTest fs s1) as [a1 b1].
  destruct (Engine.run pointPolygonTest fs s2) as [a2 b2].
  destruct (Engine.run pointPolygonTest fs (forget_engine s1)) as [a3 b3].
  cbn [fst snd] in *. split; congruence.
Qed.

Lemma forget_reset_all e self :
  forget_engine (reset_all_daily_timers e self) = forget_engine self.
Proof.
  unfold forget_engine, reset_all_daily_timers;
    cbn [area_trackers freetime_tracker glove_tracker].
  rewrite map_map.
  rewrite (map_ext (fun x => forget_entry
                               (fst x, IndependentAreaTracker.reset_daily_timer e (snd x)))
             forget_entry);
    [reflexivity | now intros [n tr]].
Qed.

(** X19. A forced daily reset changes no record: whatever frames came before
    it, the frames after it write the same rows, in the same order, as they
    would have written without the reset, and they leave every tracker in the
    same state apart from its timer's daily total and reset date. *)
Theorem reset_changes_no_record e fs1 fs2 self :
  let before := fst (Engine.run pointPolygonTest fs1 self) in
  snd (Engine.run pointPolygonTest fs2 (reset_all_daily_timers e before))
  = snd (Engine.run pointPolygonTest fs2 before)
  /\ forget_engine (fst (Engine.run pointPolygonTest fs2 (reset_all_daily_timers e before)))
     = forget_engine (fst (Engine.run pointPolygonTest fs2 before)).
Proof.
  cbv zeta. set (before := fst (Engine.run pointPolygonTest fs1 self)).
  destruct (forget_engine_run fs2 (reset_all_daily_timers e before)) as [R1 R2].
  destruct (forget_engine_run fs2 before) as [B1 B2].
  rewrite forget_reset_all in R1, R2. split; congruence.
Qed.

End RowsAndResets.
